(** * Portrait-studio booking backend: studio-number allocation and
      booking listing, verified over a shallow embedding of
      [controllers/booking.controller.js].

    The controller talks to a relational store through the Prisma client.
    Each [await prisma.…] call of the source is one primitive of the
    monad [M] below; the store is an explicit table state, every call is
    recorded in a trace, and writes of concurrent requests may land
    between two calls of the request under study (field [pending]).

    Beside the allocator and the list, the development covers the other
    requests of the controller: create, read, update and delete, the
    consent signature with the files of [utils/fileStorage], and the
    statistics per sales person; the date and time formats of
    [routes/booking.routes]; and the location code of
    [utils/locationCode]. *)

From Stdlib Require Import ZArith String Ascii List Lia Sorted Permutation.
From Stdlib Require Import OrderedTypeEx.
From stdpp Require Import base option list gmap strings sorting pretty.

Local Open Scope string_scope.
Local Open Scope list_scope.
Local Open Scope Z_scope.

(** ** JavaScript values used by the controller *)

(** A nullable string column or an optional string of the request:
    [None] is [null]/[undefined].  The empty string is falsy. *)
Definition truthy (o : option string) : bool :=
  match o with
  | Some s => negb (String.eqb s "")
  | None => false
  end.

(** [a || b] on nullable strings. *)
Definition jsOr (a b : option string) : option string :=
  if truthy a then a else b.

(** [a || null]. *)
Definition orNull (a : option string) : option string := jsOr a None.

(** [n || d] on the result of [parseInt] ([None] is [NaN]; [0] is falsy). *)
Definition numOr (n : option Z) (d : Z) : Z :=
  match n with
  | Some v => if v =? 0 then d else v
  | None => d
  end.

(** A field of a JSON request body whose type the controller tests:
    absent, [null], a string, or a value of another type (a number, a
    boolean, an array, an object) of which only the truthiness matters. *)
Inductive JsValue :=
  | JsUndefined
  | JsNull
  | JsString (s : string)
  | JsOther (isTruthy : bool).

Definition jsTruthy (v : JsValue) : bool :=
  match v with
  | JsString s => negb (String.eqb s "")
  | JsOther t => t
  | JsUndefined | JsNull => false
  end.

(** [typeof v === 'string']. *)
Definition isJsString (v : JsValue) : bool :=
  match v with JsString _ => true | _ => false end.

(** [v || null]. *)
Definition jsOrNull (v : JsValue) : JsValue :=
  if jsTruthy v then v else JsNull.

(** What a nullable string column takes from a value: [Some None] for
    [null] (or an absent field), [None] when the client refuses it. *)
Definition columnOfJs (v : JsValue) : option (option string) :=
  match v with
  | JsString s => Some (Some s)
  | JsNull | JsUndefined => Some None
  | JsOther _ => None
  end.

Definition is_digit (c : ascii) : bool :=
  let n := N_of_ascii c in ((48 <=? n) && (n <=? 57))%N.

(** [s.replace(/\D/g, '')]: keep the decimal digits only. *)
Fixpoint stripNonDigits (s : string) : string :=
  match s with
  | EmptyString => EmptyString
  | String c rest =>
      if is_digit c then String c (stripNonDigits rest) else stripNonDigits rest
  end.

Fixpoint allDigits (s : string) : bool :=
  match s with
  | EmptyString => true
  | String c rest => is_digit c && allDigits rest
  end.

Definition upper_ascii (c : ascii) : ascii :=
  let n := N_of_ascii c in
  if ((97 <=? n) && (n <=? 122))%N then ascii_of_N (n - 32) else c.

(** [s.toUpperCase()] on the ASCII letters; the status and payment names
    the controller compares against are ASCII.  The method also maps
    letters outside ASCII (the dotless i, U+0131, becomes [I]); the bytes
    of such a letter are left as they are here, so the function is the
    method on ASCII strings only. *)
Fixpoint toUpperCase (s : string) : string :=
  match s with
  | EmptyString => EmptyString
  | String c rest => String (upper_ascii c) (toUpperCase rest)
  end.

Definition is_js_space (c : ascii) : bool :=
  let n := N_of_ascii c in
  ((n =? 32) || (n =? 9) || (n =? 10) || (n =? 11) || (n =? 12) || (n =? 13))%N.

Fixpoint trimStart (s : string) : string :=
  match s with
  | EmptyString => EmptyString
  | String c rest => if is_js_space c then trimStart rest else s
  end.

Definition trimEnd (s : string) : string :=
  String.rev (trimStart (String.rev s)).

(** [s.trim()], on the ASCII white space.  The method strips the
    no-break space (U+00A0) and the other Unicode spaces as well, so the
    function is the method on ASCII strings only. *)
Definition trim (s : string) : string := trimEnd (trimStart s).

(** [a.localeCompare(b)] as [-1], [0] or [1].  The method does not
    compare character codes: it collates.  In the collation order the
    hyphen and the colon come before the digits (in the character codes
    the colon comes after them), and the digits stand in the order of
    their values.  [collationRank] places a character in that order, and
    two strings are compared rank by rank from the left, a proper prefix
    first.

    The ranks are those of collation for the digits, the hyphen and the
    colon, the characters of dates and times.  Every other character is
    ranked by its code, which is not where collation puts it (letters, for
    one, are collated without regard to case first): the theorems on the
    order of the list are stated for strings of the former kind. *)
Definition collationRank (c : ascii) : N :=
  if Ascii.eqb c ":" then 2 * N_of_ascii "-" + 1 else 2 * N_of_ascii c.

Fixpoint collate (a b : string) : comparison :=
  match a, b with
  | EmptyString, EmptyString => Eq
  | EmptyString, String _ _ => Lt
  | String _ _, EmptyString => Gt
  | String x a', String y b' =>
      match N.compare (collationRank x) (collationRank y) with
      | Eq => collate a' b'
      | Lt => Lt
      | Gt => Gt
      end
  end.

Definition localeCompare (a b : string) : Z :=
  match collate a b with
  | Lt => -1
  | Eq => 0
  | Gt => 1
  end.

(** The order of the character codes, position by position: the
    lexicographic order of two strings, as [-1], [0] or [1]. *)
Definition lexicographic (a b : string) : Z :=
  match String.compare a b with
  | Lt => -1
  | Eq => 0
  | Gt => 1
  end.

(** [Array.prototype.slice(start, end)]: a negative index counts from
    the end, and both ends are clamped to the array. *)
Definition slice {A} (l : list A) (start stop : Z) : list A :=
  let len := Z.of_nat (length l) in
  let k := if start <? 0 then Z.max (len + start) 0 else Z.min start len in
  let final := if stop <? 0 then Z.max (len + stop) 0 else Z.min stop len in
  firstn (Z.to_nat (Z.max (final - k) 0)) (skipn (Z.to_nat k) l).

(** [Math.ceil(a / b)] for integers [a] and [b <> 0]. *)
Definition ceilDiv (a b : Z) : Z := - ((- a) / b).

(** [new Map(entries)]: entries are inserted in order, so a later entry
    replaces an earlier one with the same key. *)
Definition newMap {V} (entries : list (string * V)) : gmap string V :=
  fold_left (fun m kv => <[fst kv := snd kv]> m) entries ∅.

(** ** Data model *)

(** Modelled from the spec: the schema file (prisma/schema.prisma) that
    declares the enum of booking statuses is not part of the sources; the
    members are the six names [createBooking] accepts plus [VIDEO_CALL],
    which the list summary counts. *)
Inductive BookingStatus :=
  | BOOKED | CONFIRMED | TBC | CANCELLED | NO_ANSWER | WLMK | VIDEO_CALL.

Definition statusName (st : BookingStatus) : string :=
  match st with
  | BOOKED => "BOOKED"
  | CONFIRMED => "CONFIRMED"
  | TBC => "TBC"
  | CANCELLED => "CANCELLED"
  | NO_ANSWER => "NO_ANSWER"
  | WLMK => "WLMK"
  | VIDEO_CALL => "VIDEO_CALL"
  end.

Definition allStatuses : list BookingStatus :=
  [BOOKED; CONFIRMED; TBC; CANCELLED; NO_ANSWER; WLMK; VIDEO_CALL].

Definition statusOfName (s : string) : option BookingStatus :=
  find (fun st => String.eqb (statusName st) s) allStatuses.

#[global] Instance BookingStatus_eq_dec : EqDecision BookingStatus.
Proof. solve_decision. Defined.

Definition status_eqb (a b : BookingStatus) : bool :=
  String.eqb (statusName a) (statusName b).

(** Modelled from the spec: the payment-method enum of the missing schema
    file, [CASH], [CARD] and [NOT_PAID]. *)
Inductive PaymentMethod := CASH | CARD | NOT_PAID.

Definition paymentOfName (s : string) : option PaymentMethod :=
  if String.eqb s "CASH" then Some CASH
  else if String.eqb s "CARD" then Some CARD
  else if String.eqb s "NOT_PAID" then Some NOT_PAID
  else None.

Module Booking.
(** A row of the booking table.  The two timestamps are left out: they
    are produced by the clock of the store and no operation reads them. *)
Record t := mk {
  id : string;
  customerName : string;
  phoneNumber : string;
  emergencyPhoneNumber : option string;
  photoshootType : string;
  sessionDate : option string;
  sessionTime : option string;
  specialRequestDate : option string;
  specialRequestTime : option string;
  paymentMethod : PaymentMethod;
  status : BookingStatus;
  notes : option string;
  studioNotes : option string;
  cancellationReason : option string;
  locationId : option string;
  salesPersonId : string;
  studioNumber : option Z;
  collectionDate : option string;
  collectionTime : option string;
  signaturePath : option string;
  consentFormSigned : bool
}.
End Booking.

Module Location.
Record t := mk { id : string; name : string; code : option string }.
End Location.

Module User.
Record t := mk {
  id : string; name : string; email : option string; role : string
}.
End User.

Record Store := mkStore {
  bookings : list Booking.t;
  locations : list Location.t;
  users : list User.t
}.

(** ** Arguments of the Prisma calls *)

(** The [data] object of [prisma.booking.update]: a field that is [None]
    is not part of the object and stays as it is. *)
Record BookingUpdateInput := mkUpdate {
  u_customerName : option string;
  u_phoneNumber : option string;
  u_emergencyPhoneNumber : option (option string);
  u_photoshootType : option string;
  u_sessionDate : option (option string);
  u_sessionTime : option (option string);
  u_specialRequestDate : option (option string);
  u_specialRequestTime : option (option string);
  u_paymentMethod : option string;
  u_status : option string;
  u_notes : option (option string);
  u_studioNotes : option (option string);
  u_cancellationReason : option (option string);
  u_locationId : option (option string);
  u_collectionDate : option (option string);
  u_collectionTime : option (option string);
  u_studioNumber : option (option Z);
  u_signaturePath : option (option string);
  u_consentFormSigned : option bool
}.

(** The [data] object of [prisma.booking.create]. *)
Record BookingCreateInput := mkCreate {
  c_customerName : string;
  c_phoneNumber : string;
  c_emergencyPhoneNumber : option string;
  c_photoshootType : string;
  c_sessionDate : JsValue;
  c_sessionTime : JsValue;
  c_specialRequestDate : JsValue;
  c_specialRequestTime : JsValue;
  c_paymentMethod : string;
  c_status : string;
  c_notes : option string;
  c_locationId : option string;
  c_salesPersonId : string
}.

(** The [where] object [getBookings] builds. *)
Record BookingWhere := mkWhere {
  w_salesPersonId : option string;
  w_locationId : option string;
  w_status : option string;
  w_hasCollection : bool
}.

(** The [where] object [getBookingsBySalesPerson] builds; the condition
    [paymentMethod: { not: 'NOT_PAID' }] is always part of it.  The
    creation timestamp is not a field of [Booking.t]: the window
    [createdAt: { gte: today, lt: tomorrow }] is kept as the set of rows
    whose timestamp lies in it. *)
Record StatsWhere := mkStatsWhere {
  sw_locationId : option string;
  sw_createdAt : option (Booking.t -> bool);
  sw_salesPersonId : option string
}.

Inductive PrismaError :=
  | P2002            (* unique constraint failed *)
  | P2025            (* record to update or delete not found *)
  | ValidationError. (* a value outside the declared type *)

Inductive Event :=
  | BookingFindUnique (id : string)
  | BookingFindMany
  | BookingCount
  | BookingFindFirst (locationId : string) (studioNumber : Z)
      (notId : string) (found : bool)
  | BookingCreate (id : string)
  | BookingUpdate (id : string) (data : BookingUpdateInput)
  | LocationFindUnique (id : string)
  | UserFindUnique (id : string)
  | BookingDelete (id : string)
  | UserFindMany (ids : list string).

Definition isWrite (e : Event) : bool :=
  match e with
  | BookingCreate _ | BookingUpdate _ _ | BookingDelete _ => true
  | _ => false
  end.

(** ** The store as the Prisma client sees it *)

Definition findBooking (id : string) (s : Store) : option Booking.t :=
  find (fun b => String.eqb (Booking.id b) id) (bookings s).

Definition findLocation (id : string) (s : Store) : option Location.t :=
  find (fun l => String.eqb (Location.id l) id) (locations s).

Definition findUser (id : string) (s : Store) : option User.t :=
  find (fun u => String.eqb (User.id u) id) (users s).

Definition optStringEqb (a : option string) (b : string) : bool :=
  match a with Some x => String.eqb x b | None => false end.

Definition isSome {A} (o : option A) : bool :=
  match o with Some _ => true | None => false end.

(** A [where] field that is absent puts no condition on the row. *)
Definition matchesWhere (wh : BookingWhere) (b : Booking.t) : bool :=
  match w_salesPersonId wh with
  | Some sp => String.eqb (Booking.salesPersonId b) sp | None => true end
  && match w_locationId wh with
     | Some l => optStringEqb (Booking.locationId b) l | None => true end
  && match w_status wh with
     | Some st => String.eqb (statusName (Booking.status b)) st | None => true end
  && (if w_hasCollection wh
      then isSome (Booking.collectionDate b) && isSome (Booking.collectionTime b)
      else true).

(** The client refuses a [status] filter that is not a member of the enum. *)
Definition whereValid (wh : BookingWhere) : bool :=
  match w_status wh with
  | Some st => isSome (statusOfName st)
  | None => true
  end.

Definition selectWhere (wh : BookingWhere) (s : Store) : list Booking.t :=
  filter (fun b => matchesWhere wh b = true) (bookings s).

(** [where: { locationId, studioNumber: { not: null } }],
    [select: { studioNumber }], [orderBy: { studioNumber: 'asc' }]. *)
Definition numbersAt (loc : string) (rows : list Booking.t) : list Z :=
  omap (fun b => if optStringEqb (Booking.locationId b) loc
                 then Booking.studioNumber b else None) rows.

Definition studioNumbersAsc (loc : string) (s : Store) : list Z :=
  merge_sort Z.le (numbersAt loc (bookings s)).

(** [where: { locationId, studioNumber: n, id: { not: id } }]. *)
Definition holdsNumber (loc : string) (n : Z) (notId : string)
    (b : Booking.t) : bool :=
  optStringEqb (Booking.locationId b) loc
  && match Booking.studioNumber b with Some m => m =? n | None => false end
  && negb (String.eqb (Booking.id b) notId).

Definition findHolder (loc : string) (n : Z) (notId : string) (s : Store)
    : option Booking.t :=
  find (holdsNumber loc n notId) (bookings s).

Definition selectIds (ids : list string) (s : Store) : list Booking.t :=
  filter (fun b => existsb (String.eqb (Booking.id b)) ids = true) (bookings s).

Definition setField {A} (new : option A) (old : A) : A :=
  match new with Some v => v | None => old end.

(** The row after an update; [None] when a value does not fit its column
    (a status or payment name outside the enum, [NaN] for the number). *)
Definition applyUpdate (d : BookingUpdateInput) (b : Booking.t)
    : option Booking.t :=
  st ← match u_status d with
       | Some n => statusOfName n | None => Some (Booking.status b) end;
  pm ← match u_paymentMethod d with
       | Some n => paymentOfName n | None => Some (Booking.paymentMethod b) end;
  num ← match u_studioNumber d with
        | Some None => None
        | Some (Some n) => Some (Some n)
        | None => Some (Booking.studioNumber b) end;
  Some {|
    Booking.id := Booking.id b;
    Booking.customerName := setField (u_customerName d) (Booking.customerName b);
    Booking.phoneNumber := setField (u_phoneNumber d) (Booking.phoneNumber b);
    Booking.emergencyPhoneNumber :=
      setField (u_emergencyPhoneNumber d) (Booking.emergencyPhoneNumber b);
    Booking.photoshootType :=
      setField (u_photoshootType d) (Booking.photoshootType b);
    Booking.sessionDate := setField (u_sessionDate d) (Booking.sessionDate b);
    Booking.sessionTime := setField (u_sessionTime d) (Booking.sessionTime b);
    Booking.specialRequestDate :=
      setField (u_specialRequestDate d) (Booking.specialRequestDate b);
    Booking.specialRequestTime :=
      setField (u_specialRequestTime d) (Booking.specialRequestTime b);
    Booking.paymentMethod := pm;
    Booking.status := st;
    Booking.notes := setField (u_notes d) (Booking.notes b);
    Booking.studioNotes := setField (u_studioNotes d) (Booking.studioNotes b);
    Booking.cancellationReason :=
      setField (u_cancellationReason d) (Booking.cancellationReason b);
    Booking.locationId := setField (u_locationId d) (Booking.locationId b);
    Booking.salesPersonId := Booking.salesPersonId b;
    Booking.studioNumber := num;
    Booking.collectionDate :=
      setField (u_collectionDate d) (Booking.collectionDate b);
    Booking.collectionTime :=
      setField (u_collectionTime d) (Booking.collectionTime b);
    Booking.signaturePath := setField (u_signaturePath d) (Booking.signaturePath b);
    Booking.consentFormSigned :=
      setField (u_consentFormSigned d) (Booking.consentFormSigned b)
  |}.

(** Modelled from the spec: the missing schema file declares the studio
    number unique per location, and the controller answers 409 to the
    client's unique-constraint error.  A row breaks the constraint when
    another row has the same location and the same number; rows without a
    location or without a number never do. *)
Definition breaksUnique (b : Booking.t) (rows : list Booking.t) : bool :=
  match Booking.locationId b, Booking.studioNumber b with
  | Some loc, Some n =>
      existsb (holdsNumber loc n (Booking.id b)) rows
  | _, _ => false
  end.

Definition replaceRow (b' : Booking.t) (rows : list Booking.t)
    : list Booking.t :=
  map (fun r => if String.eqb (Booking.id r) (Booking.id b') then b' else r)
      rows.

Definition withBookings (rows : list Booking.t) (s : Store) : Store :=
  {| bookings := rows; locations := locations s; users := users s |}.

Definition updateRow (id : string) (d : BookingUpdateInput) (s : Store)
    : PrismaError + Booking.t * Store :=
  match findBooking id s with
  | None => inl P2025
  | Some b =>
      match applyUpdate d b with
      | None => inl ValidationError
      | Some b' =>
          if breaksUnique b' (bookings s) then inl P2002
          else inr (b', withBookings (replaceRow b' (bookings s)) s)
      end
  end.

Definition rowOfCreate (newId : string) (d : BookingCreateInput)
    : option Booking.t :=
  st ← statusOfName (c_status d);
  pm ← paymentOfName (c_paymentMethod d);
  sd ← columnOfJs (c_sessionDate d);
  stime ← columnOfJs (c_sessionTime d);
  rd ← columnOfJs (c_specialRequestDate d);
  rt ← columnOfJs (c_specialRequestTime d);
  Some {|
    Booking.id := newId;
    Booking.customerName := c_customerName d;
    Booking.phoneNumber := c_phoneNumber d;
    Booking.emergencyPhoneNumber := c_emergencyPhoneNumber d;
    Booking.photoshootType := c_photoshootType d;
    Booking.sessionDate := sd;
    Booking.sessionTime := stime;
    Booking.specialRequestDate := rd;
    Booking.specialRequestTime := rt;
    Booking.paymentMethod := pm;
    Booking.status := st;
    Booking.notes := c_notes d;
    Booking.studioNotes := None;
    Booking.cancellationReason := None;
    Booking.locationId := c_locationId d;
    Booking.salesPersonId := c_salesPersonId d;
    Booking.studioNumber := None;
    Booking.collectionDate := None;
    Booking.collectionTime := None;
    Booking.signaturePath := None;
    Booking.consentFormSigned := false
  |}.

(** [newId] is the identifier the store generates for the new row; the
    primary key refuses an identifier that is already taken. *)
Definition createRow (newId : string) (d : BookingCreateInput) (s : Store)
    : PrismaError + Booking.t * Store :=
  match rowOfCreate newId d with
  | None => inl ValidationError
  | Some b =>
      if isSome (findBooking newId s) then inl P2002
      else inr (b, withBookings (bookings s ++ [b]) s)
  end.

Definition isNotPaid (p : PaymentMethod) : bool :=
  match p with NOT_PAID => true | _ => false end.

Definition matchesStats (wh : StatsWhere) (b : Booking.t) : bool :=
  negb (isNotPaid (Booking.paymentMethod b))
  && match sw_locationId wh with
     | Some l => optStringEqb (Booking.locationId b) l | None => true end
  && match sw_createdAt wh with
     | Some window => window b | None => true end
  && match sw_salesPersonId wh with
     | Some sp => String.eqb (Booking.salesPersonId b) sp | None => true end.

(** [prisma.booking.delete({ where: { id } })]: the row is removed; a
    missing row is the client's error P2025. *)
Definition deleteRow (id : string) (s : Store)
    : PrismaError + Booking.t * Store :=
  match findBooking id s with
  | None => inl P2025
  | Some b =>
      inr (b, withBookings (filter (fun r => Booking.id r <> id) (bookings s)) s)
  end.

(** [where: { id: { in: ids }, role }] on the user table. *)
Definition selectUsers (ids : list string) (role : string) (s : Store)
    : list User.t :=
  filter (fun u => existsb (String.eqb (User.id u)) ids = true
                   /\ User.role u = role) (users s).

(** ** The request monad *)

Record World := mkWorld {
  db : Store;
  trace : list Event;
  pending : list (Store -> Store)
}.

Inductive Outcome (A : Type) :=
  | Val (a : A)
  | Thrown (e : PrismaError).
Arguments Val {A} a.
Arguments Thrown {A} e.

Definition M (A : Type) : Type := World -> Outcome A * World.

Definition ret {A} (a : A) : M A := fun w => (Val a, w).

Definition bind {A B} (m : M A) (k : A -> M B) : M B :=
  fun w =>
    match m w with
    | (Val a, w') => k a w'
    | (Thrown e, w') => (Thrown e, w')
    end.

(** [try { … } catch (error) { … }]. *)
Definition tryCatch {A} (m : M A) (handler : PrismaError -> M A) : M A :=
  fun w =>
    match m w with
    | (Val a, w') => (Val a, w')
    | (Thrown e, w') => handler e w'
    end.

Notation "'await' x := m 'in' k" := (bind m (fun x => k))
  (at level 10, x name, m at level 100, k at level 200).

(** Before a call reaches the store, the next write of another request,
    if one is pending, is applied. *)
Definition interleave (w : World) : World :=
  match pending w with
  | [] => w
  | f :: rest => {| db := f (db w); trace := trace w; pending := rest |}
  end.

Definition record (e : Event) (w : World) : World :=
  {| db := db w; trace := trace w ++ [e]; pending := pending w |}.

(** A read of the store. *)
Definition query {A} (q : Store -> PrismaError + A) (ev : A -> Event)
    (dflt : Event) : M A :=
  fun w =>
    let w1 := interleave w in
    match q (db w1) with
    | inr a => (Val a, record (ev a) w1)
    | inl e => (Thrown e, record dflt w1)
    end.

(** A write to the store. *)
Definition command {A} (c : Store -> PrismaError + A * Store) (ev : Event)
    : M A :=
  fun w =>
    let w1 := record ev (interleave w) in
    match c (db w1) with
    | inr (a, s') =>
        (Val a, {| db := s'; trace := trace w1; pending := pending w1 |})
    | inl e => (Thrown e, w1)
    end.

Module prisma.
Definition booking_findUnique (id : string) : M (option Booking.t) :=
  query (fun s => inr (findBooking id s))
        (fun _ => BookingFindUnique id) (BookingFindUnique id).

Definition location_findUnique (id : string) : M (option Location.t) :=
  query (fun s => inr (findLocation id s))
        (fun _ => LocationFindUnique id) (LocationFindUnique id).

Definition user_findUnique (id : string) : M (option User.t) :=
  query (fun s => inr (findUser id s))
        (fun _ => UserFindUnique id) (UserFindUnique id).

Definition booking_count (wh : BookingWhere) : M Z :=
  query (fun s => if whereValid wh
                  then inr (Z.of_nat (length (selectWhere wh s)))
                  else inl ValidationError)
        (fun _ => BookingCount) BookingCount.

Definition booking_findMany (wh : BookingWhere) : M (list Booking.t) :=
  query (fun s => if whereValid wh then inr (selectWhere wh s)
                  else inl ValidationError)
        (fun _ => BookingFindMany) BookingFindMany.

Definition booking_findManyIn (ids : list string) : M (list Booking.t) :=
  query (fun s => inr (selectIds ids s))
        (fun _ => BookingFindMany) BookingFindMany.

Definition booking_studioNumbers (loc : string) : M (list Z) :=
  query (fun s => inr (studioNumbersAsc loc s))
        (fun _ => BookingFindMany) BookingFindMany.

Definition booking_findFirst (loc : string) (n : Z) (notId : string)
    : M (option Booking.t) :=
  query (fun s => inr (findHolder loc n notId s))
        (fun r => BookingFindFirst loc n notId (isSome r))
        (BookingFindFirst loc n notId false).

Definition booking_update (id : string) (d : BookingUpdateInput)
    : M Booking.t :=
  command (updateRow id d) (BookingUpdate id d).

Definition booking_create (newId : string) (d : BookingCreateInput)
    : M Booking.t :=
  command (createRow newId d) (BookingCreate newId).

Definition booking_delete (id : string) : M Booking.t :=
  command (deleteRow id) (BookingDelete id).

(** [findMany({ where, select: { salesPersonId: true } })]. *)
Definition booking_salesPersonIds (wh : StatsWhere) : M (list string) :=
  query (fun s => inr (map Booking.salesPersonId
                           (filter (fun b => matchesStats wh b = true)
                                   (bookings s))))
        (fun _ => BookingFindMany) BookingFindMany.

Definition user_findMany (ids : list string) (role : string)
    : M (list User.t) :=
  query (fun s => inr (selectUsers ids role s))
        (fun _ => UserFindMany ids) (UserFindMany ids).

End prisma.

(** ** Responses ([utils/response]) *)

Inductive Response (A : Type) :=
  | successResponse (data : A) (message : string) (statusCode : Z)
  | errorResponse (message : string) (statusCode : Z).
Arguments successResponse {A} data message statusCode.
Arguments errorResponse {A} message statusCode.

Definition statusCodeOf {A} (r : Response A) : Z :=
  match r with
  | successResponse _ _ c => c
  | errorResponse _ c => c
  end.

(** ** [allocateStudioNumber] *)

(** The [select] of the final update, with the location attached.
    (The selected timestamps are left out, as in [Booking.t].) *)
Record AllocatedBooking := mkAllocated {
  ab_id : string;
  ab_customerName : string;
  ab_phoneNumber : string;
  ab_sessionDate : option string;
  ab_sessionTime : option string;
  ab_status : BookingStatus;
  ab_studioNumber : option Z;
  ab_locationId : option string;
  ab_location : Location.t
}.

(** The [for] loop over [bookingsWithStudioNumbers]: [rest] is the part
    of the array from index [i] on. *)
Fixpoint gapLoop (rest : list Z) (i nextStudioNumber : Z) : Z :=
  match rest with
  | [] => nextStudioNumber
  | n :: rest' =>
      let expectedNumber := i + 1 in
      if negb (n =? expectedNumber) then expectedNumber
      else gapLoop rest' (i + 1) (expectedNumber + 1)
  end.

(** [let nextStudioNumber = 1] followed by the guarded loop. *)
Definition gapScan (rows : list Z) : Z := gapLoop rows 0 1.

(** [allStudioNumbers[allStudioNumbers.length - 1] + 1] after the numeric
    sort; on an empty array the element is [undefined] and the sum is
    [NaN], here [None]. *)
Definition lastPlusOne (rows : list Z) : option Z :=
  match last (merge_sort Z.le rows) with
  | Some m => Some (m + 1)
  | None => None
  end.

(** The number that is written, given the answer of the re-query. *)
Definition resolveNumber (rows : list Z) (candidate : Z)
    (existingStudioNumber : option Booking.t) : option Z :=
  if isSome existingStudioNumber then lastPlusOne rows else Some candidate.

(** [data: { studioNumber: nextStudioNumber, status: 'CONFIRMED' }]. *)
Definition allocationData (nextStudioNumber : option Z) : BookingUpdateInput :=
  {| u_customerName := None; u_phoneNumber := None;
     u_emergencyPhoneNumber := None; u_photoshootType := None;
     u_sessionDate := None; u_sessionTime := None;
     u_specialRequestDate := None; u_specialRequestTime := None;
     u_paymentMethod := None;
     u_status := Some "CONFIRMED";
     u_notes := None; u_studioNotes := None; u_cancellationReason := None;
     u_locationId := None; u_collectionDate := None; u_collectionTime := None;
     u_studioNumber := Some nextStudioNumber;
     u_signaturePath := None; u_consentFormSigned := None |}.

Definition numberText (n : option Z) : string :=
  match n with Some v => pretty v | None => "NaN" end.

Definition studioNumberDisplay (l : Location.t) (n : option Z) : string :=
  if truthy (Location.code l)
  then default "" (Location.code l) +:+ "-" +:+ numberText n
  else numberText n.

Definition allocatedView (b : Booking.t) (l : Location.t) : AllocatedBooking :=
  {| ab_id := Booking.id b;
     ab_customerName := Booking.customerName b;
     ab_phoneNumber := Booking.phoneNumber b;
     ab_sessionDate := Booking.sessionDate b;
     ab_sessionTime := Booking.sessionTime b;
     ab_status := Booking.status b;
     ab_studioNumber := Booking.studioNumber b;
     ab_locationId := Booking.locationId b;
     ab_location := l |}.

Definition allocateCatch (e : PrismaError) : M (Response AllocatedBooking) :=
  match e with
  | P2002 =>
      ret (errorResponse "Studio number conflict occurred. Please try again." 409)
  | _ => ret (errorResponse "Internal server error" 500)
  end.

Definition allocateStudioNumber (id : string) : M (Response AllocatedBooking) :=
  tryCatch
    (await existingBooking := prisma.booking_findUnique id in
     match existingBooking with
     | None => ret (errorResponse "Booking not found" 404)
     | Some existing =>
       if negb (truthy (Booking.locationId existing)) then
         ret (errorResponse
           "Booking must have a location assigned before allocating studio number"
           400)
       else if isSome (Booking.studioNumber existing) then
         ret (errorResponse "Studio number already allocated to this booking" 400)
       else
         let locationId := default "" (Booking.locationId existing) in
         await location := prisma.location_findUnique locationId in
         match location with
         | None => ret (errorResponse "Location not found for this booking" 404)
         | Some loc =>
           await bookingsWithStudioNumbers :=
             prisma.booking_studioNumbers locationId in
           let candidate := gapScan bookingsWithStudioNumbers in
           await existingStudioNumber :=
             prisma.booking_findFirst locationId candidate id in
           let nextStudioNumber :=
             resolveNumber bookingsWithStudioNumbers candidate
                           existingStudioNumber in
           await updatedBooking :=
             prisma.booking_update id (allocationData nextStudioNumber) in
           ret (successResponse (allocatedView updatedBooking loc)
                  ("Studio number " +:+ studioNumberDisplay loc nextStudioNumber
                   +:+ " allocated successfully")
                  200)
         end
     end)
    allocateCatch.

(** The older copy of the controller kept in the repository
    ([src/controllers/booking.controller.js]) differs from the function
    above in the [data] of the final update only: it writes the number and
    leaves the status as it is. *)
Module Legacy.
Definition allocationData (nextStudioNumber : option Z) : BookingUpdateInput :=
  {| u_customerName := None; u_phoneNumber := None;
     u_emergencyPhoneNumber := None; u_photoshootType := None;
     u_sessionDate := None; u_sessionTime := None;
     u_specialRequestDate := None; u_specialRequestTime := None;
     u_paymentMethod := None;
     u_status := None;
     u_notes := None; u_studioNotes := None; u_cancellationReason := None;
     u_locationId := None; u_collectionDate := None; u_collectionTime := None;
     u_studioNumber := Some nextStudioNumber;
     u_signaturePath := None; u_consentFormSigned := None |}.
End Legacy.

(** A small store used by the examples. *)
Definition sampleBooking (id loc : string) (num : option Z) (st : BookingStatus)
    : Booking.t :=
  {| Booking.id := id; Booking.customerName := "Ann";
     Booking.phoneNumber := "07123456789";
     Booking.emergencyPhoneNumber := None;
     Booking.photoshootType := "family";
     Booking.sessionDate := Some "2024-01-02";
     Booking.sessionTime := Some "09:00";
     Booking.specialRequestDate := None; Booking.specialRequestTime := None;
     Booking.paymentMethod := CASH; Booking.status := st;
     Booking.notes := None; Booking.studioNotes := None;
     Booking.cancellationReason := None;
     Booking.locationId := Some loc; Booking.salesPersonId := "sp1";
     Booking.studioNumber := num;
     Booking.collectionDate := None; Booking.collectionTime := None;
     Booking.signaturePath := None; Booking.consentFormSigned := false |}.

Definition sampleStore (nums : list Z) : Store :=
  {| bookings :=
       sampleBooking "new" "L1" None BOOKED
       :: imap (fun i n => sampleBooking (pretty (Z.of_nat i)) "L1" (Some n) CONFIRMED)
               nums;
     locations := [ {| Location.id := "L1"; Location.name := "Leeds";
                       Location.code := Some "LE" |} ];
     users := [] |}.

Definition quiet (s : Store) : World :=
  {| db := s; trace := []; pending := [] |}.

(** ** Invariants of the store *)

(** The identifier is the primary key of the booking table. *)
Definition uniqueIds (s : Store) : Prop :=
  NoDup (map Booking.id (bookings s)).

(** A studio number is held by one booking per location at most. *)
Definition numbersUnique (s : Store) : Prop :=
  forall loc, NoDup (numbersAt loc (bookings s)).

(** Studio numbers are positive integers. *)
Definition numbersPositive (s : Store) : Prop :=
  forall b n, b ∈ bookings s -> Booking.studioNumber b = Some n -> 1 <= n.

(** No concurrent write lands during the request. *)
Definition sequential (w : World) : Prop := pending w = [].

(** ** What the allocator is meant to compute *)

(** [g] is the first 1-indexed position of [rows] whose value is not the
    position itself, or one more than the length when every position
    holds its own index. *)
Definition firstGap (rows : list Z) (g : Z) : Prop :=
  1 <= g <= Z.of_nat (length rows) + 1
  /\ (forall j, 1 <= j < g -> rows !! Z.to_nat (j - 1) = Some j)
  /\ rows !! Z.to_nat (g - 1) <> Some g.

(** [g] is the smallest positive integer that is not in [used]. *)
Definition smallestUnused (used : list Z) (g : Z) : Prop :=
  1 <= g /\ (g ∉ used) /\ (forall k, 1 <= k < g -> k ∈ used).

(** The row the allocator writes. *)
Definition allocatedRow (b : Booking.t) (n : Z) : Booking.t :=
  {| Booking.id := Booking.id b;
     Booking.customerName := Booking.customerName b;
     Booking.phoneNumber := Booking.phoneNumber b;
     Booking.emergencyPhoneNumber := Booking.emergencyPhoneNumber b;
     Booking.photoshootType := Booking.photoshootType b;
     Booking.sessionDate := Booking.sessionDate b;
     Booking.sessionTime := Booking.sessionTime b;
     Booking.specialRequestDate := Booking.specialRequestDate b;
     Booking.specialRequestTime := Booking.specialRequestTime b;
     Booking.paymentMethod := Booking.paymentMethod b;
     Booking.status := CONFIRMED;
     Booking.notes := Booking.notes b;
     Booking.studioNotes := Booking.studioNotes b;
     Booking.cancellationReason := Booking.cancellationReason b;
     Booking.locationId := Booking.locationId b;
     Booking.salesPersonId := Booking.salesPersonId b;
     Booking.studioNumber := Some n;
     Booking.collectionDate := Booking.collectionDate b;
     Booking.collectionTime := Booking.collectionTime b;
     Booking.signaturePath := Booking.signaturePath b;
     Booking.consentFormSigned := Booking.consentFormSigned b |}.

(** The five store calls of a successful allocation. *)
Definition allocationCalls (id loc : string) (n : Z) : list Event :=
  [ BookingFindUnique id; LocationFindUnique loc; BookingFindMany;
    BookingFindFirst loc n id false;
    BookingUpdate id (allocationData (Some n)) ].

(** The check sequence of the allocator, on a world without concurrent
    writes, up to the point where it decides to compute a number. *)
Inductive Rejection :=
  | BookingMissing
  | LocationUnset
  | NumberAlreadySet
  | LocationMissing.

Definition rejectionResponse (r : Rejection) : Response AllocatedBooking :=
  match r with
  | BookingMissing => errorResponse "Booking not found" 404
  | LocationUnset =>
      errorResponse
        "Booking must have a location assigned before allocating studio number"
        400
  | NumberAlreadySet =>
      errorResponse "Studio number already allocated to this booking" 400
  | LocationMissing => errorResponse "Location not found for this booking" 404
  end.

Definition rejectionOf (id : string) (s : Store) : option Rejection :=
  match findBooking id s with
  | None => Some BookingMissing
  | Some b =>
      if negb (truthy (Booking.locationId b)) then Some LocationUnset
      else if isSome (Booking.studioNumber b) then Some NumberAlreadySet
      else match findLocation (default "" (Booking.locationId b)) s with
           | None => Some LocationMissing
           | Some _ => None
           end
  end.

Definition alreadyNumbered : Store :=
  {| bookings := [sampleBooking "b5" "L1" (Some 5) CONFIRMED];
     locations := [ {| Location.id := "L1"; Location.name := "Leeds";
                       Location.code := Some "LE" |} ];
     users := [] |}.

(** The write of a rival request that takes number 1 at the location. *)
Definition rivalTakesOne (s : Store) : Store :=
  withBookings (bookings s ++ [sampleBooking "rival" "L1" (Some 1) CONFIRMED]) s.

(** ** Requests *)

(** [req.user], as the authentication middleware attaches it from the
    token. *)
Record AuthUser := mkAuthUser {
  au_id : string;
  au_role : option string
}.

Definition hasRole (u : AuthUser) (r : string) : bool :=
  optStringEqb (au_role u) r.

(** [role !== 'ADMIN' && role !== 'CUSTOMER_SERVICE' && role !== 'STUDIO'
    && role !== 'SALES' && booking.salesPersonId !== user.id]. *)
Definition lacksPermission (u : AuthUser) (b : Booking.t) : bool :=
  negb (hasRole u "ADMIN") && negb (hasRole u "CUSTOMER_SERVICE")
  && negb (hasRole u "STUDIO") && negb (hasRole u "SALES")
  && negb (String.eqb (Booking.salesPersonId b) (au_id u)).

(** A booking with the two references resolved. *)
Record LocationView := mkLocationView {
  lv_id : string; lv_name : string; lv_code : option string
}.

Record SalesPersonView := mkSalesPersonView {
  sv_id : string; sv_name : string; sv_email : option string
}.

Record BookingWithDetails := mkDetails {
  row : Booking.t;
  location : option LocationView;
  salesPerson : option SalesPersonView
}.

Definition locationView (l : Location.t) : LocationView :=
  {| lv_id := Location.id l; lv_name := Location.name l;
     lv_code := Location.code l |}.

(** [select: { id: true, name: true }]: no code. *)
Definition locationNameView (l : Location.t) : LocationView :=
  {| lv_id := Location.id l; lv_name := Location.name l; lv_code := None |}.

Definition salesPersonView (u : User.t) : SalesPersonView :=
  {| sv_id := User.id u; sv_name := User.name u; sv_email := User.email u |}.

(** The inner [try]/[catch] of the enrichment: an error of the lookup
    leaves the reference [null]. *)
Definition orNullOnError {A} (m : M (option A)) : M (option A) :=
  tryCatch m (fun _ => ret None).

Definition lookupLocation (b : Booking.t) : M (option LocationView) :=
  if truthy (Booking.locationId b) then
    orNullOnError
      (await locationData :=
         prisma.location_findUnique (default "" (Booking.locationId b)) in
       ret (option_map locationView locationData))
  else ret None.

Definition lookupSalesPerson (b : Booking.t) : M (option SalesPersonView) :=
  if negb (String.eqb (Booking.salesPersonId b) "") then
    await u := prisma.user_findUnique (Booking.salesPersonId b) in
    ret (option_map salesPersonView u)
  else ret None.

(** ** [createBooking] *)

Record CreateRequest := mkCreateRequest {
  cr_validationErrors : list string;  (* [validationResult(req)] *)
  cr_user : AuthUser;
  cr_customerName : string;
  cr_phoneNumber : string;
  cr_emergencyPhoneNumber : option string;
  cr_photoshootType : string;
  cr_sessionDate : JsValue;
  cr_sessionTime : JsValue;
  cr_specialRequestDate : JsValue;
  cr_specialRequestTime : JsValue;
  cr_paymentMethod : string;
  cr_locationId : option string;
  cr_status : option string;
  cr_notes : option string
}.

Definition elevenDigits (phone : string) : bool :=
  Nat.eqb (String.length (stripNonDigits phone)) 11.

(** [paymentMethod.toUpperCase()], with ["NOT-PAID"] turned into the
    enum name. *)
Definition normalizePaymentMethod (paymentMethod : string) : string :=
  let normalizedPaymentMethod := toUpperCase paymentMethod in
  if String.eqb normalizedPaymentMethod "NOT-PAID" then "NOT_PAID"
  else normalizedPaymentMethod.

Definition creatableStatuses : list string :=
  ["BOOKED"; "CONFIRMED"; "TBC"; "CANCELLED"; "NO_ANSWER"; "WLMK"].

Definition bookingStatus (status : option string) : string :=
  if truthy status
     && existsb (String.eqb (toUpperCase (default "" status))) creatableStatuses
  then toUpperCase (default "" status)
  else "BOOKED".

(** [v.trim() !== ''], reached for strings only. *)
Definition trimmedNonEmpty (v : JsValue) : bool :=
  match v with
  | JsString s => negb (String.eqb (trim s) "")
  | _ => false
  end.

(** [hasRegularSession] and [hasSpecialRequest]. *)
Definition hasSlot (date time : JsValue) : bool :=
  jsTruthy date && jsTruthy time && isJsString date && isJsString time
  && trimmedNonEmpty date && trimmedNonEmpty time.

Definition createData (req : CreateRequest) : BookingCreateInput :=
  {| c_customerName := trim (cr_customerName req);
     c_phoneNumber := stripNonDigits (cr_phoneNumber req);
     c_emergencyPhoneNumber :=
       if truthy (cr_emergencyPhoneNumber req)
       then option_map stripNonDigits (cr_emergencyPhoneNumber req)
       else None;
     c_photoshootType := cr_photoshootType req;
     c_sessionDate := jsOrNull (cr_sessionDate req);
     c_sessionTime := jsOrNull (cr_sessionTime req);
     c_specialRequestDate := jsOrNull (cr_specialRequestDate req);
     c_specialRequestTime := jsOrNull (cr_specialRequestTime req);
     c_paymentMethod := normalizePaymentMethod (cr_paymentMethod req);
     c_status := bookingStatus (cr_status req);
     c_notes := orNull (cr_notes req);
     c_locationId := orNull (cr_locationId req);
     c_salesPersonId := au_id (cr_user req) |}.

Definition internalError {A} (_ : PrismaError) : M (Response A) :=
  ret (errorResponse "Internal server error" 500).

Definition createBooking (newId : string) (req : CreateRequest)
    : M (Response Booking.t) :=
  tryCatch
    (match cr_validationErrors req with
     | msg :: _ => ret (errorResponse msg 400)
     | [] =>
       if negb (elevenDigits (cr_phoneNumber req)) then
         ret (errorResponse "Phone number must be exactly 11 digits" 400)
       else if truthy (cr_emergencyPhoneNumber req)
               && negb (elevenDigits (default "" (cr_emergencyPhoneNumber req)))
       then
         ret (errorResponse
                "Emergency phone number must be exactly 11 digits" 400)
       else if negb (String.eqb (bookingStatus (cr_status req)) "TBC")
               && negb (hasSlot (cr_sessionDate req) (cr_sessionTime req))
               && negb (hasSlot (cr_specialRequestDate req)
                                (cr_specialRequestTime req))
       then
         ret (errorResponse
                "Session date and time are required for booked status" 400)
       else
         await booking := prisma.booking_create newId (createData req) in
         ret (successResponse booking "Booking created successfully" 201)
     end)
    internalError.

(** ** [getBookingById] *)

Definition getBookingById (id : string) (user : option AuthUser)
    : M (Response BookingWithDetails) :=
  tryCatch
    (match user with
     | None => ret (errorResponse "User not authenticated" 401)
     | Some u =>
       if negb (truthy (au_role u)) then
         ret (errorResponse "User not authenticated" 401)
       else
         await booking := prisma.booking_findUnique id in
         match booking with
         | None => ret (errorResponse "Booking not found" 404)
         | Some b =>
           if lacksPermission u b then
             ret (errorResponse
                    "You do not have permission to view this booking" 403)
           else
             await loc := lookupLocation b in
             await sp := orNullOnError (lookupSalesPerson b) in
             ret (successResponse
                    {| row := b; location := loc; salesPerson := sp |}
                    "Booking retrieved successfully" 200)
         end
     end)
    (fun _ => ret (errorResponse "Internal server error: " 500)).

(** ** [updateBooking] *)

(** A body field that is absent ([None]), [null] ([Some None]) or a
    string. *)
Definition BodyField := option (option string).

(** [validationResult(req)], [req.user] and the fields of [req.body]
    the controller reads.  The errors are those the validators of the
    route have found; they are given with the request and not computed
    from the body.  A body the route refuses (a status outside its six
    names, a payment method outside its three) comes with an error in the
    routed program. *)
Record UpdateRequest := mkUpdateRequest {
  ur_validationErrors : list string;
  ur_user : AuthUser;
  ur_customerName : option string;
  ur_phoneNumber : option string;
  ur_emergencyPhoneNumber : BodyField;
  ur_photoshootType : option string;
  ur_sessionDate : BodyField;
  ur_sessionTime : BodyField;
  ur_specialRequestDate : BodyField;
  ur_specialRequestTime : BodyField;
  ur_paymentMethod : option string;
  ur_status : option string;
  ur_locationId : BodyField;
  ur_notes : BodyField;
  ur_studioNotes : BodyField;
  ur_cancellationReason : BodyField;
  ur_collectionDate : BodyField;
  ur_collectionTime : BodyField
}.

(** [if (v !== undefined) data.field = v || null]. *)
Definition definedOrNull (v : BodyField) : option (option string) :=
  option_map orNull v.

(** [if (v) data.field = f(v)]. *)
Definition whenTruthy (f : string -> string) (v : option string)
    : option string :=
  if truthy v then option_map f v else None.

Definition flatten (v : BodyField) : option string :=
  match v with Some o => o | None => None end.

Definition updateData (req : UpdateRequest) : BookingUpdateInput :=
  {| u_customerName := whenTruthy trim (ur_customerName req);
     u_phoneNumber := whenTruthy stripNonDigits (ur_phoneNumber req);
     u_emergencyPhoneNumber :=
       option_map (whenTruthy stripNonDigits) (ur_emergencyPhoneNumber req);
     u_photoshootType := whenTruthy (fun x => x) (ur_photoshootType req);
     u_sessionDate := definedOrNull (ur_sessionDate req);
     u_sessionTime := definedOrNull (ur_sessionTime req);
     u_specialRequestDate := definedOrNull (ur_specialRequestDate req);
     u_specialRequestTime := definedOrNull (ur_specialRequestTime req);
     u_paymentMethod := whenTruthy normalizePaymentMethod (ur_paymentMethod req);
     u_status := whenTruthy toUpperCase (ur_status req);
     u_notes := definedOrNull (ur_notes req);
     u_studioNotes := definedOrNull (ur_studioNotes req);
     u_cancellationReason := definedOrNull (ur_cancellationReason req);
     u_locationId := definedOrNull (ur_locationId req);
     u_collectionDate := definedOrNull (ur_collectionDate req);
     u_collectionTime := definedOrNull (ur_collectionTime req);
     u_studioNumber := None;
     u_signaturePath := None;
     u_consentFormSigned := None |}.

Definition updateBooking (id : string) (req : UpdateRequest)
    : M (Response BookingWithDetails) :=
  tryCatch
    (match ur_validationErrors req with
     | msg :: _ => ret (errorResponse msg 400)
     | [] =>
       await existingBooking := prisma.booking_findUnique id in
       match existingBooking with
       | None => ret (errorResponse "Booking not found" 404)
       | Some existing =>
         if lacksPermission (ur_user req) existing then
           ret (errorResponse
                  "You do not have permission to update this booking" 403)
         else if truthy (ur_phoneNumber req)
                 && negb (elevenDigits (default "" (ur_phoneNumber req))) then
           ret (errorResponse "Phone number must be exactly 11 digits" 400)
         else if truthy (flatten (ur_emergencyPhoneNumber req))
                 && negb (elevenDigits
                            (default "" (flatten (ur_emergencyPhoneNumber req))))
         then
           ret (errorResponse
                  "Emergency phone number must be exactly 11 digits" 400)
         else
           await updatedBooking := prisma.booking_update id (updateData req) in
           await loc :=
             (if truthy (Booking.locationId updatedBooking) then
                await l := prisma.location_findUnique
                             (default "" (Booking.locationId updatedBooking)) in
                ret (option_map locationNameView l)
              else ret None) in
           await sp := lookupSalesPerson updatedBooking in
           ret (successResponse
                  {| row := updatedBooking; location := loc; salesPerson := sp |}
                  "Booking updated successfully" 200)
       end
     end)
    internalError.

(** ** The slot and phone invariants of the data model *)

(** Both the date and the time are present as non-empty strings. *)
Definition slotPresent (date time : option string) : bool :=
  truthy date && truthy time.

(** A booking that is not TBC has a session slot or a special-request
    slot. *)
Definition slotInvariant (b : Booking.t) : bool :=
  status_eqb (Booking.status b) TBC
  || slotPresent (Booking.sessionDate b) (Booking.sessionTime b)
  || slotPresent (Booking.specialRequestDate b) (Booking.specialRequestTime b).

Definition slotInvariantHolds (s : Store) : Prop :=
  Forall (fun b => slotInvariant b = true) (bookings s).

(** The same condition on the fields of a create request. *)
Definition requestSlotPresent (date time : JsValue) : bool :=
  isJsString date && jsTruthy date && isJsString time && jsTruthy time.

Definition violatesSlotRule (req : CreateRequest) : bool :=
  negb (String.eqb (bookingStatus (cr_status req)) "TBC")
  && negb (requestSlotPresent (cr_sessionDate req) (cr_sessionTime req))
  && negb (requestSlotPresent (cr_specialRequestDate req)
                              (cr_specialRequestTime req)).

(** A stored phone number is a string of exactly 11 decimal digits. *)
Definition phoneValid (b : Booking.t) : bool :=
  Nat.eqb (String.length (Booking.phoneNumber b)) 11
  && allDigits (Booking.phoneNumber b).

Definition phonesValid (s : Store) : Prop :=
  Forall (fun b => phoneValid b = true) (bookings s).

(** Example requests. *)
Definition salesAnn : AuthUser :=
  {| au_id := "sp1"; au_role := Some "SALES_PERSON" |}.

Definition sampleCreate (phone : string) (status : option string)
    (date time : JsValue) : CreateRequest :=
  {| cr_validationErrors := []; cr_user := salesAnn;
     cr_customerName := "Ann"; cr_phoneNumber := phone;
     cr_emergencyPhoneNumber := None; cr_photoshootType := "family";
     cr_sessionDate := date; cr_sessionTime := time;
     cr_specialRequestDate := JsUndefined;
     cr_specialRequestTime := JsUndefined;
     cr_paymentMethod := "cash"; cr_locationId := None;
     cr_status := status; cr_notes := None |}.

(** [PUT /bookings/:id] with the body [{ status: "BOOKED" }]. *)
Definition setStatusBooked (u : AuthUser) : UpdateRequest :=
  {| ur_validationErrors := []; ur_user := u;
     ur_customerName := None; ur_phoneNumber := None;
     ur_emergencyPhoneNumber := None; ur_photoshootType := None;
     ur_sessionDate := None; ur_sessionTime := None;
     ur_specialRequestDate := None; ur_specialRequestTime := None;
     ur_paymentMethod := None; ur_status := Some "BOOKED";
     ur_locationId := None;
     ur_notes := None; ur_studioNotes := None; ur_cancellationReason := None;
     ur_collectionDate := None; ur_collectionTime := None |}.

Definition emptyStore : Store :=
  {| bookings := []; locations := []; users := [] |}.

(** The store after a TBC booking without any slot has been created. *)
Definition tbcStore : Store :=
  db (snd (createBooking "b1"
             (sampleCreate "07123456789" (Some "TBC") JsNull JsNull)
             (quiet emptyStore))).

(** ** [getBookings] *)

(** The query string of [GET /bookings]; [q_page] and [q_limit] are the
    results of [parseInt] on the two parameters ([None] for [NaN]). *)
Record ListQuery := mkListQuery {
  q_locationId : option string;
  q_status : option string;
  q_salesPersonId : option string;
  q_includeAllSalesPersons : option string;
  q_page : option Z;
  q_limit : option Z;
  q_hasCollectionDate : option string
}.

Record Pagination := mkPagination {
  pg_total : Z;
  pg_page : Z;
  pg_limit : Z;
  pg_totalPages : Z
}.

Record Summary := mkSummary {
  sm_total : Z;
  sm_confirmed : Z;
  sm_booked : Z;
  sm_tbc : Z;
  sm_cancelled : Z;
  sm_noAnswer : Z;
  sm_wlmk : Z;
  sm_videoCall : Z
}.

Record ListBody := mkListBody {
  lb_bookings : list BookingWithDetails;
  lb_pagination : Pagination;
  lb_summary : Summary
}.

Definition pageNumber (q : ListQuery) : Z := numOr (q_page q) 1.
Definition pageSize (q : ListQuery) : Z := numOr (q_limit q) 20.
Definition skip (q : ListQuery) : Z := (pageNumber q - 1) * pageSize q.

(** [hasCollectionDate === 'true']. *)
Definition byCollection (q : ListQuery) : bool :=
  optStringEqb (q_hasCollectionDate q) "true".

(** [includeAllSalesPersons === 'true' && locationId]. *)
Definition shouldIncludeAllSalesPersons (q : ListQuery) : bool :=
  optStringEqb (q_includeAllSalesPersons q) "true" && truthy (q_locationId q).

Definition listWhere (user : AuthUser) (q : ListQuery) : BookingWhere :=
  {| w_salesPersonId :=
       if hasRole user "ADMIN" then
         (if truthy (q_salesPersonId q) then q_salesPersonId q else None)
       else if hasRole user "SALES_PERSON" then
         (if negb (shouldIncludeAllSalesPersons q) then Some (au_id user)
          else None)
       else None;
     w_locationId :=
       if truthy (q_locationId q) then q_locationId q else None;
     w_status :=
       if truthy (q_status q) then option_map toUpperCase (q_status q)
       else None;
     w_hasCollection := byCollection q |}.

(** The [reduce] over the statuses of the filtered rows:
    [acc[status] = (acc[status] || 0) + 1]. *)
Definition countStatus (acc : gmap string Z) (b : Booking.t) : gmap string Z :=
  <[statusName (Booking.status b) :=
      default 0 (acc !! statusName (Booking.status b)) + 1]> acc.

Definition statusCounts (rows : list Booking.t) : gmap string Z :=
  fold_left countStatus rows ∅.

(** [summary[name] || 0]. *)
Definition countOf (summary : gmap string Z) (name : string) : Z :=
  default 0 (summary !! name).

Definition summaryOf (totalCount : Z) (summary : gmap string Z) : Summary :=
  {| sm_total := totalCount;
     sm_confirmed := countOf summary "CONFIRMED";
     sm_booked := countOf summary "BOOKED";
     sm_tbc := countOf summary "TBC";
     sm_cancelled := countOf summary "CANCELLED";
     sm_noAnswer := countOf summary "NO_ANSWER";
     sm_wlmk := countOf summary "WLMK";
     sm_videoCall := countOf summary "VIDEO_CALL" |}.

(** The date and the time a row is sorted by. *)
Definition effectiveDate (collection : bool) (b : Booking.t) : option string :=
  if collection then Booking.collectionDate b
  else jsOr (Booking.specialRequestDate b) (Booking.sessionDate b).

Definition effectiveTime (collection : bool) (b : Booking.t) : option string :=
  if collection then Booking.collectionTime b
  else jsOr (Booking.specialRequestTime b) (Booking.sessionTime b).

(** The body of the comparator once the four values are chosen. *)
Definition compareSlots (dateA timeA dateB timeB : option string) : Z :=
  if negb (truthy dateA) && negb (truthy dateB) then 0
  else if negb (truthy dateA) then 1
  else if negb (truthy dateB) then -1
  else if negb (String.eqb (default "" dateA) (default "" dateB)) then
    localeCompare (default "" dateA) (default "" dateB)
  else if negb (truthy timeA) && negb (truthy timeB) then 0
  else if negb (truthy timeA) then 1
  else if negb (truthy timeB) then -1
  else localeCompare (default "" timeA) (default "" timeB).

(** The comparison of one component, an absent value last. *)
Definition absentLast (x y : option string) : Z :=
  if negb (truthy x) && negb (truthy y) then 0
  else if negb (truthy x) then 1
  else if negb (truthy y) then -1
  else localeCompare (default "" x) (default "" y).

(** The comparator passed to [sort]. *)
Definition compareBookings (collection : bool) (a b : Booking.t) : Z :=
  compareSlots (effectiveDate collection a) (effectiveTime collection a)
               (effectiveDate collection b) (effectiveTime collection b).

(** [a] may stand before [b] in the sorted array. *)
Definition sortsBefore (collection : bool) (a b : Booking.t) : Prop :=
  compareBookings collection a b <= 0.

#[global] Instance sortsBefore_dec (collection : bool) (a b : Booking.t)
    : Decision (sortsBefore collection a b) :=
  Z_le_dec (compareBookings collection a b) 0.

(** [Array.prototype.sort(compare)].  The sort of the language is
    stable: of two rows for which the comparator answers [0] the one that
    comes first in the array stays first.  Each row is merged into the
    sorted rest of the array, in front of the first row it may stand
    before. *)
Definition sortBookings (collection : bool) (rows : list Booking.t)
    : list Booking.t :=
  foldr (fun a sorted => list_merge (sortsBefore collection) [a] sorted)
        [] rows.

(** [paginatedIds.map(id => bookingsMap.get(id)).filter(Boolean)]. *)
Definition inPageOrder (paginatedIds : list string) (fetched : list Booking.t)
    : list Booking.t :=
  let bookingsMap := newMap (map (fun b => (Booking.id b, b)) fetched) in
  omap (fun id => bookingsMap !! id) paginatedIds.

(** The enrichment of one row. *)
Definition withDetails (b : Booking.t) : M BookingWithDetails :=
  await loc := lookupLocation b in
  await sp := lookupSalesPerson b in
  ret {| row := b; location := loc; salesPerson := sp |}.

(** [Promise.all(rows.map(async …))], row after row. *)
Fixpoint forEach {A B} (f : A -> M B) (l : list A) : M (list B) :=
  match l with
  | [] => ret []
  | x :: rest =>
      await y := f x in
      await ys := forEach f rest in
      ret (y :: ys)
  end.

Definition getBookings (user : option AuthUser) (q : ListQuery)
    : M (Response ListBody) :=
  tryCatch
    (match user with
     | None => ret (errorResponse "User not authenticated" 401)
     | Some u =>
       if negb (truthy (au_role u)) then
         ret (errorResponse "User not authenticated" 401)
       else
         let where_ := listWhere u q in
         await totalCount := prisma.booking_count where_ in
         await allBookings := prisma.booking_findMany where_ in
         let summary := statusCounts allBookings in
         await allBookingsForSorting := prisma.booking_findMany where_ in
         let sortedBookingIds :=
           map Booking.id (sortBookings (byCollection q) allBookingsForSorting) in
         let paginatedIds :=
           slice sortedBookingIds (skip q) (skip q + pageSize q) in
         await fetched := prisma.booking_findManyIn paginatedIds in
         let sortedBookings := inPageOrder paginatedIds fetched in
         await bookingsWithDetails := forEach withDetails sortedBookings in
         ret (successResponse
                {| lb_bookings := bookingsWithDetails;
                   lb_pagination :=
                     {| pg_total := totalCount;
                        pg_page := pageNumber q;
                        pg_limit := pageSize q;
                        pg_totalPages := ceilDiv totalCount (pageSize q) |};
                   lb_summary := summaryOf totalCount summary |}
                "Bookings retrieved successfully" 200)
     end)
    (fun _ => ret (errorResponse "Internal server error: " 500)).

(** ** The list as a function of the store *)

(** The references of a row, read from a store that does not change. *)
Definition detailsIn (s : Store) (b : Booking.t) : BookingWithDetails :=
  {| row := b;
     location :=
       if truthy (Booking.locationId b)
       then option_map locationView
              (findLocation (default "" (Booking.locationId b)) s)
       else None;
     salesPerson :=
       if negb (String.eqb (Booking.salesPersonId b) "")
       then option_map salesPersonView (findUser (Booking.salesPersonId b) s)
       else None |}.

(** The whole filtered set in sorted order. *)
Definition sortedRows (user : AuthUser) (q : ListQuery) (s : Store)
    : list Booking.t :=
  sortBookings (byCollection q) (selectWhere (listWhere user q) s).

(** The rows of the requested page: the slice of the sorted filtered set. *)
Definition pageRows (user : AuthUser) (q : ListQuery) (s : Store)
    : list Booking.t :=
  slice (sortedRows user q s) (skip q) (skip q + pageSize q).

(** The same query for another page. *)
Definition withPaging (q : ListQuery) (page limit : option Z) : ListQuery :=
  {| q_locationId := q_locationId q; q_status := q_status q;
     q_salesPersonId := q_salesPersonId q;
     q_includeAllSalesPersons := q_includeAllSalesPersons q;
     q_page := page; q_limit := limit;
     q_hasCollectionDate := q_hasCollectionDate q |}.

Definition countWithStatus (st : BookingStatus) (rows : list Booking.t) : Z :=
  Z.of_nat (length (filter (fun b => Booking.status b = st) rows)).

(** [a ?? b] on nullable strings. *)
Definition nullish (a b : option string) : option string :=
  match a with Some _ => a | None => b end.

(** The rows of a store that belong to one sales person. *)
Definition ownedBy (userId : string) (s : Store) : list Booking.t :=
  filter (fun b => Booking.salesPersonId b = userId) (bookings s).

(** Example rows and queries for the list. *)
Definition listed (id sp : string) (st : BookingStatus)
    (date time : option string) : Booking.t :=
  {| Booking.id := id; Booking.customerName := "Ann";
     Booking.phoneNumber := "07123456789";
     Booking.emergencyPhoneNumber := None;
     Booking.photoshootType := "family";
     Booking.sessionDate := date; Booking.sessionTime := time;
     Booking.specialRequestDate := None; Booking.specialRequestTime := None;
     Booking.paymentMethod := CASH; Booking.status := st;
     Booking.notes := None; Booking.studioNotes := None;
     Booking.cancellationReason := None;
     Booking.locationId := None; Booking.salesPersonId := sp;
     Booking.studioNumber := None;
     Booking.collectionDate := None; Booking.collectionTime := None;
     Booking.signaturePath := None; Booking.consentFormSigned := false |}.

Definition storeOf (rows : list Booking.t) : Store :=
  {| bookings := rows; locations := []; users := [] |}.

Definition plainQuery (page limit : option Z) : ListQuery :=
  {| q_locationId := None; q_status := None; q_salesPersonId := None;
     q_includeAllSalesPersons := None; q_page := page; q_limit := limit;
     q_hasCollectionDate := None |}.

Definition adminUser : AuthUser :=
  {| au_id := "admin"; au_role := Some "ADMIN" |}.

Definition bookingA : Booking.t :=
  listed "A" "sp1" BOOKED (Some "2024-01-02") (Some "09:00").
Definition bookingB : Booking.t :=
  listed "B" "sp1" BOOKED (Some "2024-01-02") (Some "08:00").
Definition bookingC : Booking.t := listed "C" "sp1" TBC None None.

(** Seven BOOKED rows on seven days, stored in no particular order, one
    of them owned by another sales person. *)
Definition sevenBooked : Store :=
  storeOf
    [ listed "r5" "sp1" BOOKED (Some "2024-01-05") (Some "09:00");
      listed "r2" "sp1" BOOKED (Some "2024-01-02") (Some "09:00");
      listed "r7" "sp1" BOOKED (Some "2024-01-07") (Some "09:00");
      listed "r1" "sp1" BOOKED (Some "2024-01-01") (Some "09:00");
      listed "r4" "sp2" BOOKED (Some "2024-01-04") (Some "09:00");
      listed "r3" "sp1" BOOKED (Some "2024-01-03") (Some "09:00");
      listed "r6" "sp1" BOOKED (Some "2024-01-06") (Some "09:00") ].

(** The answer of [getBookings] to an authenticated caller, read off a
    store that does not change during the request. *)
Definition listBodyIn (user : AuthUser) (q : ListQuery) (s : Store) : ListBody :=
  let filtered := selectWhere (listWhere user q) s in
  let totalCount := Z.of_nat (length filtered) in
  let paginatedIds :=
    slice (map Booking.id (sortBookings (byCollection q) filtered))
          (skip q) (skip q + pageSize q) in
  {| lb_bookings :=
       map (detailsIn s) (inPageOrder paginatedIds (selectIds paginatedIds s));
     lb_pagination :=
       {| pg_total := totalCount;
          pg_page := pageNumber q;
          pg_limit := pageSize q;
          pg_totalPages := ceilDiv totalCount (pageSize q) |};
     lb_summary := summaryOf totalCount (statusCounts filtered) |}.

(** Five rows on five days, stored in no particular order. *)
Definition fiveBooked : Store :=
  storeOf
    [ listed "r5" "sp1" BOOKED (Some "2024-01-05") (Some "09:00");
      listed "r2" "sp1" BOOKED (Some "2024-01-02") (Some "09:00");
      listed "r1" "sp1" BOOKED (Some "2024-01-01") (Some "09:00");
      listed "r4" "sp1" BOOKED (Some "2024-01-04") (Some "09:00");
      listed "r3" "sp1" BOOKED (Some "2024-01-03") (Some "09:00") ].

(** The constraints of the schema on the booking table. *)
Definition wellFormed (s : Store) : Prop :=
  uniqueIds s /\ numbersUnique s /\ numbersPositive s.

(** What a row adds to the numbers of a location. *)
Definition contribution (loc : string) (b : Booking.t) : list Z :=
  match (if optStringEqb (Booking.locationId b) loc
         then Booking.studioNumber b else None) with
  | Some n => [n]
  | None => []
  end.


(** ** [deleteBooking] *)

Definition deleteBooking (id : string) (user : AuthUser) : M (Response unit) :=
  tryCatch
    (await existingBooking := prisma.booking_findUnique id in
     match existingBooking with
     | None => ret (errorResponse "Booking not found" 404)
     | Some existing =>
       if lacksPermission user existing then
         ret (errorResponse
                "You do not have permission to delete this booking" 403)
       else
         await deleted := prisma.booking_delete id in
         ret (successResponse tt "Booking deleted successfully" 200)
     end)
    internalError.

(** ** Notions used in the statements about the requests *)

(** The caller may read, update or delete the booking. *)
Definition mayAccess (u : AuthUser) (b : Booking.t) : Prop :=
  au_role u = Some "ADMIN" \/ au_role u = Some "CUSTOMER_SERVICE"
  \/ au_role u = Some "STUDIO" \/ au_role u = Some "SALES"
  \/ Booking.salesPersonId b = au_id u.

(** The table without the row of one identifier. *)
Definition without (id : string) (s : Store) : Store :=
  withBookings (filter (fun r => Booking.id r <> id) (bookings s)) s.

(** The studio numbers of a location are 1, 2, ..., n without a gap. *)
Definition dense (loc : string) (s : Store) : Prop :=
  forall k, k ∈ numbersAt loc (bookings s)
            <-> 1 <= k <= Z.of_nat (length (numbersAt loc (bookings s))).

(** A computation that answers and issues no write, whatever the other
    requests do in between. *)
Definition readOnly {A} (m : M A) : Prop :=
  forall w, exists evs,
    trace (snd (m w)) = trace w ++ evs /\ List.filter isWrite evs = [].

(** A handler that turns every error of the store into an answer. *)
Definition answers {A} (m : M A) : Prop :=
  forall w, exists r, fst (m w) = Val r.

(** The nullable text columns of a row. *)
Definition textColumns (b : Booking.t) : list (option string) :=
  [ Booking.emergencyPhoneNumber b; Booking.sessionDate b;
    Booking.sessionTime b; Booking.specialRequestDate b;
    Booking.specialRequestTime b; Booking.notes b; Booking.studioNotes b;
    Booking.cancellationReason b; Booking.locationId b;
    Booking.collectionDate b; Booking.collectionTime b;
    Booking.signaturePath b ].

(** No nullable text column holds the empty string: a value that is not
    there is [null]. *)
Definition noEmptyText (b : Booking.t) : Prop :=
  Forall (fun o => o <> Some "") (textColumns b).

(** The rows of a successful list answer; none when the answer is an
    error. *)
Definition listedRows (r : Outcome (Response ListBody) * World)
    : list Booking.t :=
  match fst r with
  | Val (successResponse body _ _) => map row (lb_bookings body)
  | _ => []
  end.

(** The rows of page [p] when the list is asked for in pages of [limit]
    rows. *)
Definition pageOf (u : AuthUser) (q : ListQuery) (s : Store) (limit p : Z)
    : list Booking.t :=
  listedRows (getBookings (Some u) (withPaging q (Some p) (Some limit))
                (mkWorld s [] [])).

(** ** The formats the routes accept ([routes/booking.routes]) *)

(** The anchored patterns of the validators are sequences of [\d] and of
    literal characters. *)
Inductive CharClass :=
  | Digit
  | Literal (c : ascii).

(** [/^…$/.test(value)] for such a pattern. *)
Fixpoint matchesPattern (pattern : list CharClass) (value : string) : bool :=
  match pattern, value with
  | [], EmptyString => true
  | Digit :: pattern', String c rest =>
      is_digit c && matchesPattern pattern' rest
  | Literal l :: pattern', String c rest =>
      Ascii.eqb c l && matchesPattern pattern' rest
  | _, _ => false
  end.

(** [/^\d{4}-\d{2}-\d{2}$/]. *)
Definition datePattern : list CharClass :=
  [ Digit; Digit; Digit; Digit; Literal "-"; Digit; Digit; Literal "-";
    Digit; Digit ].

(** [/^\d{2}:\d{2}$/]. *)
Definition timePattern : list CharClass :=
  [ Digit; Digit; Literal ":"; Digit; Digit ].

Definition isDateFormat (value : string) : bool :=
  matchesPattern datePattern value.

Definition isTimeFormat (value : string) : bool :=
  matchesPattern timePattern value.

(** The number written by the decimal digits of a string, read from the
    left: 20240102 for ["2024-01-02"], 930 for ["09:30"]. *)
Fixpoint readDigits (s : string) (acc : Z) : Z :=
  match s with
  | EmptyString => acc
  | String c rest =>
      if is_digit c
      then readDigits rest (acc * 10 + (Z.of_N (N_of_ascii c) - 48))
      else readDigits rest acc
  end.

Definition numberOf (s : string) : Z := readDigits s 0.

(** The moment of a slot as the number yyyymmddhhmm. *)
Definition moment (date time : string) : Z :=
  numberOf date * 10000 + numberOf time.

(** The number of [\d] in a pattern. *)
Fixpoint digitCount (pattern : list CharClass) : Z :=
  match pattern with
  | [] => 0
  | Digit :: pattern' => digitCount pattern' + 1
  | Literal _ :: pattern' => digitCount pattern'
  end.

(** No literal character of the pattern is a digit. *)
Definition separatorsOnly (pattern : list CharClass) : Prop :=
  Forall (fun cl => match cl with
                    | Digit => True
                    | Literal l => is_digit l = false
                    end) pattern.

(** ** The sort keys in the formats of the routes *)

(** A nullable column is [null] or holds a string of the format. *)
Definition absentOr (format : string -> bool) (value : option string) : bool :=
  match value with
  | Some v => format v
  | None => true
  end.

(** The columns a row is sorted by hold dates [YYYY-MM-DD] and times
    [HH:MM], or nothing.  The routes check the session and the special
    request columns against these formats; they have no rule for the
    collection columns, which [updateBooking] writes as they come. *)
Definition slotInFormat (collection : bool) (b : Booking.t) : bool :=
  if collection then
    absentOr isDateFormat (Booking.collectionDate b)
    && absentOr isTimeFormat (Booking.collectionTime b)
  else
    absentOr isDateFormat (Booking.specialRequestDate b)
    && absentOr isDateFormat (Booking.sessionDate b)
    && absentOr isTimeFormat (Booking.specialRequestTime b)
    && absentOr isTimeFormat (Booking.sessionTime b).

(** Every row a list request sorts has its sort columns in the formats. *)
Definition slotsInFormat (u : AuthUser) (q : ListQuery) (s : Store) : bool :=
  forallb (slotInFormat (byCollection q)) (selectWhere (listWhere u q) s).

(** ** The order of the list in the words of the specification *)

(** The sort key: the collection slot under [hasCollectionDate], else
    [specialRequestDate ?? sessionDate] and
    [specialRequestTime ?? sessionTime]. *)
Definition specDate (collection : bool) (b : Booking.t) : option string :=
  if collection then Booking.collectionDate b
  else nullish (Booking.specialRequestDate b) (Booking.sessionDate b).

Definition specTime (collection : bool) (b : Booking.t) : option string :=
  if collection then Booking.collectionTime b
  else nullish (Booking.specialRequestTime b) (Booking.sessionTime b).

(** A null value after every other one; two strings lexicographically. *)
Definition nullLast (x y : option string) : Z :=
  match x, y with
  | None, None => 0
  | None, Some _ => 1
  | Some _, None => -1
  | Some a, Some b => lexicographic a b
  end.

(** A row with a null date after every row with a date; dates compared
    lexicographically, then times lexicographically, a null time after a
    time. *)
Definition specCompare (collection : bool) (a b : Booking.t) : Z :=
  if nullLast (specDate collection a) (specDate collection b) =? 0
  then match specDate collection a with
       | Some _ =>
           nullLast (specTime collection a) (specTime collection b)
       | None => 0
       end
  else nullLast (specDate collection a) (specDate collection b).

Definition specBefore (collection : bool) (a b : Booking.t) : Prop :=
  specCompare collection a b <= 0.

(** [PUT /bookings/:id] with the body [{ collectionDate, collectionTime }]. *)
Definition collectAt (u : AuthUser) (date time : string) : UpdateRequest :=
  {| ur_validationErrors := []; ur_user := u;
     ur_customerName := None; ur_phoneNumber := None;
     ur_emergencyPhoneNumber := None; ur_photoshootType := None;
     ur_sessionDate := None; ur_sessionTime := None;
     ur_specialRequestDate := None; ur_specialRequestTime := None;
     ur_paymentMethod := None; ur_status := None;
     ur_locationId := None;
     ur_notes := None; ur_studioNotes := None; ur_cancellationReason := None;
     ur_collectionDate := Some (Some date);
     ur_collectionTime := Some (Some time) |}.

(** [GET /bookings?hasCollectionDate=true]. *)
Definition collectionQuery : ListQuery :=
  {| q_locationId := None; q_status := None; q_salesPersonId := None;
     q_includeAllSalesPersons := None; q_page := None; q_limit := None;
     q_hasCollectionDate := Some "true" |}.

(** Two bookings of one day, not yet to be collected. *)
Definition toCollect : Store :=
  storeOf [ listed "k1" "sp1" CONFIRMED (Some "2024-02-01") (Some "09:00");
            listed "k2" "sp1" CONFIRMED (Some "2024-02-01") (Some "10:00") ].

(** The store after the collection of both is set for the first of
    March: of the first at ten, of the second at one, written without the
    leading zero. *)
Definition collected : Store :=
  db (snd (updateBooking "k2" (collectAt adminUser "2024-03-01" "1:00")
             (quiet
                (db (snd (updateBooking "k1"
                            (collectAt adminUser "2024-03-01" "10:00")
                            (quiet toCollect))))))).

(** ** The signature files ([utils/fileStorage]) *)

(** The storage directory as the functions of [fs] see it.  A file is
    named by its path relative to [storage/]; its content is kept as the
    base64 text the bytes were decoded from.  The last three fields say
    how the file system answers: the message of the error that
    [mkdirSync], [writeFileSync] or [unlinkSync] throws, if it throws. *)
Record Disk := mkDisk {
  signaturesPath : string;      (* [path.join(__dirname, '../../storage/signatures')] *)
  signaturesDir : bool;         (* the directory exists *)
  files : gmap string string;
  mkdirError : option string;
  writeError : option string;
  unlinkError : option string
}.

Definition withFiles (fs : gmap string string) (d : Disk) : Disk :=
  {| signaturesPath := signaturesPath d; signaturesDir := signaturesDir d;
     files := fs; mkdirError := mkdirError d; writeError := writeError d;
     unlinkError := unlinkError d |}.

Definition withSignaturesDir (d : Disk) : Disk :=
  {| signaturesPath := signaturesPath d; signaturesDir := true;
     files := files d; mkdirError := mkdirError d; writeError := writeError d;
     unlinkError := unlinkError d |}.

(** What [Date.now()] and
    [Math.random().toString(36).substring(2, 8)] give at the call. *)
Record Stamp := mkStamp {
  timestamp : Z;
  randomSuffix : string
}.

(** The result of a function that returns or throws an [Error] with a
    message. *)
Definition Thrower (A : Type) : Type := string + A.

(** [ensureStorageDir(dirPath)]. *)
Definition ensureStorageDir (dirPath : string) (d : Disk) : Thrower Disk :=
  if negb (signaturesDir d) then
    match mkdirError d with
    | Some message =>
        inl ("Failed to create directory " +:+ dirPath +:+ ": " +:+ message)
    | None => inr (withSignaturesDir d)
    end
  else inr d.

Fixpoint includesComma (s : string) : bool :=
  match s with
  | EmptyString => false
  | String c rest => Ascii.eqb c "," || includesComma rest
  end.

(** The text before the first comma, the whole text when it has none. *)
Fixpoint untilComma (s : string) : string :=
  match s with
  | EmptyString => EmptyString
  | String c rest =>
      if Ascii.eqb c "," then EmptyString else String c (untilComma rest)
  end.

(** The text after the first comma. *)
Fixpoint afterComma (s : string) : string :=
  match s with
  | EmptyString => EmptyString
  | String c rest => if Ascii.eqb c "," then rest else afterComma rest
  end.

(** [base64Data.includes(',') ? base64Data.split(',')[1] : base64Data]. *)
Definition base64String (base64Data : string) : string :=
  if includesComma base64Data then untilComma (afterComma base64Data)
  else base64Data.

(** [saveBase64Image(base64Data, filename)]: the relative path of the
    file written, or the message of the error thrown; in both cases the
    disk as the call leaves it. *)
Definition saveBase64Image (base64Data filename : string) (stamp : Stamp)
    (d : Disk) : Thrower string * Disk :=
  match ensureStorageDir (signaturesPath d) d with
  | inl message => (inl ("Cannot create storage directory: " +:+ message), d)
  | inr d1 =>
      let finalFilename :=
        filename +:+ "_" +:+ pretty (timestamp stamp) +:+ "_"
        +:+ randomSuffix stamp +:+ ".png" in
      match writeError d1 with
      | Some message => (inl ("Cannot write file: " +:+ message), d1)
      | None =>
          (inr ("signatures/" +:+ finalFilename),
           withFiles (<["signatures/" +:+ finalFilename
                        := base64String base64Data]> (files d1)) d1)
      end
  end.

(** [deleteFile(filePath)]: an error is logged, not thrown. *)
Definition deleteFile (filePath : string) (d : Disk) : Disk :=
  if isSome (files d !! filePath) then
    match unlinkError d with
    | Some _ => d
    | None => withFiles (delete filePath (files d)) d
    end
  else d.

(** ** [saveConsentFormSignature] *)

(** A request that also works on the signature files. *)
Record Machine := mkMachine {
  world : World;
  disk : Disk
}.

Definition MF (A : Type) : Type := Machine -> Outcome A * Machine.

Definition retF {A} (a : A) : MF A := fun m => (Val a, m).

Definition bindF {A B} (c : MF A) (k : A -> MF B) : MF B :=
  fun m =>
    match c m with
    | (Val a, m') => k a m'
    | (Thrown e, m') => (Thrown e, m')
    end.

Definition tryCatchF {A} (c : MF A) (handler : PrismaError -> MF A) : MF A :=
  fun m =>
    match c m with
    | (Val a, m') => (Val a, m')
    | (Thrown e, m') => handler e m'
    end.

(** A call of the store. *)
Definition onStore {A} (c : M A) : MF A :=
  fun m =>
    match c (world m) with
    | (r, w') => (r, {| world := w'; disk := disk m |})
    end.

(** A call of [utils/fileStorage]. *)
Definition onDisk {A} (f : Disk -> A * Disk) : MF A :=
  fun m =>
    match f (disk m) with
    | (a, d') => (Val a, {| world := world m; disk := d' |})
    end.

Notation "'step' x := c 'in' k" := (bindF c (fun x => k))
  (at level 10, x name, c at level 100, k at level 200).

(** [data: { signaturePath, consentFormSigned: true }]. *)
Definition signatureData (signaturePath : string) : BookingUpdateInput :=
  {| u_customerName := None; u_phoneNumber := None;
     u_emergencyPhoneNumber := None; u_photoshootType := None;
     u_sessionDate := None; u_sessionTime := None;
     u_specialRequestDate := None; u_specialRequestTime := None;
     u_paymentMethod := None; u_status := None;
     u_notes := None; u_studioNotes := None; u_cancellationReason := None;
     u_locationId := None; u_collectionDate := None; u_collectionTime := None;
     u_studioNumber := None;
     u_signaturePath := Some (Some signaturePath);
     u_consentFormSigned := Some true |}.

(** The [select] of the update.  (The selected timestamps are left out,
    as in [Booking.t].) *)
Record SignedBooking := mkSigned {
  sb_id : string;
  sb_customerName : string;
  sb_phoneNumber : string;
  sb_sessionDate : option string;
  sb_sessionTime : option string;
  sb_status : BookingStatus;
  sb_studioNumber : option Z;
  sb_signaturePath : option string;
  sb_consentFormSigned : bool
}.

Definition signedView (b : Booking.t) : SignedBooking :=
  {| sb_id := Booking.id b;
     sb_customerName := Booking.customerName b;
     sb_phoneNumber := Booking.phoneNumber b;
     sb_sessionDate := Booking.sessionDate b;
     sb_sessionTime := Booking.sessionTime b;
     sb_status := Booking.status b;
     sb_studioNumber := Booking.studioNumber b;
     sb_signaturePath := Booking.signaturePath b;
     sb_consentFormSigned := Booking.consentFormSigned b |}.

Definition jsStringOf (v : JsValue) : string :=
  match v with JsString s => s | _ => "" end.

Definition saveConsentFormSignature (id : string) (signature : JsValue)
    (stamp : Stamp) : MF (Response SignedBooking) :=
  tryCatchF
    (if negb (jsTruthy signature) || negb (isJsString signature) then
       retF (errorResponse "Signature data is required" 400)
     else
       step existingBooking := onStore (prisma.booking_findUnique id) in
       match existingBooking with
       | None => retF (errorResponse "Booking not found" 404)
       | Some existing =>
         step removed :=
           (if truthy (Booking.signaturePath existing) then
              onDisk (fun d =>
                (tt, deleteFile (default "" (Booking.signaturePath existing)) d))
            else retF tt) in
         step saved :=
           onDisk (saveBase64Image (jsStringOf signature) ("booking_" +:+ id)
                                   stamp) in
         match saved with
         | inl message =>
             retF (errorResponse ("Failed to save signature: " +:+ message) 500)
         | inr signaturePath =>
             step updatedBooking :=
               onStore (prisma.booking_update id (signatureData signaturePath)) in
             retF (successResponse (signedView updatedBooking)
                     "Consent form signature saved successfully" 200)
         end
       end)
    (fun _ => retF (errorResponse "Internal server error" 500)).

(** The row after the consent form has been signed. *)
Definition signedRow (b : Booking.t) (signaturePath : string) : Booking.t :=
  {| Booking.id := Booking.id b;
     Booking.customerName := Booking.customerName b;
     Booking.phoneNumber := Booking.phoneNumber b;
     Booking.emergencyPhoneNumber := Booking.emergencyPhoneNumber b;
     Booking.photoshootType := Booking.photoshootType b;
     Booking.sessionDate := Booking.sessionDate b;
     Booking.sessionTime := Booking.sessionTime b;
     Booking.specialRequestDate := Booking.specialRequestDate b;
     Booking.specialRequestTime := Booking.specialRequestTime b;
     Booking.paymentMethod := Booking.paymentMethod b;
     Booking.status := Booking.status b;
     Booking.notes := Booking.notes b;
     Booking.studioNotes := Booking.studioNotes b;
     Booking.cancellationReason := Booking.cancellationReason b;
     Booking.locationId := Booking.locationId b;
     Booking.salesPersonId := Booking.salesPersonId b;
     Booking.studioNumber := Booking.studioNumber b;
     Booking.collectionDate := Booking.collectionDate b;
     Booking.collectionTime := Booking.collectionTime b;
     Booking.signaturePath := Some signaturePath;
     Booking.consentFormSigned := true |}.

(** The path [saveBase64Image] returns for a booking. *)
Definition signatureFile (id : string) (stamp : Stamp) : string :=
  "signatures/" +:+ ("booking_" +:+ id) +:+ "_" +:+ pretty (timestamp stamp)
  +:+ "_" +:+ randomSuffix stamp +:+ ".png".

(** A disk on which no call of [fs] fails. *)
Definition healthy (d : Disk) : Prop :=
  (signaturesDir d = true \/ mkdirError d = None)
  /\ writeError d = None /\ unlinkError d = None.

(** Example disks and an example stamp. *)
Definition sampleDisk (present : list (string * string))
    (writeFails : option string) : Disk :=
  {| signaturesPath := "/srv/backend/storage/signatures";
     signaturesDir := true;
     files := list_to_map present;
     mkdirError := None; writeError := writeFails; unlinkError := None |}.

Definition sampleStamp : Stamp :=
  {| timestamp := 1700000000000; randomSuffix := "k3x9ab" |}.

(** A signed booking whose signature file is [signatures/old.png]. *)
Definition signedStore : Store :=
  storeOf [signedRow bookingA "signatures/old.png"].

(** ** [getBookingsBySalesPerson] *)

(** The query string of the statistics request. *)
Record StatsQuery := mkStatsQuery {
  sq_type : option string;
  sq_locationId : option string
}.

Record SalesPersonCount := mkSalesPersonCount {
  spc_id : string;
  spc_salesPersonName : string;
  spc_salesPersonEmail : option string;
  spc_bookingCount : Z
}.

(** [const { type = 'total' } = req.query; … type === 'today']. *)
Definition onlyToday (q : StatsQuery) : bool :=
  String.eqb (default "total" (sq_type q)) "today".

(** [today b] tells whether the creation timestamp of the row lies in
    the day of the server's clock, from midnight to the next midnight. *)
Definition statsWhere (user : AuthUser) (q : StatsQuery)
    (today : Booking.t -> bool) : StatsWhere :=
  {| sw_locationId :=
       if truthy (sq_locationId q) then sq_locationId q else None;
     sw_createdAt := if onlyToday q then Some today else None;
     sw_salesPersonId :=
       if hasRole user "SALES_PERSON" then Some (au_id user) else None |}.

(** The object [salesPersonCounts]: its keys in the order in which they
    were added (identifiers are UUIDs, so none of them is an array index
    or a name of [Object.prototype]). *)
Definition Counts := list (string * Z).

(** [counts[k]]. *)
Fixpoint getKey (counts : Counts) (k : string) : option Z :=
  match counts with
  | [] => None
  | (k', v) :: rest => if String.eqb k' k then Some v else getKey rest k
  end.

(** [counts[k] = v]: an existing key keeps its place, a new key comes
    last. *)
Fixpoint setKey (k : string) (v : Z) (counts : Counts) : Counts :=
  match counts with
  | [] => [(k, v)]
  | (k', v') :: rest =>
      if String.eqb k' k then (k', v) :: rest else (k', v') :: setKey k v rest
  end.

(** [!n] on a count that may be [undefined]. *)
Definition falsyNumber (n : option Z) : bool :=
  match n with Some v => v =? 0 | None => true end.

(** The body of the loop over the selected rows:
    [if (id) { if (!counts[id]) counts[id] = 0; counts[id]++ }]. *)
Definition tally (counts : Counts) (salesPersonId : string) : Counts :=
  if negb (String.eqb salesPersonId "") then
    let counts1 :=
      if falsyNumber (getKey counts salesPersonId)
      then setKey salesPersonId 0 counts else counts in
    setKey salesPersonId (default 0 (getKey counts1 salesPersonId) + 1) counts1
  else counts.

(** [salesPerson.name || salesPerson.email || 'Unknown']. *)
Definition displayName (sp : User.t) : string :=
  default "" (jsOr (jsOr (Some (User.name sp)) (User.email sp))
                   (Some "Unknown")).

(** The function mapped over [salesPersonIds]; [None] is [null]. *)
Definition statsEntry (salesPersonMap : gmap string User.t) (counts : Counts)
    (salesPersonId : string) : option SalesPersonCount :=
  match salesPersonMap !! salesPersonId with
  | None => None
  | Some sp =>
      Some {| spc_id := User.id sp;
              spc_salesPersonName := displayName sp;
              spc_salesPersonEmail := User.email sp;
              spc_bookingCount := default 0 (getKey counts salesPersonId) |}
  end.

(** [a] may stand before [b] under the comparator
    [(a, b) => b.bookingCount - a.bookingCount]. *)
Definition countsBefore (a b : SalesPersonCount) : Prop :=
  spc_bookingCount b - spc_bookingCount a <= 0.

#[global] Instance countsBefore_dec (a b : SalesPersonCount)
    : Decision (countsBefore a b) :=
  Z_le_dec (spc_bookingCount b - spc_bookingCount a) 0.

(** [.sort((a, b) => b.bookingCount - a.bookingCount)], stable. *)
Definition sortByCount (rows : list SalesPersonCount) : list SalesPersonCount :=
  foldr (fun a sorted => list_merge countsBefore [a] sorted) [] rows.

Definition getBookingsBySalesPerson (user : AuthUser) (q : StatsQuery)
    (today : Booking.t -> bool) : M (Response (list SalesPersonCount)) :=
  tryCatch
    (let where_ := statsWhere user q today in
     await bookings := prisma.booking_salesPersonIds where_ in
     let salesPersonCounts := fold_left tally bookings [] in
     let salesPersonIds := map fst salesPersonCounts in
     await salesPersons :=
       prisma.user_findMany salesPersonIds "SALES_PERSON" in
     let salesPersonMap :=
       newMap (map (fun sp => (User.id sp, sp)) salesPersons) in
     let result :=
       sortByCount
         (omap (statsEntry salesPersonMap salesPersonCounts) salesPersonIds) in
     ret (successResponse result
            ((if onlyToday q then "Today" else "Total")
             +:+ " bookings retrieved successfully")
            200))
    internalError.

(** The rows the statistics count for one sales person. *)
Definition countedFor (user : AuthUser) (q : StatsQuery)
    (today : Booking.t -> bool) (salesPersonId : string) (s : Store)
    : list Booking.t :=
  filter (fun b => matchesStats (statsWhere user q today) b = true
                   /\ Booking.salesPersonId b = salesPersonId)
         (bookings s).

(** The identifier is the primary key of the user table. *)
Definition uniqueUserIds (s : Store) : Prop :=
  NoDup (map User.id (users s)).

(** The answer of [getBookingsBySalesPerson], read off a store that does
    not change during the request. *)
Definition statsIn (user : AuthUser) (q : StatsQuery)
    (today : Booking.t -> bool) (s : Store) : list SalesPersonCount :=
  let bookings :=
    map Booking.salesPersonId
        (filter (fun b => matchesStats (statsWhere user q today) b = true)
                (bookings s)) in
  let salesPersonCounts := fold_left tally bookings [] in
  let salesPersonIds := map fst salesPersonCounts in
  let salesPersonMap :=
    newMap (map (fun sp => (User.id sp, sp))
                (selectUsers salesPersonIds "SALES_PERSON" s)) in
  sortByCount
    (omap (statsEntry salesPersonMap salesPersonCounts) salesPersonIds).

(** The entry of a sales person with the number of counted rows. *)
Definition entryOf (sp : User.t) (n : Z) : SalesPersonCount :=
  {| spc_id := User.id sp;
     spc_salesPersonName := displayName sp;
     spc_salesPersonEmail := User.email sp;
     spc_bookingCount := n |}.

(** The number of times a value occurs in a list. *)
Definition occurrences (k : string) (l : list string) : Z :=
  Z.of_nat (length (filter (fun x => x = k) l)).

(** Example rows and users for the statistics. *)
Definition paidBy (id sp : string) (pm : PaymentMethod) : Booking.t :=
  {| Booking.id := id; Booking.customerName := "Ann";
     Booking.phoneNumber := "07123456789";
     Booking.emergencyPhoneNumber := None;
     Booking.photoshootType := "family";
     Booking.sessionDate := Some "2024-01-02";
     Booking.sessionTime := Some "09:00";
     Booking.specialRequestDate := None; Booking.specialRequestTime := None;
     Booking.paymentMethod := pm; Booking.status := BOOKED;
     Booking.notes := None; Booking.studioNotes := None;
     Booking.cancellationReason := None;
     Booking.locationId := None; Booking.salesPersonId := sp;
     Booking.studioNumber := None;
     Booking.collectionDate := None; Booking.collectionTime := None;
     Booking.signaturePath := None; Booking.consentFormSigned := false |}.

Definition statsStore : Store :=
  {| bookings :=
       [ paidBy "p1" "sp2" CASH; paidBy "p2" "sp1" CARD;
         paidBy "p3" "sp1" NOT_PAID; paidBy "p4" "sp1" CASH;
         paidBy "p5" "boss" CASH ];
     locations := [];
     users :=
       [ {| User.id := "sp1"; User.name := "Ann";
            User.email := Some "ann@studio.example";
            User.role := "SALES_PERSON" |};
         {| User.id := "sp2"; User.name := "";
            User.email := Some "bob@studio.example";
            User.role := "SALES_PERSON" |};
         {| User.id := "boss"; User.name := "Eve"; User.email := None;
            User.role := "ADMIN" |} ] |}.

Definition totalQuery : StatsQuery :=
  {| sq_type := None; sq_locationId := None |}.

(** [GET /bookings?status=booked&salesPersonId=sp2]. *)
Definition bookedOfSp2 : ListQuery :=
  {| q_locationId := None; q_status := Some "booked";
     q_salesPersonId := Some "sp2"; q_includeAllSalesPersons := None;
     q_page := None; q_limit := None; q_hasCollectionDate := None |}.

(** Bookings of two sales persons at two locations. *)
Definition placed (id sp loc : string) : Booking.t :=
  {| Booking.id := id; Booking.customerName := "Ann";
     Booking.phoneNumber := "07123456789";
     Booking.emergencyPhoneNumber := None;
     Booking.photoshootType := "family";
     Booking.sessionDate := Some "2024-01-02";
     Booking.sessionTime := Some "09:00";
     Booking.specialRequestDate := None; Booking.specialRequestTime := None;
     Booking.paymentMethod := CASH; Booking.status := BOOKED;
     Booking.notes := None; Booking.studioNotes := None;
     Booking.cancellationReason := None;
     Booking.locationId := Some loc; Booking.salesPersonId := sp;
     Booking.studioNumber := None;
     Booking.collectionDate := None; Booking.collectionTime := None;
     Booking.signaturePath := None; Booking.consentFormSigned := false |}.

Definition twoLocations : Store :=
  storeOf [ placed "a1" "sp1" "L1"; placed "a2" "sp2" "L1";
            placed "a3" "sp2" "L2" ].

(** [GET /bookings?locationId=L1&includeAllSalesPersons=true]. *)
Definition everyoneAtL1 : ListQuery :=
  {| q_locationId := Some "L1"; q_status := None; q_salesPersonId := None;
     q_includeAllSalesPersons := Some "true";
     q_page := None; q_limit := None; q_hasCollectionDate := None |}.

(** [PUT /bookings/:id] with the body [{ locationId: loc }]. *)
Definition moveTo (u : AuthUser) (loc : string) : UpdateRequest :=
  {| ur_validationErrors := []; ur_user := u;
     ur_customerName := None; ur_phoneNumber := None;
     ur_emergencyPhoneNumber := None; ur_photoshootType := None;
     ur_sessionDate := None; ur_sessionTime := None;
     ur_specialRequestDate := None; ur_specialRequestTime := None;
     ur_paymentMethod := None; ur_status := None;
     ur_locationId := Some (Some loc);
     ur_notes := None; ur_studioNotes := None; ur_cancellationReason := None;
     ur_collectionDate := None; ur_collectionTime := None |}.

(** The identifiers of two locations. *)
Definition leeds : string := "3f2b8c1e-5d47-4a90-8b6f-1c2d3e4f5a6b".
Definition york : string := "9a1c7e42-0b6d-4f38-a5e1-7d2c4b8f6e03".

(** Number 1 is taken at both locations. *)
Definition numberedTwice : Store :=
  storeOf [ sampleBooking "m1" leeds (Some 1) CONFIRMED;
            sampleBooking "m2" york (Some 1) CONFIRMED ].

(** The write of a rival request that takes number [n] at the location
    of [sampleStore]. *)
Definition rivalTakes (n : Z) (s : Store) : Store :=
  withBookings (bookings s ++ [sampleBooking "rival" "L1" (Some n) CONFIRMED])
               s.

(** ** The code of a location ([utils/locationCode]) *)

(** [s.split(/\s+/).filter(word => word.length > 0)]: the runs of
    characters between white space; [word] is the run read so far. *)
Fixpoint splitWords (s : string) (word : string) : list string :=
  match s with
  | EmptyString => if String.eqb word "" then [] else [word]
  | String c rest =>
      if is_js_space c then
        (if String.eqb word "" then splitWords rest ""
         else word :: splitWords rest "")
      else splitWords rest (word +:+ String c "")
  end.

Definition skipWords : list string := ["OF"; "THE"; "AND"; "AT"; "IN"; "ON"].

(** [words.map(word => word[0]).join('').substring(0, 3)]. *)
Definition initials (words : list string) : string :=
  String.substring 0 3 (String.concat "" (map (String.substring 0 1) words)).

(** [generateLocationCode(locationName)]; [None] is [null].  Upper case
    and white space are those of ASCII, so the function is the one of the
    source on names written in ASCII. *)
Definition generateLocationCode (locationName : JsValue) : option string :=
  if negb (jsTruthy locationName) || negb (isJsString locationName) then None
  else
    let words :=
      splitWords (toUpperCase (trim (jsStringOf locationName))) "" in
    match words with
    | [] => None
    | [word] => Some (String.substring 0 3 word)
    | _ =>
        let code :=
          initials (filter (fun word =>
                              existsb (String.eqb word) skipWords = false)
                           words) in
        if Nat.eqb (String.length code) 0 then Some (initials words)
        else Some code
    end.

(** A character of ASCII. *)
Definition is_ascii (c : ascii) : bool := (N_of_ascii c <? 128)%N.

(** A character that [toUpperCase] leaves as it is and that is not white
    space. *)
Definition codeChar (c : ascii) : bool :=
  Ascii.eqb (upper_ascii c) c && negb (is_js_space c).

Fixpoint allChars (p : ascii -> bool) (s : string) : bool :=
  match s with
  | EmptyString => true
  | String c rest => p c && allChars p rest
  end.
(** ** The gap scan *)

Lemma gapLoop_firstGap (rest : list Z) :
  forall i, 0 <= i ->
    i + 1 <= gapLoop rest i (i + 1) <= i + 1 + Z.of_nat (length rest)
    /\ (forall j, i + 1 <= j < gapLoop rest i (i + 1) ->
          rest !! Z.to_nat (j - i - 1) = Some j)
    /\ rest !! Z.to_nat (gapLoop rest i (i + 1) - i - 1)
       <> Some (gapLoop rest i (i + 1)).
Proof.
  induction rest as [|n rest IH]; intros i Hi.
  - simpl. split; [lia|]. split; [intros j Hj; lia|]. discriminate.
  - cbn [gapLoop]. destruct (Z.eqb_spec n (i + 1)) as [->|Hne]; cbn [negb].
    + assert (Hi' : 0 <= i + 1) by lia.
      destruct (IH (i + 1) Hi') as (Hb & Hbelow & Hat).
      rewrite length_cons. split; [lia|]. split.
      * intros j Hj. destruct (Z.eq_dec j (i + 1)) as [->|Hj'].
        { replace (i + 1 - i - 1) with 0 by lia. reflexivity. }
        replace (Z.to_nat (j - i - 1)) with (S (Z.to_nat (j - (i + 1) - 1)))
          by lia.
        cbn. apply Hbelow. lia.
      * replace (Z.to_nat (gapLoop rest (i + 1) (i + 1 + 1) - i - 1))
          with (S (Z.to_nat (gapLoop rest (i + 1) (i + 1 + 1) - (i + 1) - 1)))
          by lia.
        cbn. exact Hat.
    + rewrite length_cons. split; [lia|]. split.
      * intros j Hj; lia.
      * replace (i + 1 - i - 1) with 0 by lia. cbn. intros [= Heq]. lia.
Qed.

Lemma gapScan_firstGap (rows : list Z) : firstGap rows (gapScan rows).
Proof.
  assert (H0 : 0 <= 0) by lia.
  destruct (gapLoop_firstGap rows 0 H0) as (Hb & Hbelow & Hat).
  unfold firstGap, gapScan. change (0 + 1) with 1 in *.
  split; [lia|]. split.
  - intros j Hj. specialize (Hbelow j Hj).
    replace (j - 1) with (j - 0 - 1) by lia. exact Hbelow.
  - replace (gapLoop rows 0 1 - 1) with (gapLoop rows 0 1 - 0 - 1) by lia.
    exact Hat.
Qed.

Lemma gapLoop_unused (rest : list Z) :
  forall i, (forall x, x ∈ rest -> i + 1 <= x) -> StronglySorted Z.lt rest ->
    i + 1 <= gapLoop rest i (i + 1)
    /\ (gapLoop rest i (i + 1) ∉ rest)
    /\ (forall k, i + 1 <= k < gapLoop rest i (i + 1) -> k ∈ rest).
Proof.
  induction rest as [|n rest IH]; intros i Hlow Hsorted.
  - simpl. split; [lia|]. split; [apply not_elem_of_nil|intros k Hk; lia].
  - apply StronglySorted_inv in Hsorted as [Hsorted Hall].
    rewrite Forall_forall in Hall.
    cbn [gapLoop]. destruct (Z.eqb_spec n (i + 1)) as [->|Hne]; cbn [negb].
    + destruct (IH (i + 1)) as (Hb & Hnot & Hbelow); [|exact Hsorted|].
      { intros x Hx. apply Hall in Hx. lia. }
      split; [lia|]. split.
      * rewrite elem_of_cons. intros [Heq|Hin]; [lia|contradiction].
      * intros k Hk. destruct (Z.eq_dec k (i + 1)) as [->|Hk'].
        { apply list_elem_of_here. }
        apply list_elem_of_further, Hbelow. lia.
    + assert (i + 1 < n) by (specialize (Hlow n (list_elem_of_here _ _)); lia).
      split; [lia|]. split.
      * rewrite elem_of_cons. intros [Heq|Hin]; [lia|].
        apply Hall in Hin. lia.
      * intros k Hk; lia.
Qed.

Lemma sorted_distinct_increasing (l : list Z) :
  Sorted Z.le l -> NoDup l -> StronglySorted Z.lt l.
Proof.
  intros Hs Hnd. apply (Sorted_StronglySorted Z.le) in Hs.
  induction l as [|x l IH]; [constructor|].
  apply StronglySorted_inv in Hs as [Hs Hall].
  apply NoDup_cons in Hnd as [Hx Hnd].
  constructor; [auto|].
  rewrite Forall_forall in *. intros y Hy.
  specialize (Hall y Hy).
  assert (x <> y) by (intros ->; apply Hx, Hy). lia.
Qed.

(** On a location whose numbers are distinct and positive the gap scan
    returns the smallest positive integer that is free. *)
Lemma gapScan_smallestUnused (used : list Z) :
  NoDup used -> (forall x, x ∈ used -> 1 <= x) ->
  smallestUnused used (gapScan (merge_sort Z.le used)).
Proof.
  intros Hnd Hpos.
  pose proof (merge_sort_Permutation Z.le used) as Hperm.
  destruct (gapLoop_unused (merge_sort Z.le used) 0) as (Hb & Hnot & Hbelow).
  - intros x Hx. rewrite Hperm in Hx. specialize (Hpos x Hx). lia.
  - apply sorted_distinct_increasing.
    + apply (Sorted_merge_sort Z.le).
    + rewrite Hperm. exact Hnd.
  - unfold smallestUnused, gapScan. change (0 + 1) with 1 in *.
    generalize dependent (gapLoop (merge_sort Z.le used) 0 1). intros g Hb Hnot Hbelow.
    rewrite Hperm in Hnot. split; [lia|]. split; [exact Hnot|].
    intros k Hk. rewrite <- Hperm. apply Hbelow. lia.
Qed.

(** ** Facts about the store primitives *)

Lemma findBooking_id (id : string) (s : Store) (b : Booking.t) :
  findBooking id s = Some b -> Booking.id b = id /\ b ∈ bookings s.
Proof.
  unfold findBooking. intros H. apply find_some in H as [Hin Heq].
  apply String.eqb_eq in Heq. split; [exact Heq|]. apply list_elem_of_In, Hin.
Qed.

Lemma holder_in_numbers (loc : string) (n : Z) (notId : string)
    (rows : list Booking.t) (b : Booking.t) :
  b ∈ rows -> holdsNumber loc n notId b = true -> n ∈ numbersAt loc rows.
Proof.
  intros Hin Hh. unfold holdsNumber in Hh.
  apply andb_true_iff in Hh as [Hh _]. apply andb_true_iff in Hh as [Hloc Hnum].
  unfold numbersAt. apply list_elem_of_omap. exists b. split; [exact Hin|].
  rewrite Hloc. destruct (Booking.studioNumber b) as [m|]; [|discriminate].
  apply Z.eqb_eq in Hnum. congruence.
Qed.

Lemma unused_no_holder (loc : string) (n : Z) (notId : string) (s : Store) :
  n ∉ numbersAt loc (bookings s) -> findHolder loc n notId s = None.
Proof.
  intros Hnot. unfold findHolder.
  destruct (find _ _) as [b|] eqn:Hf; [|reflexivity].
  apply find_some in Hf as [Hin Hh]. exfalso. apply Hnot.
  eapply holder_in_numbers; [apply list_elem_of_In, Hin|exact Hh].
Qed.

Lemma unused_keeps_unique (loc : string) (n : Z) (notId : string)
    (rows : list Booking.t) :
  n ∉ numbersAt loc rows -> existsb (holdsNumber loc n notId) rows = false.
Proof.
  intros Hnot. destruct (existsb _ _) eqn:He; [|reflexivity].
  apply existsb_exists in He as (b & Hin & Hh). exfalso. apply Hnot.
  eapply holder_in_numbers; [apply list_elem_of_In, Hin|exact Hh].
Qed.

Lemma find_replaceRow (b' : Booking.t) (rows : list Booking.t) (b : Booking.t) :
  find (fun r => String.eqb (Booking.id r) (Booking.id b')) rows = Some b ->
  find (fun r => String.eqb (Booking.id r) (Booking.id b')) (replaceRow b' rows)
  = Some b'.
Proof.
  induction rows as [|r rows IH]; [discriminate|].
  cbn. destruct (String.eqb (Booking.id r) (Booking.id b')) eqn:Heq.
  - intros _. now rewrite String.eqb_refl.
  - rewrite Heq. exact IH.
Qed.

Lemma applyUpdate_id (d : BookingUpdateInput) (b b' : Booking.t) :
  applyUpdate d b = Some b' -> Booking.id b' = Booking.id b.
Proof.
  unfold applyUpdate. intros H.
  destruct (match u_status d with Some _ => _ | None => _ end); [|discriminate].
  destruct (match u_paymentMethod d with Some _ => _ | None => _ end);
    [|discriminate].
  destruct (match u_studioNumber d with Some _ => _ | None => _ end);
    [|discriminate].
  cbn in H. injection H as <-. reflexivity.
Qed.

Lemma updateRow_stored (id : string) (d : BookingUpdateInput) (s s' : Store)
    (b' : Booking.t) :
  updateRow id d s = inr (b', s') -> findBooking id s' = Some b'.
Proof.
  unfold updateRow. destruct (findBooking id s) as [b|] eqn:Hf; [|discriminate].
  destruct (applyUpdate d b) as [b1|] eqn:Ha; [|discriminate].
  destruct (breaksUnique b1 (bookings s)); [discriminate|].
  intros [= <- <-]. apply applyUpdate_id in Ha.
  pose proof (findBooking_id _ _ _ Hf) as [Hid _].
  unfold findBooking in *. cbn. rewrite <- Hid, <- Ha in *.
  eapply find_replaceRow. exact Hf.
Qed.

Lemma applyUpdate_allocation (b : Booking.t) (n : Z) :
  applyUpdate (allocationData (Some n)) b = Some (allocatedRow b n).
Proof. reflexivity. Qed.

Lemma applyUpdate_allocation_inv (b b' : Booking.t) (o : option Z) :
  applyUpdate (allocationData o) b = Some b' ->
  exists n, o = Some n /\ b' = allocatedRow b n.
Proof.
  destruct o as [n|]; [|discriminate].
  rewrite applyUpdate_allocation. intros [= <-]. now exists n.
Qed.

(** A sequential allocation at a location whose numbers are distinct and
    positive: the re-query finds nothing and the gap-scan result is
    written. *)
Lemma allocate_sequential (s : Store) (t : list Event) (id loc : string)
    (b : Booking.t) (l : Location.t) :
  NoDup (numbersAt loc (bookings s)) ->
  Forall (fun x => 1 <= x) (numbersAt loc (bookings s)) ->
  findBooking id s = Some b ->
  Booking.locationId b = Some loc -> loc <> "" ->
  Booking.studioNumber b = None ->
  findLocation loc s = Some l ->
  let n := gapScan (studioNumbersAsc loc s) in
  let b' := allocatedRow b n in
  smallestUnused (numbersAt loc (bookings s)) n
  /\ findHolder loc n id s = None
  /\ allocateStudioNumber id (mkWorld s t [])
     = (Val (successResponse (allocatedView b' l)
               ("Studio number " +:+ studioNumberDisplay l (Some n)
                +:+ " allocated successfully") 200),
        mkWorld (withBookings (replaceRow b' (bookings s)) s)
                (t ++ allocationCalls id loc n) []).
Proof.
  intros Huniq Hpos Hfind Hloc Hne Hnum Hl n b'.
  assert (Hmex : smallestUnused (numbersAt loc (bookings s)) n).
  { apply gapScan_smallestUnused; [apply Huniq|].
    rewrite Forall_forall in Hpos. exact Hpos. }
  assert (Hfree : findHolder loc n id s = None).
  { apply unused_no_holder. apply Hmex. }
  split; [exact Hmex|]. split; [exact Hfree|].
  assert (Htruthy : truthy (Some loc) = true).
  { cbn. apply negb_true_iff, String.eqb_neq, Hne. }
  assert (Hok : breaksUnique b' (bookings s) = false).
  { unfold breaksUnique, b'. cbn. rewrite Hloc.
    apply unused_keeps_unique. apply Hmex. }
  unfold allocateStudioNumber, tryCatch, bind, prisma.booking_findUnique,
    prisma.location_findUnique, prisma.booking_studioNumbers,
    prisma.booking_findFirst, prisma.booking_update, query, command.
  cbn -[studioNumbersAsc gapScan findHolder updateRow findLocation findBooking
        append truthy].
  rewrite Hfind, Hloc, Htruthy, Hnum.
  cbn -[studioNumbersAsc gapScan findHolder updateRow findLocation findBooking
        append truthy].
  rewrite Hl.
  cbn -[studioNumbersAsc gapScan findHolder updateRow findLocation findBooking
        append truthy].
  fold n. rewrite Hfree.
  cbn -[studioNumbersAsc gapScan findHolder updateRow findLocation findBooking
        append truthy].
  unfold updateRow. rewrite Hfind, applyUpdate_allocation. fold b'.
  rewrite Hok. unfold allocationCalls.
  repeat rewrite <- app_assoc. reflexivity.
Qed.

Lemma trace_interleave (w : World) : trace (interleave w) = trace w.
Proof. unfold interleave. now destruct (pending w). Qed.

Lemma smallestUnused_of_three (used : list Z) (a c n : Z) :
  used ≡ₚ [1; 2; a] -> a = 3 /\ c = 4 \/ a = 4 /\ c = 3 ->
  smallestUnused used n -> n = c.
Proof.
  intros Hperm Hac (Hpos & Hnot & Hbelow).
  assert (Hmem : forall k, k ∈ used <-> k = 1 \/ k = 2 \/ k = a).
  { intros k. rewrite Hperm. rewrite !elem_of_cons, elem_of_nil. tauto. }
  rewrite Hmem in Hnot.
  destruct (Z_lt_le_dec 1 n) as [H1|H1]; [|lia].
  destruct (Z_lt_le_dec 2 n) as [H2|H2]; [|lia].
  destruct (Z_lt_le_dec 3 n) as [H3|H3]; [|lia].
  destruct (Z_lt_le_dec 4 n) as [H4|H4].
  - assert (H3' : 3 ∈ used) by (apply Hbelow; lia).
    assert (H4' : 4 ∈ used) by (apply Hbelow; lia).
    apply Hmem in H3'. apply Hmem in H4'. lia.
  - assert (H3' : 3 ∈ used) by (apply Hbelow; lia).
    apply Hmem in H3'. lia.
Qed.

(** C1.  For a booking that meets the allocation preconditions, at a
    location that exists and whose allocated numbers are distinct positive
    integers, [allocateStudioNumber] succeeds and stores the result of the
    gap scan over the location's numbers in ascending order: the first
    1-indexed position whose value is not the position, or the count plus
    one; this is the smallest positive integer not used at the location.
    Numbers {1,2,4} give 3 and numbers {1,2,3} give 4. *)
Theorem allocate_fills_first_gap (s : Store) (t : list Event) (id loc : string)
    (b : Booking.t) (l : Location.t) :
  findBooking id s = Some b ->
  Booking.locationId b = Some loc -> loc <> "" ->
  Booking.studioNumber b = None ->
  findLocation loc s = Some l ->
  NoDup (numbersAt loc (bookings s)) ->
  Forall (fun x => 1 <= x) (numbersAt loc (bookings s)) ->
  exists n data msg w',
    allocateStudioNumber id (mkWorld s t [])
    = (Val (successResponse data msg 200), w')
    /\ ab_studioNumber data = Some n
    /\ (exists b', findBooking id (db w') = Some b'
                   /\ Booking.studioNumber b' = Some n)
    /\ n = gapScan (studioNumbersAsc loc s)
    /\ Sorted Z.le (studioNumbersAsc loc s)
    /\ studioNumbersAsc loc s ≡ₚ numbersAt loc (bookings s)
    /\ firstGap (studioNumbersAsc loc s) n
    /\ smallestUnused (numbersAt loc (bookings s)) n
    /\ (numbersAt loc (bookings s) ≡ₚ [1; 2; 4] -> n = 3)
    /\ (numbersAt loc (bookings s) ≡ₚ [1; 2; 3] -> n = 4).
Proof.
  intros Hfind Hloc Hne Hnum Hl Huniq Hpos.
  destruct (allocate_sequential s t id loc b l Huniq Hpos Hfind Hloc Hne Hnum Hl)
    as (Hmex & _ & Hrun).
  exists (gapScan (studioNumbersAsc loc s)).
  eexists _, _, _. split; [exact Hrun|].
  split; [reflexivity|]. split.
  { exists (allocatedRow b (gapScan (studioNumbersAsc loc s))).
    split; [|reflexivity]. cbn [db].
    pose proof (findBooking_id _ _ _ Hfind) as [Hid _].
    unfold findBooking in *. cbn [bookings withBookings].
    rewrite <- Hid in *.
    exact (find_replaceRow
             (allocatedRow b (gapScan (studioNumbersAsc loc s))) _ _ Hfind). }
  split; [reflexivity|].
  split; [apply (Sorted_merge_sort Z.le)|].
  split; [apply merge_sort_Permutation|].
  split; [apply gapScan_firstGap|].
  split; [exact Hmex|]. split; intros Hperm.
  - eapply smallestUnused_of_three; [exact Hperm| |exact Hmex]. lia.
  - eapply smallestUnused_of_three; [exact Hperm| |exact Hmex]. lia.
Qed.

Lemma allocate_fills_first_gap_witness :
  exists n data msg w',
    allocateStudioNumber "new" (mkWorld (sampleStore [1; 2; 4]) [] [])
    = (Val (successResponse data msg 200), w')
    /\ ab_studioNumber data = Some n /\ n = 3.
Proof.
  destruct (allocate_fills_first_gap (sampleStore [1; 2; 4]) [] "new" "L1"
              (sampleBooking "new" "L1" None BOOKED)
              {| Location.id := "L1"; Location.name := "Leeds";
                 Location.code := Some "LE" |})
    as (n & data & msg & w' & Hrun & Hnum & _ & _ & _ & _ & _ & _ & H124 & _).
  - reflexivity.
  - reflexivity.
  - discriminate.
  - reflexivity.
  - reflexivity.
  - vm_compute. repeat constructor; rewrite ?elem_of_cons, ?elem_of_nil; lia.
  - vm_compute. repeat constructor; discriminate.
  - exists n, data, msg, w'. split; [exact Hrun|]. split; [exact Hnum|].
    apply H124. reflexivity.
Defined.

(** ** Running the primitives *)

Lemma bind_query {A B} (f : Store -> A) (ev : A -> Event) (dflt : Event)
    (k : A -> M B) (w : World) :
  bind (query (fun s => inr (f s)) ev dflt) k w
  = k (f (db (interleave w)))
      (record (ev (f (db (interleave w)))) (interleave w)).
Proof. reflexivity. Qed.

Lemma bind_command {A B} (c : Store -> PrismaError + A * Store) (ev : Event)
    (k : A -> M B) (w : World) :
  bind (command c ev) k w
  = match c (db (interleave w)) with
    | inr (a, s') =>
        k a {| db := s'; trace := trace w ++ [ev];
               pending := pending (interleave w) |}
    | inl e => (Thrown e, record ev (interleave w))
    end.
Proof.
  unfold bind, command. cbn [db record trace pending].
  rewrite trace_interleave.
  destruct (c (db (interleave w))) as [e|[a s']]; reflexivity.
Qed.

Lemma allocateCatch_code (e : PrismaError) (w w' : World)
    (r : Response AllocatedBooking) :
  allocateCatch e w = (Val r, w') ->
  w' = w /\ exists msg code, r = errorResponse msg code
                              /\ (code = 409 \/ code = 500).
Proof.
  destruct e; cbn; intros [= <- <-]; (split; [reflexivity|]); eauto.
Qed.

(** C4.  Whatever other requests do in between, a call of
    [allocateStudioNumber] that answers with success has written to the
    store exactly once, by one update of the booking whose data carries
    both the computed number and the status CONFIRMED; the stored booking
    then has that number and that status. *)
Theorem allocate_single_update (id : string) (w w' : World)
    (data : AllocatedBooking) (msg : string) (code : Z) :
  allocateStudioNumber id w = (Val (successResponse data msg code), w') ->
  exists (n : Z) (evs : list Event),
    trace w' = trace w ++ evs
    /\ List.filter isWrite evs = [BookingUpdate id (allocationData (Some n))]
    /\ u_studioNumber (allocationData (Some n)) = Some (Some n)
    /\ u_status (allocationData (Some n)) = Some (statusName CONFIRMED)
    /\ ab_studioNumber data = Some n
    /\ ab_status data = CONFIRMED
    /\ exists b', findBooking id (db w') = Some b'
                  /\ Booking.studioNumber b' = Some n
                  /\ Booking.status b' = CONFIRMED.
Proof.
  unfold allocateStudioNumber, tryCatch, prisma.booking_findUnique,
    prisma.location_findUnique, prisma.booking_studioNumbers,
    prisma.booking_findFirst, prisma.booking_update.
  rewrite bind_query.
  set (w1 := record _ (interleave w)).
  destruct (findBooking id (db (interleave w))) as [b|]; [|discriminate].
  destruct (negb (truthy (Booking.locationId b))); [discriminate|].
  destruct (isSome (Booking.studioNumber b)); [discriminate|].
  rewrite bind_query.
  set (loc := default "" (Booking.locationId b)).
  set (w2 := record _ (interleave w1)).
  destruct (findLocation loc (db (interleave w1))) as [l|]; [|discriminate].
  rewrite bind_query.
  set (rows := studioNumbersAsc loc (db (interleave w2))).
  set (w3 := record _ (interleave w2)).
  rewrite bind_query.
  set (holder := findHolder loc (gapScan rows) id (db (interleave w3))).
  set (w4 := record _ (interleave w3)).
  rewrite bind_command.
  destruct (updateRow id _ (db (interleave w4))) as [e|[b' s']] eqn:Hupd.
  { intros H. apply allocateCatch_code in H as (_ & m & c & [=] & _). }
  cbn [ret]. intros [= <- <- <- <-].
  pose proof (updateRow_stored _ _ _ _ _ Hupd) as Hstored.
  unfold updateRow in Hupd.
  destruct (findBooking id (db (interleave w4))) as [b0|]; [|discriminate].
  destruct (applyUpdate _ b0) as [b1|] eqn:Happ; [|discriminate].
  destruct (breaksUnique b1 _); [discriminate|].
  injection Hupd as -> _.
  apply applyUpdate_allocation_inv in Happ as (n & Hn & ->).
  exists n.
  exists [BookingFindUnique id; LocationFindUnique loc; BookingFindMany;
          BookingFindFirst loc (gapScan rows) id (isSome holder);
          BookingUpdate id (allocationData (Some n))].
  split.
  { cbn [trace]. subst w4 w3 w2 w1.
    repeat first [rewrite trace_interleave | progress cbn [record trace]].
    rewrite Hn. repeat rewrite <- app_assoc. reflexivity. }
  split; [reflexivity|]. split; [reflexivity|]. split; [reflexivity|].
  split; [reflexivity|]. split; [reflexivity|].
  exists (allocatedRow b0 n). split; [exact Hstored|]. split; reflexivity.
Qed.

Lemma allocate_single_update_witness :
  exists (n : Z) (evs : list Event),
    List.filter isWrite evs = [BookingUpdate "new" (allocationData (Some n))]
    /\ n = 4.
Proof.
  destruct (allocate_single_update "new" (quiet (sampleStore [1; 2; 3]))
              (snd (allocateStudioNumber "new" (quiet (sampleStore [1; 2; 3]))))
              (allocatedView
                 (allocatedRow (sampleBooking "new" "L1" None BOOKED) 4)
                 {| Location.id := "L1"; Location.name := "Leeds";
                    Location.code := Some "LE" |})
              "Studio number LE-4 allocated successfully" 200)
    as (n & evs & _ & Hw & _ & _ & Hn & _).
  - vm_compute. reflexivity.
  - exists n, evs. split; [exact Hw|]. cbn in Hn. congruence.
Defined.

Lemma legacy_allocation_keeps_status (b : Booking.t) (n : Z) :
  exists b', applyUpdate (Legacy.allocationData (Some n)) b = Some b'
             /\ Booking.studioNumber b' = Some n
             /\ Booking.status b' = Booking.status b.
Proof. eexists. split; [reflexivity|]. split; reflexivity. Qed.

Lemma allocate_rejected (id : string) (s : Store) (t : list Event)
    (r : Rejection) :
  rejectionOf id s = Some r ->
  exists evs,
    allocateStudioNumber id (mkWorld s t [])
    = (Val (rejectionResponse r), mkWorld s (t ++ evs) [])
    /\ List.filter isWrite evs = [].
Proof.
  unfold rejectionOf, allocateStudioNumber, tryCatch,
    prisma.booking_findUnique, prisma.location_findUnique.
  rewrite bind_query. cbn [interleave pending db record trace].
  destruct (findBooking id s) as [b|].
  2:{ intros [= <-]. exists [BookingFindUnique id]. split; reflexivity. }
  destruct (negb (truthy (Booking.locationId b))).
  { intros [= <-]. exists [BookingFindUnique id]. split; reflexivity. }
  destruct (isSome (Booking.studioNumber b)).
  { intros [= <-]. exists [BookingFindUnique id]. split; reflexivity. }
  rewrite bind_query. cbn [interleave pending db record trace].
  destruct (findLocation _ s) as [l|]; [discriminate|].
  intros [= <-].
  exists [BookingFindUnique id;
          LocationFindUnique (default "" (Booking.locationId b))].
  split; [|reflexivity]. cbn [ret]. unfold record. cbn [db trace pending].
  now rewrite <- app_assoc.
Qed.

Lemma allocate_not_rejected (id : string) (s : Store) (t : list Event)
    (w' : World) (msg : string) (code : Z) :
  rejectionOf id s = None ->
  allocateStudioNumber id (mkWorld s t []) = (Val (errorResponse msg code), w') ->
  code = 409 \/ code = 500.
Proof.
  unfold rejectionOf, allocateStudioNumber, tryCatch,
    prisma.booking_findUnique, prisma.location_findUnique,
    prisma.booking_studioNumbers, prisma.booking_findFirst,
    prisma.booking_update.
  rewrite bind_query. cbn [interleave pending db record trace].
  destruct (findBooking id s) as [b|]; [|discriminate].
  destruct (negb (truthy (Booking.locationId b))); [discriminate|].
  destruct (isSome (Booking.studioNumber b)); [discriminate|].
  rewrite bind_query. cbn [interleave pending db record trace].
  destruct (findLocation _ s) as [l|]; [|discriminate].
  intros _. rewrite !bind_query, bind_command.
  match goal with |- context [updateRow ?i ?d ?s0] =>
    destruct (updateRow i d s0) as [e|[b' s']] end.
  - intros H. apply allocateCatch_code in H as (_ & m & c & [= _ <-] & Hc).
    exact Hc.
  - discriminate.
Qed.

(** C5.  Without concurrent writes, [allocateStudioNumber] answers 404
    when the booking is missing, 400 when the booking has no location,
    400 when it already has a studio number, and 404 when its location is
    missing, in this order of checks; every 404 or 400 answer arises in
    one of these four ways, and the call then has issued no write and
    leaves the store as it was. *)
Theorem allocate_failures (id : string) (s : Store) (t : list Event) :
  (findBooking id s = None ->
     fst (allocateStudioNumber id (mkWorld s t []))
     = Val (errorResponse "Booking not found" 404))
  /\ (forall b, findBooking id s = Some b ->
        truthy (Booking.locationId b) = false ->
        statusCodeOf (rejectionResponse LocationUnset) = 400
        /\ fst (allocateStudioNumber id (mkWorld s t []))
           = Val (rejectionResponse LocationUnset))
  /\ (forall b n, findBooking id s = Some b ->
        truthy (Booking.locationId b) = true ->
        Booking.studioNumber b = Some n ->
        statusCodeOf (rejectionResponse NumberAlreadySet) = 400
        /\ fst (allocateStudioNumber id (mkWorld s t []))
           = Val (rejectionResponse NumberAlreadySet))
  /\ (forall b loc, findBooking id s = Some b ->
        Booking.locationId b = Some loc -> loc <> "" ->
        Booking.studioNumber b = None ->
        findLocation loc s = None ->
        fst (allocateStudioNumber id (mkWorld s t []))
        = Val (errorResponse "Location not found for this booking" 404))
  /\ (forall msg code w',
        allocateStudioNumber id (mkWorld s t []) = (Val (errorResponse msg code), w') ->
        code = 404 \/ code = 400 ->
        db w' = s
        /\ (exists evs, trace w' = t ++ evs /\ List.filter isWrite evs = [])
        /\ exists r, rejectionOf id s = Some r
                     /\ errorResponse msg code = rejectionResponse r).
Proof.
  split; [|split; [|split; [|split]]].
  - intros Hf.
    destruct (allocate_rejected id s t BookingMissing) as (evs & -> & _);
      [|reflexivity].
    unfold rejectionOf. now rewrite Hf.
  - intros b Hf Hloc. split; [reflexivity|].
    destruct (allocate_rejected id s t LocationUnset) as (evs & -> & _);
      [|reflexivity].
    unfold rejectionOf. now rewrite Hf, Hloc.
  - intros b n Hf Hloc Hn. split; [reflexivity|].
    destruct (allocate_rejected id s t NumberAlreadySet) as (evs & -> & _);
      [|reflexivity].
    unfold rejectionOf. now rewrite Hf, Hloc, Hn.
  - intros b loc Hf Hloc Hne Hn Hl.
    destruct (allocate_rejected id s t LocationMissing) as (evs & -> & _);
      [|reflexivity].
    unfold rejectionOf. rewrite Hf, Hloc, Hn. cbn.
    apply String.eqb_neq in Hne. rewrite Hne. cbn. now rewrite Hl.
  - intros msg code w' Hrun Hcode.
    destruct (rejectionOf id s) as [r|] eqn:Hr.
    + destruct (allocate_rejected id s t r Hr) as (evs & Hrun' & Hevs).
      rewrite Hrun' in Hrun. injection Hrun as Hresp <-.
      split; [reflexivity|]. split; [exists evs; now split|].
      exists r. split; [reflexivity|]. now symmetry.
    + apply (allocate_not_rejected _ _ _ _ _ _ Hr) in Hrun. lia.
Qed.

Lemma allocate_failures_witness :
  fst (allocateStudioNumber "b5" (mkWorld alreadyNumbered [] []))
  = Val (errorResponse "Studio number already allocated to this booking" 400)
  /\ db (snd (allocateStudioNumber "b5" (mkWorld alreadyNumbered [] [])))
     = alreadyNumbered.
Proof.
  destruct (allocate_failures "b5" alreadyNumbered [])
    as (_ & _ & Hset & _ & Hsame).
  destruct (Hset (sampleBooking "b5" "L1" (Some 5) CONFIRMED) 5
              eq_refl eq_refl eq_refl) as [_ Hresp].
  split; [exact Hresp|].
  eapply (Hsame _ 400 _).
  - vm_compute. reflexivity.
  - right. reflexivity.
Defined.

Lemma no_numbers_no_holder (loc : string) (s : Store) (n : Z) (notId : string) :
  studioNumbersAsc loc s = [] -> findHolder loc n notId s = None.
Proof.
  intros Hempty. apply unused_no_holder.
  pose proof (merge_sort_Permutation Z.le (numbersAt loc (bookings s))) as Hp.
  unfold studioNumbersAsc in Hempty. rewrite Hempty in Hp.
  apply Permutation_nil in Hp. rewrite Hp. apply not_elem_of_nil.
Qed.

(** C10.  In a run of [allocateStudioNumber] without concurrent writes,
    for a booking that passes the checks at a location whose allocated
    numbers are distinct positive integers, the re-query finds no other
    booking with the gap-scan candidate, so the branch that takes the last
    element of the existing numbers plus one is not entered and the number
    written is the gap-scan result; when the location has no number yet,
    the re-query finds nothing whatever the candidate, so that branch
    never reads the last element of an empty array. *)
Theorem allocate_fallback_unreachable (s : Store) (t : list Event)
    (id loc : string) (b : Booking.t) (l : Location.t) :
  findBooking id s = Some b ->
  Booking.locationId b = Some loc -> loc <> "" ->
  Booking.studioNumber b = None ->
  findLocation loc s = Some l ->
  NoDup (numbersAt loc (bookings s)) ->
  Forall (fun x => 1 <= x) (numbersAt loc (bookings s)) ->
  findHolder loc (gapScan (studioNumbersAsc loc s)) id s = None
  /\ resolveNumber (studioNumbersAsc loc s) (gapScan (studioNumbersAsc loc s))
       (findHolder loc (gapScan (studioNumbersAsc loc s)) id s)
     = Some (gapScan (studioNumbersAsc loc s))
  /\ trace (snd (allocateStudioNumber id (mkWorld s t [])))
     = t ++ allocationCalls id loc (gapScan (studioNumbersAsc loc s))
  /\ (exists b',
        findBooking id (db (snd (allocateStudioNumber id (mkWorld s t []))))
        = Some b'
        /\ Booking.studioNumber b' = Some (gapScan (studioNumbersAsc loc s)))
  /\ (studioNumbersAsc loc s = [] ->
      lastPlusOne (studioNumbersAsc loc s) = None
      /\ forall n, findHolder loc n id s = None).
Proof.
  intros Hfind Hloc Hne Hnum Hl Huniq Hpos.
  destruct (allocate_sequential s t id loc b l Huniq Hpos Hfind Hloc Hne Hnum Hl)
    as (_ & Hfree & Hrun).
  split; [exact Hfree|]. split; [now rewrite Hfree|].
  rewrite Hrun. cbn [snd trace db]. split; [reflexivity|]. split.
  - exists (allocatedRow b (gapScan (studioNumbersAsc loc s))).
    split; [|reflexivity].
    pose proof (findBooking_id _ _ _ Hfind) as [Hid _].
    unfold findBooking in *. cbn [bookings withBookings].
    rewrite <- Hid in *.
    exact (find_replaceRow
             (allocatedRow b (gapScan (studioNumbersAsc loc s))) _ _ Hfind).
  - intros Hempty. split; [now rewrite Hempty|].
    intros n. now apply no_numbers_no_holder.
Qed.

Lemma allocate_fallback_unreachable_witness :
  trace (snd (allocateStudioNumber "new" (mkWorld (sampleStore [2; 1; 4]) [] [])))
  = allocationCalls "new" "L1" 3.
Proof.
  destruct (allocate_fallback_unreachable (sampleStore [2; 1; 4]) [] "new" "L1"
              (sampleBooking "new" "L1" None BOOKED)
              {| Location.id := "L1"; Location.name := "Leeds";
                 Location.code := Some "LE" |})
    as (_ & _ & Htrace & _).
  - reflexivity.
  - reflexivity.
  - discriminate.
  - reflexivity.
  - reflexivity.
  - vm_compute. repeat constructor; rewrite ?elem_of_cons, ?elem_of_nil; lia.
  - vm_compute. repeat constructor; discriminate.
  - exact Htrace.
Defined.

(** A write of another request between the scan and the re-query does
    reach the fallback: with no number allocated yet it reads the last
    element of an empty array, and the request ends in a 500 answer. *)
Example concurrent_write_reaches_fallback :
  fst (allocateStudioNumber "new"
         {| db := sampleStore []; trace := [];
            pending := [fun s => s; fun s => s; fun s => s; rivalTakesOne] |})
  = Val (errorResponse "Internal server error" 500).
Proof. vm_compute. reflexivity. Qed.

(** ** [createBooking]: what is stored *)

Lemma allDigits_strip (s : string) : allDigits (stripNonDigits s) = true.
Proof.
  induction s as [|c s IH]; [reflexivity|].
  cbn. destruct (is_digit c) eqn:Hc; [|exact IH].
  cbn. now rewrite Hc, IH.
Qed.

Lemma find_after {A} (f : A -> bool) (l1 l2 : list A) :
  find f l1 = None -> find f (l1 ++ l2) = find f l2.
Proof.
  induction l1 as [|x l1 IH]; [reflexivity|].
  cbn. destruct (f x); [discriminate|exact IH].
Qed.

Lemma createRow_stored (newId : string) (d : BookingCreateInput)
    (s s' : Store) (b : Booking.t) :
  createRow newId d s = inr (b, s') ->
  rowOfCreate newId d = Some b
  /\ findBooking newId s = None
  /\ s' = withBookings (bookings s ++ [b]) s
  /\ findBooking newId s' = Some b.
Proof.
  unfold createRow. destruct (rowOfCreate newId d) as [b0|] eqn:Hrow;
    [|discriminate].
  destruct (findBooking newId s) eqn:Hf; cbn [isSome]; [discriminate|].
  intros [= <- <-]. split; [reflexivity|]. split; [reflexivity|].
  split; [reflexivity|].
  assert (Hid : Booking.id b0 = newId).
  { unfold rowOfCreate in Hrow.
    repeat match type of Hrow with
           | context [mbind _ ?o] => destruct o; cbn in Hrow; [|discriminate]
           end.
    injection Hrow as <-. reflexivity. }
  unfold findBooking in *. cbn [bookings withBookings].
  rewrite (find_after _ _ _ Hf). cbn. now rewrite Hid, String.eqb_refl.
Qed.

Lemma rowOfCreate_fields (newId : string) (d : BookingCreateInput)
    (b : Booking.t) :
  rowOfCreate newId d = Some b ->
  Booking.phoneNumber b = c_phoneNumber d
  /\ Booking.salesPersonId b = c_salesPersonId d
  /\ statusOfName (c_status d) = Some (Booking.status b)
  /\ columnOfJs (c_sessionDate d) = Some (Booking.sessionDate b)
  /\ columnOfJs (c_sessionTime d) = Some (Booking.sessionTime b)
  /\ columnOfJs (c_specialRequestDate d) = Some (Booking.specialRequestDate b)
  /\ columnOfJs (c_specialRequestTime d) = Some (Booking.specialRequestTime b).
Proof.
  unfold rowOfCreate. intros Hrow.
  destruct (statusOfName (c_status d)); cbn in Hrow; [|discriminate].
  destruct (paymentOfName (c_paymentMethod d)); cbn in Hrow; [|discriminate].
  destruct (columnOfJs (c_sessionDate d)); cbn in Hrow; [|discriminate].
  destruct (columnOfJs (c_sessionTime d)); cbn in Hrow; [|discriminate].
  destruct (columnOfJs (c_specialRequestDate d)); cbn in Hrow; [|discriminate].
  destruct (columnOfJs (c_specialRequestTime d)); cbn in Hrow; [|discriminate].
  injection Hrow as <-. cbn. repeat split; reflexivity.
Qed.

(** A successful [createBooking] has passed every check and has created
    the row it answers with. *)
Lemma createBooking_success (newId : string) (req : CreateRequest)
    (w w' : World) (booking : Booking.t) (msg : string) (code : Z) :
  createBooking newId req w = (Val (successResponse booking msg code), w') ->
  code = 201
  /\ elevenDigits (cr_phoneNumber req) = true
  /\ (String.eqb (bookingStatus (cr_status req)) "TBC" = true
      \/ hasSlot (cr_sessionDate req) (cr_sessionTime req) = true
      \/ hasSlot (cr_specialRequestDate req) (cr_specialRequestTime req) = true)
  /\ rowOfCreate newId (createData req) = Some booking
  /\ findBooking newId (db w') = Some booking
  /\ db w' = withBookings (bookings (db (interleave w)) ++ [booking])
                          (db (interleave w)).
Proof.
  unfold createBooking, tryCatch, prisma.booking_create.
  destruct (cr_validationErrors req); [|discriminate].
  destruct (elevenDigits (cr_phoneNumber req)); cbn [negb]; [|discriminate].
  destruct (truthy (cr_emergencyPhoneNumber req)
            && negb (elevenDigits (default "" (cr_emergencyPhoneNumber req))));
    [discriminate|].
  destruct (String.eqb (bookingStatus (cr_status req)) "TBC") eqn:Htbc;
    destruct (hasSlot (cr_sessionDate req) (cr_sessionTime req)) eqn:Hreg;
    destruct (hasSlot (cr_specialRequestDate req) (cr_specialRequestTime req))
      eqn:Hspec;
    cbn [negb andb]; try discriminate;
    rewrite bind_command;
    (destruct (createRow newId (createData req) (db (interleave w)))
       as [e|[b s']] eqn:Hc; [discriminate|]);
    cbn [ret]; intros [= <- <- <- <-];
    apply createRow_stored in Hc as (Hrow & _ & Hs' & Hstored);
    cbn [db]; auto 10.
Qed.

Lemma hasSlot_stored (date time : JsValue) (d t : option string) :
  hasSlot date time = true ->
  columnOfJs (jsOrNull date) = Some d ->
  columnOfJs (jsOrNull time) = Some t ->
  slotPresent d t = true /\ requestSlotPresent date time = true.
Proof.
  unfold hasSlot, slotPresent, requestSlotPresent, jsOrNull.
  destruct date as [| |sd|?], time as [| |st|?]; cbn;
    rewrite ?andb_false_r; try discriminate.
  destruct (String.eqb sd "") eqn:Hsd, (String.eqb st "") eqn:Hst; cbn;
    try discriminate.
  intros _ [= <-] [= <-]. cbn. rewrite Hsd, Hst.
  split; reflexivity.
Qed.

Lemma hasSlot_request (date time : JsValue) :
  hasSlot date time = true -> requestSlotPresent date time = true.
Proof.
  unfold hasSlot, requestSlotPresent.
  destruct date as [| |sd|?], time as [| |st|?]; cbn;
    rewrite ?andb_false_r; try discriminate.
  destruct (String.eqb sd ""), (String.eqb st ""); cbn; try discriminate.
  reflexivity.
Qed.

Lemma bookingStatus_TBC (status : option string) (st : BookingStatus) :
  statusOfName (bookingStatus status) = Some st ->
  String.eqb (bookingStatus status) "TBC" = status_eqb st TBC.
Proof.
  intros H. unfold statusOfName in H. apply find_some in H as [_ H].
  apply String.eqb_eq in H. unfold status_eqb. now rewrite H.
Qed.

(** C8 (amended).  A booking that [createBooking] stores satisfies the
    slot invariant: unless its status is TBC, its session date and time,
    or its special-request date and time, are both non-empty strings.  A
    create request whose status is not TBC and in which neither pair is a
    pair of non-empty strings is answered with 400 and nothing reaches the
    store. *)
Theorem create_establishes_slot_invariant (newId : string)
    (req : CreateRequest) (w : World) :
  (forall booking msg code w',
      createBooking newId req w = (Val (successResponse booking msg code), w') ->
      slotInvariant booking = true
      /\ findBooking newId (db w') = Some booking)
  /\ (violatesSlotRule req = true ->
      exists msg, createBooking newId req w = (Val (errorResponse msg 400), w)).
Proof.
  split.
  - intros booking msg code w' Hrun.
    apply createBooking_success in Hrun
      as (_ & _ & Hslot & Hrow & Hstored & _).
    split; [|exact Hstored].
    apply rowOfCreate_fields in Hrow
      as (_ & _ & Hst & Hsd & Hstime & Hrd & Hrt).
    cbn [createData c_status c_sessionDate c_sessionTime c_specialRequestDate
         c_specialRequestTime] in *.
    unfold slotInvariant. destruct Hslot as [Htbc|[Hreg|Hspec]].
    + rewrite (bookingStatus_TBC _ _ Hst) in Htbc. now rewrite Htbc.
    + destruct (hasSlot_stored _ _ _ _ Hreg Hsd Hstime) as [-> _].
      now rewrite orb_true_r.
    + destruct (hasSlot_stored _ _ _ _ Hspec Hrd Hrt) as [-> _].
      now rewrite orb_true_r.
  - unfold violatesSlotRule. intros Hv.
    apply andb_true_iff in Hv as [Hv Hspec].
    apply andb_true_iff in Hv as [Htbc Hreg].
    apply negb_true_iff in Htbc, Hreg, Hspec.
    pose proof (hasSlot_request (cr_sessionDate req) (cr_sessionTime req))
      as Hreg'.
    pose proof (hasSlot_request (cr_specialRequestDate req)
                  (cr_specialRequestTime req)) as Hspec'.
    rewrite Hreg in Hreg'. rewrite Hspec in Hspec'.
    assert (Hreg2 : hasSlot (cr_sessionDate req) (cr_sessionTime req) = false)
      by (apply not_true_is_false; intros H; now apply Hreg' in H).
    assert (Hspec2 : hasSlot (cr_specialRequestDate req)
                             (cr_specialRequestTime req) = false)
      by (apply not_true_is_false; intros H; now apply Hspec' in H).
    unfold createBooking, tryCatch.
    destruct (cr_validationErrors req) as [|m ?]; [|now exists m].
    destruct (elevenDigits (cr_phoneNumber req)); cbn [negb]; [|eauto].
    destruct (truthy (cr_emergencyPhoneNumber req)
              && negb (elevenDigits (default "" (cr_emergencyPhoneNumber req))));
      [eauto|].
    rewrite Htbc, Hreg2, Hspec2. cbn. eauto.
Qed.

Lemma create_establishes_slot_invariant_witness :
  exists msg,
    createBooking "b2" (sampleCreate "07123456789" None JsNull (JsString "09:00"))
                  (quiet emptyStore)
    = (Val (errorResponse msg 400), quiet emptyStore).
Proof.
  apply (create_establishes_slot_invariant "b2"
           (sampleCreate "07123456789" None JsNull (JsString "09:00"))
           (quiet emptyStore)).
  reflexivity.
Defined.

(** C8 as stated fails: [updateBooking] does not look at the slot fields.
    On a store that satisfies the invariant, the update [{ status:
    "BOOKED" }] of a TBC booking without any slot succeeds and leaves a
    booking that is not TBC and has no slot. *)
Lemma update_breaks_slot_invariant :
  slotInvariantHolds tbcStore
  /\ (exists view,
        fst (updateBooking "b1" (setStatusBooked salesAnn) (quiet tbcStore))
        = Val (successResponse view "Booking updated successfully" 200))
  /\ ~ slotInvariantHolds
         (db (snd (updateBooking "b1" (setStatusBooked salesAnn)
                     (quiet tbcStore)))).
Proof.
  split; [|split].
  - vm_compute. repeat constructor.
  - eexists. vm_compute. reflexivity.
  - vm_compute. intros H. inversion H as [|? ? Hb _]. discriminate Hb.
Qed.

(** The allocator confirms a TBC booking without any slot as well. *)
Example allocate_breaks_slot_invariant :
  let s := {| bookings :=
                [ {| Booking.id := "t1"; Booking.customerName := "Ann";
                     Booking.phoneNumber := "07123456789";
                     Booking.emergencyPhoneNumber := None;
                     Booking.photoshootType := "family";
                     Booking.sessionDate := None; Booking.sessionTime := None;
                     Booking.specialRequestDate := None;
                     Booking.specialRequestTime := None;
                     Booking.paymentMethod := CASH; Booking.status := TBC;
                     Booking.notes := None; Booking.studioNotes := None;
                     Booking.cancellationReason := None;
                     Booking.locationId := Some "L1";
                     Booking.salesPersonId := "sp1";
                     Booking.studioNumber := None;
                     Booking.collectionDate := None;
                     Booking.collectionTime := None;
                     Booking.signaturePath := None;
                     Booking.consentFormSigned := false |} ];
              locations := locations (sampleStore []); users := [] |} in
  slotInvariantHolds s
  /\ ~ slotInvariantHolds (db (snd (allocateStudioNumber "t1" (quiet s)))).
Proof.
  split.
  - vm_compute. repeat constructor.
  - vm_compute. intros H. inversion H as [|? ? Hb _]. discriminate Hb.
Qed.

(** ** Reading a booking back *)

Lemma record_mk (e : Event) (s : Store) (t : list Event)
    (p : list (Store -> Store)) :
  record e (mkWorld s t p) = mkWorld s (t ++ [e]) p.
Proof. reflexivity. Qed.

Lemma interleave_sequential (w : World) :
  sequential w -> interleave w = w.
Proof. unfold sequential, interleave. now intros ->. Qed.

Lemma lookupLocation_sequential (b : Booking.t) (w : World) :
  sequential w ->
  exists w',
    lookupLocation b w = (Val (location (detailsIn (db w) b)), w')
    /\ db w' = db w /\ sequential w'.
Proof.
  intros Hseq.
  unfold lookupLocation, orNullOnError, tryCatch, prisma.location_findUnique.
  cbn [detailsIn location].
  destruct (truthy (Booking.locationId b)).
  - rewrite bind_query, (interleave_sequential _ Hseq). cbn.
    eexists. split; [reflexivity|]. split; [reflexivity|exact Hseq].
  - exists w. cbn. split; [reflexivity|]. split; [reflexivity|exact Hseq].
Qed.

Lemma lookupSalesPerson_sequential (b : Booking.t) (w : World) :
  sequential w ->
  exists w',
    lookupSalesPerson b w = (Val (salesPerson (detailsIn (db w) b)), w')
    /\ db w' = db w /\ sequential w'.
Proof.
  intros Hseq.
  unfold lookupSalesPerson, prisma.user_findUnique.
  cbn [detailsIn salesPerson].
  destruct (negb _).
  - rewrite bind_query, (interleave_sequential _ Hseq). cbn.
    eexists. split; [reflexivity|]. split; [reflexivity|exact Hseq].
  - exists w. cbn. split; [reflexivity|]. split; [reflexivity|exact Hseq].
Qed.

Lemma getBookingById_own (id : string) (u : AuthUser) (s : Store)
    (t : list Event) (b : Booking.t) :
  truthy (au_role u) = true ->
  findBooking id s = Some b ->
  Booking.salesPersonId b = au_id u ->
  exists view,
    fst (getBookingById id (Some u) (mkWorld s t []))
    = Val (successResponse view "Booking retrieved successfully" 200)
    /\ row view = b.
Proof.
  intros Hrole Hfind Hown.
  unfold getBookingById, tryCatch, prisma.booking_findUnique.
  rewrite Hrole. cbn [negb]. rewrite bind_query.
  cbn [interleave pending db record trace]. rewrite Hfind.
  assert (Hperm : lacksPermission u b = false).
  { unfold lacksPermission. rewrite Hown, String.eqb_refl. cbn.
    now rewrite !andb_false_r. }
  rewrite Hperm, record_mk.
  destruct (lookupLocation_sequential b
              (mkWorld s (t ++ [BookingFindUnique id]) []) eq_refl)
    as (w1 & Hloc & _ & Hseq1).
  unfold bind at 1. rewrite Hloc.
  destruct (lookupSalesPerson_sequential b w1 Hseq1) as (w2 & Hsp & _).
  unfold bind, orNullOnError, tryCatch. rewrite Hsp. cbn.
  eexists. split; reflexivity.
Qed.

(** ** The phone number *)

Lemma createBooking_rejects_phone (newId : string) (req : CreateRequest)
    (w : World) :
  elevenDigits (cr_phoneNumber req) = false ->
  exists msg, createBooking newId req w = (Val (errorResponse msg 400), w).
Proof.
  intros Hphone. unfold createBooking, tryCatch.
  destruct (cr_validationErrors req) as [|m ?]; [|now exists m].
  rewrite Hphone. cbn. eauto.
Qed.

Lemma phoneValid_strip (b : Booking.t) (phone : string) :
  Booking.phoneNumber b = stripNonDigits phone ->
  elevenDigits phone = true -> phoneValid b = true.
Proof.
  intros Hb Hd. unfold phoneValid, elevenDigits in *.
  now rewrite Hb, Hd, allDigits_strip.
Qed.

Lemma applyUpdate_phone (d : BookingUpdateInput) (b b' : Booking.t) :
  applyUpdate d b = Some b' ->
  Booking.phoneNumber b'
  = setField (u_phoneNumber d) (Booking.phoneNumber b).
Proof.
  unfold applyUpdate. intros H.
  destruct (match u_status d with Some _ => _ | None => _ end); [|discriminate].
  destruct (match u_paymentMethod d with Some _ => _ | None => _ end);
    [|discriminate].
  destruct (match u_studioNumber d with Some _ => _ | None => _ end);
    [|discriminate].
  cbn in H. injection H as <-. reflexivity.
Qed.

Lemma replaceRow_Forall (P : Booking.t -> Prop) (b' : Booking.t)
    (rows : list Booking.t) :
  Forall P rows -> P b' -> Forall P (replaceRow b' rows).
Proof.
  intros Hall Hb. unfold replaceRow. induction Hall as [|r rows Hr _ IH].
  - constructor.
  - cbn. constructor; [|exact IH].
    destruct (String.eqb (Booking.id r) (Booking.id b')); assumption.
Qed.

(** [updateBooking] keeps every stored phone number an 11-digit string. *)
Lemma updateBooking_keeps_phones (id : string) (req : UpdateRequest)
    (s : Store) (t : list Event) :
  phonesValid s ->
  phonesValid (db (snd (updateBooking id req (mkWorld s t [])))).
Proof.
  intros Hvalid.
  unfold updateBooking, tryCatch, prisma.booking_findUnique,
    prisma.booking_update.
  destruct (ur_validationErrors req); [|exact Hvalid].
  rewrite bind_query. cbn [interleave pending db record trace].
  destruct (findBooking id s) as [existing|] eqn:Hf; [|exact Hvalid].
  destruct (lacksPermission (ur_user req) existing); [exact Hvalid|].
  destruct (truthy (ur_phoneNumber req)
            && negb (elevenDigits (default "" (ur_phoneNumber req)))) eqn:Hphone;
    [exact Hvalid|].
  destruct (truthy (flatten (ur_emergencyPhoneNumber req)) && _);
    [exact Hvalid|].
  rewrite bind_command. cbn [interleave pending db record trace].
  destruct (updateRow id (updateData req) s) as [e|[b' s']] eqn:Hupd;
    [exact Hvalid|].
  assert (Hs' : phonesValid s').
  { unfold updateRow in Hupd. rewrite Hf in Hupd.
    destruct (applyUpdate (updateData req) existing) as [b1|] eqn:Happ;
      [|discriminate].
    destruct (breaksUnique b1 (bookings s)); [discriminate|].
    injection Hupd as <- <-. unfold phonesValid. cbn [bookings withBookings].
    apply replaceRow_Forall; [exact Hvalid|].
    apply applyUpdate_phone in Happ. cbn [updateData u_phoneNumber] in Happ.
    unfold whenTruthy in Happ.
    destruct (ur_phoneNumber req) as [phone|]; cbn in Happ, Hphone.
    - destruct (negb (String.eqb phone "")); cbn in Happ, Hphone.
      + apply (phoneValid_strip _ phone Happ).
        apply negb_false_iff in Hphone. exact Hphone.
      + unfold phoneValid. rewrite Happ.
        unfold phonesValid in Hvalid. rewrite Forall_forall in Hvalid.
        apply (Hvalid existing). now apply findBooking_id in Hf.
    - unfold phoneValid. rewrite Happ.
      unfold phonesValid in Hvalid. rewrite Forall_forall in Hvalid.
      apply (Hvalid existing). now apply findBooking_id in Hf. }
  match goal with |- context [bind ?m ?k ?w0] =>
    assert (Hloc : exists v w1,
               m w0 = (Val v, w1) /\ db w1 = s' /\ sequential w1) end.
  { destruct (truthy (Booking.locationId b')).
    - unfold prisma.location_findUnique. rewrite bind_query. cbn.
      eexists _, _. split; [reflexivity|]. split; reflexivity.
    - eexists _, _. cbn. split; [reflexivity|]. split; reflexivity. }
  destruct Hloc as (v & w1 & Hloc & Hdb1 & Hseq1).
  unfold bind at 1. rewrite Hloc.
  destruct (lookupSalesPerson_sequential b' w1 Hseq1)
    as (w2 & Hsp & Hdb2 & _).
  unfold bind. rewrite Hsp. cbn [ret snd]. now rewrite Hdb2, Hdb1.
Qed.

(** A request that passes the checks is stored, provided the names fit
    the enums of the schema and the generated identifier is new. *)
Lemma createBooking_accepts (newId : string) (req : CreateRequest)
    (s : Store) (t : list Event) (b : Booking.t) :
  cr_validationErrors req = [] ->
  elevenDigits (cr_phoneNumber req) = true ->
  truthy (cr_emergencyPhoneNumber req)
  && negb (elevenDigits (default "" (cr_emergencyPhoneNumber req))) = false ->
  violatesSlotRule req = false ->
  hasSlot (cr_sessionDate req) (cr_sessionTime req)
  = requestSlotPresent (cr_sessionDate req) (cr_sessionTime req) ->
  hasSlot (cr_specialRequestDate req) (cr_specialRequestTime req)
  = requestSlotPresent (cr_specialRequestDate req) (cr_specialRequestTime req) ->
  rowOfCreate newId (createData req) = Some b ->
  findBooking newId s = None ->
  createBooking newId req (mkWorld s t [])
  = (Val (successResponse b "Booking created successfully" 201),
     mkWorld (withBookings (bookings s ++ [b]) s) (t ++ [BookingCreate newId]) []).
Proof.
  intros Hval Hphone Hem Hslot Hreg Hspec Hrow Hfresh.
  unfold createBooking, tryCatch, prisma.booking_create.
  rewrite Hval, Hphone, Hem. cbn [negb].
  unfold violatesSlotRule in Hslot. rewrite <- Hreg, <- Hspec in Hslot.
  rewrite Hslot, bind_command. cbn [interleave pending db].
  unfold createRow. rewrite Hrow, Hfresh. reflexivity.
Qed.

(** C9.  [createBooking] answers 400 and stores nothing when the phone
    number of the request does not reduce to exactly 11 digits.  When it
    answers with success, the stored booking has as phone number the
    digits of the request's phone number, an 11-digit string, and its
    creator reads the same string back with [getBookingById]; the input
    ["0712-345 6789"] reduces to ["07123456789"].  Both [createBooking]
    and [updateBooking] keep every stored phone number an 11-digit
    string. *)
Theorem phone_number_round_trip (newId : string) (req : CreateRequest)
    (w : World) :
  (elevenDigits (cr_phoneNumber req) = false ->
     exists msg, createBooking newId req w = (Val (errorResponse msg 400), w))
  /\ (forall booking msg code w',
        createBooking newId req w = (Val (successResponse booking msg code), w') ->
        Booking.phoneNumber booking = stripNonDigits (cr_phoneNumber req)
        /\ String.length (Booking.phoneNumber booking) = 11%nat
        /\ allDigits (Booking.phoneNumber booking) = true
        /\ findBooking newId (db w') = Some booking
        /\ (truthy (au_role (cr_user req)) = true ->
            forall t, exists view,
              fst (getBookingById newId (Some (cr_user req))
                     (mkWorld (db w') t []))
              = Val (successResponse view "Booking retrieved successfully" 200)
              /\ Booking.phoneNumber (row view)
                 = stripNonDigits (cr_phoneNumber req))
        /\ (phonesValid (db (interleave w)) -> phonesValid (db w')))
  /\ stripNonDigits "0712-345 6789" = "07123456789"
  /\ (forall id ureq s t,
        phonesValid s ->
        phonesValid (db (snd (updateBooking id ureq (mkWorld s t []))))).
Proof.
  split; [apply createBooking_rejects_phone|].
  split; [|split; [reflexivity|]].
  - intros booking msg code w' Hrun.
    apply createBooking_success in Hrun
      as (_ & Hphone & _ & Hrow & Hstored & Hdb).
    apply rowOfCreate_fields in Hrow as (Hnum & Hsp & _).
    cbn [createData c_phoneNumber c_salesPersonId] in Hnum, Hsp.
    pose proof (phoneValid_strip booking _ Hnum Hphone) as Hvalid.
    unfold phoneValid in Hvalid. apply andb_true_iff in Hvalid as [Hlen Hdig].
    apply Nat.eqb_eq in Hlen.
    split; [exact Hnum|]. split; [exact Hlen|]. split; [exact Hdig|].
    split; [exact Hstored|]. split.
    + intros Hrole t.
      destruct (getBookingById_own newId (cr_user req) (db w') t booking
                  Hrole Hstored Hsp) as (view & Hget & Hview).
      exists view. split; [exact Hget|]. now rewrite Hview.
    + intros Hold. rewrite Hdb. unfold phonesValid.
      cbn [bookings withBookings]. apply Forall_app. split; [exact Hold|].
      constructor; [|constructor]. unfold phoneValid.
      now rewrite Hlen, Hdig.
  - intros id ureq s t. apply updateBooking_keeps_phones.
Qed.

Lemma phone_number_round_trip_witness :
  exists view,
    fst (getBookingById "b2" (Some salesAnn)
           (quiet (db (snd (createBooking "b2"
                              (sampleCreate "0712-345 6789" None
                                 (JsString "2024-01-02") (JsString "09:00"))
                              (quiet emptyStore))))))
    = Val (successResponse view "Booking retrieved successfully" 200)
    /\ Booking.phoneNumber (row view) = "07123456789".
Proof.
  destruct (phone_number_round_trip "b2"
              (sampleCreate "0712-345 6789" None
                 (JsString "2024-01-02") (JsString "09:00"))
              (quiet emptyStore)) as (_ & Hok & _).
  edestruct Hok as (_ & _ & _ & _ & Hread & _); [reflexivity|].
  exact (Hread eq_refl []).
Defined.

(** ** The order of the list *)

Lemma collationRank_inj (x y : ascii) :
  collationRank x = collationRank y -> x = y.
Proof.
  unfold collationRank.
  destruct (Ascii.eqb_spec x ":") as [->|_],
           (Ascii.eqb_spec y ":") as [->|_]; try reflexivity; try lia.
  intros H. rewrite <- (ascii_N_embedding x), <- (ascii_N_embedding y).
  f_equal. lia.
Qed.

Lemma collate_flip (a b : string) : collate b a = CompOpp (collate a b).
Proof.
  revert b. induction a as [|x a IH]; intros [|y b]; try reflexivity.
  cbn [collate]. rewrite (N.compare_antisym (collationRank x)).
  destruct (collationRank x ?= collationRank y)%N; cbn [CompOpp];
    [apply IH|reflexivity|reflexivity].
Qed.

Lemma collate_eq (a b : string) : collate a b = Eq <-> a = b.
Proof.
  revert b. induction a as [|x a IH]; intros [|y b]; cbn [collate];
    try (split; [discriminate|discriminate]); [tauto|].
  destruct (collationRank x ?= collationRank y)%N eqn:Hxy.
  - apply N.compare_eq in Hxy. apply collationRank_inj in Hxy as ->.
    rewrite IH. split; [now intros ->|now intros [= ->]].
  - split; [discriminate|]. intros [= -> ->].
    rewrite N.compare_refl in Hxy. discriminate.
  - split; [discriminate|]. intros [= -> ->].
    rewrite N.compare_refl in Hxy. discriminate.
Qed.

Lemma collate_lt_trans (a b c : string) :
  collate a b = Lt -> collate b c = Lt -> collate a c = Lt.
Proof.
  revert b c. induction a as [|x a IH]; intros [|y b] [|z c];
    cbn [collate]; try discriminate; try reflexivity.
  destruct (collationRank x ?= collationRank y)%N eqn:Hxy;
    destruct (collationRank y ?= collationRank z)%N eqn:Hyz;
    try discriminate; intros Hab Hbc.
  - apply N.compare_eq in Hxy, Hyz. rewrite Hxy, Hyz, N.compare_refl.
    now apply (IH b c).
  - apply N.compare_eq in Hxy. now rewrite Hxy, Hyz.
  - apply N.compare_eq in Hyz. now rewrite <- Hyz, Hxy.
  - rewrite N.compare_lt_iff in Hxy, Hyz.
    assert (Hxz : (collationRank x < collationRank z)%N) by lia.
    apply N.compare_lt_iff in Hxz. now rewrite Hxz.
Qed.

Lemma localeCompare_flip (a b : string) :
  localeCompare b a = - localeCompare a b.
Proof.
  unfold localeCompare. rewrite (collate_flip a b).
  now destruct (collate a b).
Qed.

Lemma localeCompare_zero (a b : string) :
  localeCompare a b = 0 <-> a = b.
Proof.
  rewrite <- collate_eq. unfold localeCompare.
  destruct (collate a b); split; (reflexivity || discriminate).
Qed.

Lemma localeCompare_neg (a b : string) :
  localeCompare a b < 0 <-> collate a b = Lt.
Proof.
  unfold localeCompare.
  destruct (collate a b); split; (lia || discriminate || reflexivity).
Qed.

Lemma localeCompare_chain (a b c : string) :
  localeCompare a b <= 0 -> localeCompare b c <= 0 ->
  localeCompare a c <= 0
  /\ (localeCompare a c = 0 -> localeCompare a b = 0 /\ localeCompare b c = 0).
Proof.
  intros Hab Hbc.
  destruct (Z.eq_dec (localeCompare a b) 0) as [Eab|Nab].
  { apply localeCompare_zero in Eab as ->. split; [exact Hbc|].
    intros H. split; [now apply localeCompare_zero|exact H]. }
  destruct (Z.eq_dec (localeCompare b c) 0) as [Ebc|Nbc].
  { apply localeCompare_zero in Ebc as ->. split; [exact Hab|].
    intros H. split; [exact H|now apply localeCompare_zero]. }
  assert (Hlt : collate a c = Lt).
  { apply (collate_lt_trans a b c); apply localeCompare_neg; lia. }
  apply localeCompare_neg in Hlt. split; lia.
Qed.

(** On two strings of one pattern of the routes, collation and the
    character codes give the same order: the digits keep their order, and
    a literal character stands at the same place in both. *)
Lemma collate_pattern (pattern : list CharClass) (a b : string) :
  matchesPattern pattern a = true -> matchesPattern pattern b = true ->
  collate a b = String.compare a b.
Proof.
  revert a b. induction pattern as [|cl pattern IH]; intros [|x a] [|y b];
    cbn [matchesPattern]; try discriminate; try reflexivity;
    try (destruct cl; discriminate).
  destruct cl as [|l]; rewrite !andb_true_iff; intros [Hx Ha] [Hy Hb];
    cbn [collate String.compare]; rewrite (IH a b Ha Hb).
  - unfold collationRank, Ascii.compare.
    assert (Hnx : Ascii.eqb x ":" = false).
    { destruct (Ascii.eqb_spec x ":") as [->|]; [discriminate Hx|reflexivity]. }
    assert (Hny : Ascii.eqb y ":" = false).
    { destruct (Ascii.eqb_spec y ":") as [->|]; [discriminate Hy|reflexivity]. }
    rewrite Hnx, Hny.
    destruct (N.compare_spec (N_of_ascii x) (N_of_ascii y)) as [H|H|H].
    + rewrite H, N.compare_refl. reflexivity.
    + assert (H2 : (2 * N_of_ascii x < 2 * N_of_ascii y)%N) by lia.
      apply N.compare_lt_iff in H2. now rewrite H2.
    + assert (H2 : (2 * N_of_ascii y < 2 * N_of_ascii x)%N) by lia.
      apply N.compare_gt_iff in H2. now rewrite H2.
  - apply Ascii.eqb_eq in Hx, Hy. subst x y.
    rewrite N.compare_refl. unfold Ascii.compare. now rewrite N.compare_refl.
Qed.

Lemma localeCompare_pattern (pattern : list CharClass) (a b : string) :
  matchesPattern pattern a = true -> matchesPattern pattern b = true ->
  localeCompare a b = lexicographic a b.
Proof.
  intros Ha Hb. unfold localeCompare, lexicographic.
  now rewrite (collate_pattern pattern a b Ha Hb).
Qed.

Lemma compareSlots_lexicographic (dA tA dB tB : option string) :
  compareSlots dA tA dB tB
  = if negb (truthy dA) && negb (truthy dB) then 0
    else if absentLast dA dB =? 0 then absentLast tA tB
    else absentLast dA dB.
Proof.
  unfold compareSlots, absentLast.
  destruct (truthy dA), (truthy dB); cbn [negb andb]; try reflexivity.
  destruct (String.eqb_spec (default "" dA) (default "" dB)) as [Heq|Hne];
    cbn [negb].
  - rewrite (proj2 (localeCompare_zero _ _) Heq). reflexivity.
  - destruct (Z.eqb_spec (localeCompare (default "" dA) (default "" dB)) 0)
      as [H0|_]; [|reflexivity].
    now apply localeCompare_zero in H0.
Qed.

Lemma absentLast_flip (x y : option string) :
  absentLast y x = - absentLast x y.
Proof.
  unfold absentLast. destruct (truthy x), (truthy y); cbn; try reflexivity.
  apply localeCompare_flip.
Qed.

Lemma absentLast_chain (x y z : option string) :
  absentLast x y <= 0 -> absentLast y z <= 0 ->
  absentLast x z <= 0
  /\ (absentLast x z = 0 -> absentLast x y = 0 /\ absentLast y z = 0).
Proof.
  unfold absentLast.
  destruct (truthy x), (truthy y), (truthy z); cbn [negb andb];
    try lia; try apply localeCompare_chain.
Qed.

Lemma compareSlots_total (dA tA dB tB : option string) :
  compareSlots dA tA dB tB <= 0 \/ compareSlots dB tB dA tA <= 0.
Proof.
  rewrite !compareSlots_lexicographic.
  rewrite (absentLast_flip dA dB), (absentLast_flip tA tB).
  destruct (truthy dA), (truthy dB); cbn [negb andb]; try lia;
    destruct (Z.eqb_spec (absentLast dA dB) 0);
    destruct (Z.eqb_spec (- absentLast dA dB) 0); cbv beta iota; lia.
Qed.

Lemma absentLast_absent (x y : option string) :
  truthy x = false -> absentLast x y <= 0 -> truthy y = false.
Proof.
  unfold absentLast. intros ->. destruct (truthy y); cbn; [lia|reflexivity].
Qed.

Lemma lexicographic_first (dA tA dB tB : option string) :
  (if negb (truthy dA) && negb (truthy dB) then 0
   else if absentLast dA dB =? 0 then absentLast tA tB
   else absentLast dA dB) <= 0 ->
  absentLast dA dB <= 0.
Proof.
  destruct (negb (truthy dA) && negb (truthy dB)) eqn:E.
  - intros _. unfold absentLast. rewrite E. lia.
  - destruct (Z.eqb_spec (absentLast dA dB) 0); lia.
Qed.

Lemma compareSlots_trans (dA tA dB tB dC tC : option string) :
  compareSlots dA tA dB tB <= 0 -> compareSlots dB tB dC tC <= 0 ->
  compareSlots dA tA dC tC <= 0.
Proof.
  rewrite !compareSlots_lexicographic.
  intros Hab Hbc.
  pose proof (lexicographic_first _ _ _ _ Hab) as HdAB.
  pose proof (lexicographic_first _ _ _ _ Hbc) as HdBC.
  destruct (absentLast_chain dA dB dC HdAB HdBC) as [HdAC Hzero].
  destruct (truthy dA) eqn:HA, (truthy dC) eqn:HC; cbn [negb andb] in *.
  - destruct (Z.eqb_spec (absentLast dA dC) 0) as [H0|Hn]; [|exact HdAC].
    destruct (Hzero H0) as [Hab0 Hbc0].
    rewrite Hab0 in Hab. rewrite Hbc0 in Hbc. cbn [Z.eqb] in Hab, Hbc.
    destruct (truthy dB) eqn:HB; cbn [negb andb] in *.
    + now apply (absentLast_chain tA tB tC).
    + unfold absentLast in Hab0. rewrite HA, HB in Hab0. cbn in Hab0. lia.
  - unfold absentLast. rewrite HA, HC. cbn. lia.
  - pose proof (absentLast_absent dA dB HA HdAB) as HB.
    pose proof (absentLast_absent dB dC HB HdBC) as HC'. congruence.
  - lia.
Qed.

#[global] Instance sortsBefore_total (collection : bool)
    : Total (sortsBefore collection).
Proof. intros a b. apply compareSlots_total. Qed.

#[global] Instance sortsBefore_trans (collection : bool)
    : Transitive (sortsBefore collection).
Proof. intros a b c. apply compareSlots_trans. Qed.

Lemma sortBookings_sorted (collection : bool) (rows : list Booking.t) :
  StronglySorted (sortsBefore collection) (sortBookings collection rows).
Proof.
  apply Sorted_StronglySorted; [apply _|].
  induction rows as [|a rows IH]; [constructor|].
  cbn [sortBookings foldr]. apply Sorted_list_merge; [apply _| |exact IH].
  repeat constructor.
Qed.

Lemma sortBookings_permutation (collection : bool) (rows : list Booking.t) :
  sortBookings collection rows ≡ₚ rows.
Proof.
  induction rows as [|a rows IH]; [reflexivity|].
  cbn [sortBookings foldr]. rewrite merge_Permutation. cbn.
  fold (sortBookings collection rows). now rewrite IH.
Qed.

(** Rows that the comparator cannot tell apart keep the order in which
    the store returned them. *)
Example sortBookings_stable :
  map Booking.id
      (sortBookings false
         [ listed "t1" "sp1" TBC None None; bookingA;
           listed "t2" "sp1" TBC None None; listed "t3" "sp1" TBC None None ])
  = ["A"; "t1"; "t2"; "t3"].
Proof. reflexivity. Qed.

(** ** Pieces of the list assembly *)

Lemma map_fmap {A B} (f : A -> B) (l : list A) : map f l = f <$> l.
Proof. reflexivity. Qed.

Lemma newMap_acc_other {V} (l : list (string * V)) (m : gmap string V)
    (k : string) :
  k ∉ map fst l ->
  fold_left (fun m kv => <[fst kv := snd kv]> m) l m !! k = m !! k.
Proof.
  revert m. induction l as [|[k' v'] l IH]; intros m Hk; [reflexivity|].
  cbn in *. rewrite not_elem_of_cons in Hk. destruct Hk as [Hne Hk].
  rewrite (IH _ Hk). now apply lookup_insert_ne.
Qed.

Lemma newMap_lookup {V} (l : list (string * V)) (k : string) (v : V) :
  NoDup (map fst l) -> (k, v) ∈ l -> newMap l !! k = Some v.
Proof.
  unfold newMap. generalize (∅ : gmap string V).
  induction l as [|[k' v'] l IH]; intros m Hnd Hin.
  - now apply elem_of_nil in Hin.
  - cbn in *. apply NoDup_cons in Hnd as [Hk' Hnd].
    apply elem_of_cons in Hin as [[= -> ->]|Hin].
    + rewrite (newMap_acc_other _ _ _ Hk'). apply lookup_insert_eq.
    + now apply IH.
Qed.

Lemma selectIds_unique (ids : list string) (s : Store) :
  uniqueIds s -> NoDup (map Booking.id (selectIds ids s)).
Proof.
  unfold uniqueIds, selectIds. rewrite !map_fmap. intros Hnd.
  apply (sublist_NoDup _ (Booking.id <$> bookings s)); [exact Hnd|].
  rewrite map_fmap. apply fmap_sublist, sublist_filter.
Qed.

(** With the identifier a key of the table, the page fetch followed by
    the re-ordering through the map gives back the rows whose identifiers
    were asked for, in the order asked. *)
Lemma inPageOrder_page (page : list Booking.t) (s : Store) :
  uniqueIds s -> (forall b, b ∈ page -> b ∈ bookings s) ->
  inPageOrder (map Booking.id page) (selectIds (map Booking.id page) s) = page.
Proof.
  intros Hnd Hsub. unfold inPageOrder.
  set (ids := map Booking.id page).
  assert (Hget : forall b, b ∈ page ->
            newMap (map (fun b => (Booking.id b, b)) (selectIds ids s))
              !! Booking.id b = Some b).
  { intros b Hb. apply newMap_lookup.
    - rewrite map_map. cbn. now apply selectIds_unique.
    - rewrite map_fmap. apply list_elem_of_fmap. exists b. split; [reflexivity|].
      unfold selectIds. apply list_elem_of_filter. split; [|now apply Hsub].
      apply existsb_exists. exists (Booking.id b). split.
      + apply in_map, list_elem_of_In, Hb.
      + apply String.eqb_refl. }
  set (bookingsMap := newMap _) in *. clearbody bookingsMap.
  subst ids. clear Hsub.
  induction page as [|b page IH]; [reflexivity|].
  cbn. rewrite (Hget b (list_elem_of_here _ _)). cbn. f_equal.
  apply IH. intros b' Hb'. apply Hget. now apply list_elem_of_further.
Qed.

Lemma slice_map {A B} (f : A -> B) (l : list A) (a b : Z) :
  slice (map f l) a b = map f (slice l a b).
Proof.
  unfold slice. rewrite !map_fmap, length_fmap, fmap_take, fmap_drop.
  reflexivity.
Qed.

Lemma slice_sublist {A} (l : list A) (a b : Z) : slice l a b `sublist_of` l.
Proof.
  unfold slice. etransitivity; [apply sublist_take|apply sublist_drop].
Qed.

Lemma slice_sorted {A} (R : relation A) (l : list A) (a b : Z) :
  StronglySorted R l -> StronglySorted R (slice l a b).
Proof.
  intros Hs. unfold slice.
  set (k := Z.to_nat _). set (n := Z.to_nat _).
  rewrite <- (take_drop n l) in Hs.
  apply StronglySorted_app_1_r in Hs.
  rewrite <- (take_drop k (drop n l)) in Hs.
  now apply StronglySorted_app_1_l in Hs.
Qed.

(** For a positive page number and a positive page size the slice is the
    window of positions [(page-1)*limit, page*limit). *)
Lemma slice_window {A} (l : list A) (page limit : Z) :
  1 <= page -> 1 <= limit ->
  slice l ((page - 1) * limit) ((page - 1) * limit + limit)
  = take (Z.to_nat limit) (drop (Z.to_nat ((page - 1) * limit)) l).
Proof.
  intros Hp Hl. unfold slice.
  set (start := (page - 1) * limit).
  assert (0 <= start) by (unfold start; nia).
  destruct (Z.ltb_spec start 0); [lia|].
  destruct (Z.ltb_spec (start + limit) 0); [lia|].
  destruct (Z_le_gt_dec (Z.of_nat (length l)) start) as [Hout|Hin].
  - rewrite (Z.min_r start) by lia.
    rewrite !drop_ge by lia. now rewrite !take_nil.
  - rewrite (Z.min_l start) by lia.
    destruct (Z_le_gt_dec (start + limit) (Z.of_nat (length l))) as [Hfit|Hcut].
    + rewrite Z.min_l by lia. f_equal. lia.
    + rewrite Z.min_r by lia.
      rewrite (take_ge _ (Z.to_nat limit)) by (rewrite length_drop; lia).
      apply take_ge. rewrite length_drop. lia.
Qed.

Lemma withDetails_sequential (b : Booking.t) (w : World) :
  sequential w ->
  exists w',
    withDetails b w = (Val (detailsIn (db w) b), w')
    /\ db w' = db w /\ sequential w'.
Proof.
  intros Hseq. unfold withDetails.
  destruct (lookupLocation_sequential b w Hseq) as (w1 & Hloc & Hdb1 & Hseq1).
  destruct (lookupSalesPerson_sequential b w1 Hseq1)
    as (w2 & Hsp & Hdb2 & Hseq2).
  unfold bind. rewrite Hloc, Hsp, Hdb1. cbn.
  exists w2. split; [reflexivity|]. split; [congruence|exact Hseq2].
Qed.

Lemma forEach_withDetails (rows : list Booking.t) :
  forall w, sequential w ->
  exists w',
    forEach withDetails rows w = (Val (map (detailsIn (db w)) rows), w')
    /\ db w' = db w /\ sequential w'.
Proof.
  induction rows as [|b rows IH]; intros w Hseq.
  - exists w. cbn. split; [reflexivity|]. split; [reflexivity|exact Hseq].
  - destruct (withDetails_sequential b w Hseq) as (w1 & Hb & Hdb1 & Hseq1).
    destruct (IH w1 Hseq1) as (w2 & Hrest & Hdb2 & Hseq2).
    cbn [forEach]. unfold bind. rewrite Hb, Hrest, Hdb1. cbn.
    exists w2. split; [reflexivity|]. split; [congruence|exact Hseq2].
Qed.

(** ** The summary *)

Lemma statusCounts_acc (rows : list Booking.t) :
  forall (acc : gmap string Z) (name : string),
    countOf (fold_left countStatus rows acc) name
    = countOf acc name
      + Z.of_nat (length (filter (fun b => statusName (Booking.status b) = name)
                                 rows)).
Proof.
  induction rows as [|b rows IH]; intros acc name.
  - cbn. lia.
  - cbn [fold_left]. rewrite IH. unfold countStatus, countOf.
    rewrite filter_cons.
    destruct (decide (statusName (Booking.status b) = name)) as [->|Hne].
    + rewrite lookup_insert_eq. cbn [default length]. unfold id. lia.
    + rewrite lookup_insert_ne by exact Hne. lia.
Qed.

Lemma statusName_inj (a b : BookingStatus) :
  statusName a = statusName b -> a = b.
Proof. destruct a, b; cbn; intros H; (reflexivity || discriminate H). Qed.

Lemma statusCounts_count (rows : list Booking.t) (st : BookingStatus) :
  countOf (statusCounts rows) (statusName st) = countWithStatus st rows.
Proof.
  unfold statusCounts, countWithStatus. rewrite statusCounts_acc.
  unfold countOf. rewrite lookup_empty. cbn [default].
  rewrite Z.add_0_l. do 2 f_equal. apply list_filter_iff.
  intros b. split; [apply statusName_inj|now intros ->].
Qed.

(** ** [getBookings] without concurrent writes *)

Lemma getBookings_sequential (u : AuthUser) (q : ListQuery) (s : Store)
    (t : list Event) :
  truthy (au_role u) = true ->
  whereValid (listWhere u q) = true ->
  exists w',
    getBookings (Some u) q (mkWorld s t [])
    = (Val (successResponse (listBodyIn u q s)
              "Bookings retrieved successfully" 200), w')
    /\ db w' = s.
Proof.
  intros Hrole Hvalid.
  unfold getBookings, tryCatch, prisma.booking_count, prisma.booking_findMany,
    prisma.booking_findManyIn.
  rewrite Hrole, Hvalid. cbv beta iota zeta. cbn [negb].
  rewrite !bind_query. cbn [interleave pending db record trace].
  unfold bind.
  match goal with |- context [forEach withDetails ?rows ?w0] =>
    destruct (forEach_withDetails rows w0 eq_refl) as (w1 & Hrows & Hdb & _) end.
  rewrite Hrows. cbn [db record] in *.
  exists w1. split; [reflexivity|exact Hdb].
Qed.

Lemma getBookings_success (user : option AuthUser) (q : ListQuery) (s : Store)
    (t : list Event) (body : ListBody) (msg : string) (code : Z) (w' : World) :
  getBookings user q (mkWorld s t []) = (Val (successResponse body msg code), w') ->
  exists u, user = Some u /\ truthy (au_role u) = true
            /\ whereValid (listWhere u q) = true
            /\ body = listBodyIn u q s /\ code = 200.
Proof.
  destruct user as [u|]; [|discriminate].
  destruct (truthy (au_role u)) eqn:Hrole.
  2:{ unfold getBookings, tryCatch. rewrite Hrole. discriminate. }
  destruct (whereValid (listWhere u q)) eqn:Hvalid.
  - destruct (getBookings_sequential u q s t Hrole Hvalid) as (w1 & -> & _).
    intros [= <- <- <- <-]. exists u. split; [reflexivity|].
    split; [exact Hrole|]. split; [exact Hvalid|]. split; reflexivity.
  - unfold getBookings, tryCatch, prisma.booking_count, bind, query.
    rewrite Hrole, Hvalid. discriminate.
Qed.

Lemma sortedRows_in_store (u : AuthUser) (q : ListQuery) (s : Store)
    (b : Booking.t) :
  b ∈ sortedRows u q s -> b ∈ bookings s /\ matchesWhere (listWhere u q) b = true.
Proof.
  unfold sortedRows. rewrite sortBookings_permutation. unfold selectWhere.
  rewrite list_elem_of_filter. tauto.
Qed.

Lemma pageRows_in_sorted (u : AuthUser) (q : ListQuery) (s : Store)
    (b : Booking.t) :
  b ∈ pageRows u q s -> b ∈ sortedRows u q s.
Proof. intros Hb. eapply elem_of_sublist; [exact Hb|apply slice_sublist]. Qed.

(** The rows of the answer are the slice of the sorted filtered set. *)
Lemma listBodyIn_rows (u : AuthUser) (q : ListQuery) (s : Store) :
  uniqueIds s ->
  lb_bookings (listBodyIn u q s) = map (detailsIn s) (pageRows u q s).
Proof.
  intros Hnd. unfold listBodyIn. cbn [lb_bookings]. f_equal.
  fold (sortedRows u q s). rewrite slice_map. fold (pageRows u q s).
  apply inPageOrder_page; [exact Hnd|].
  intros b Hb. now apply pageRows_in_sorted, sortedRows_in_store in Hb.
Qed.

Lemma row_detailsIn (s : Store) (rows : list Booking.t) :
  map row (map (detailsIn s) rows) = rows.
Proof. rewrite map_map. cbn. apply map_id. Qed.

Lemma ceilDiv_bounds (a b : Z) :
  0 < b -> (ceilDiv a b - 1) * b < a <= ceilDiv a b * b.
Proof.
  intros Hb. unfold ceilDiv.
  pose proof (Z.div_mod (- a) b ltac:(lia)) as Hdm.
  pose proof (Z.mod_pos_bound (- a) b Hb) as Hm. nia.
Qed.

(** A page of a list asked for in pages of [limit] rows is a window
    of the sorted filtered set. *)
Lemma pageOf_window (u : AuthUser) (q : ListQuery) (s : Store) (limit p : Z) :
  uniqueIds s -> truthy (au_role u) = true ->
  whereValid (listWhere u q) = true -> 1 <= limit -> 1 <= p ->
  pageOf u q s limit p
  = take (Z.to_nat limit) (drop (Z.to_nat ((p - 1) * limit)) (sortedRows u q s)).
Proof.
  intros Hids Hrole Hvalid Hlimit Hp. unfold pageOf, listedRows.
  destruct (getBookings_sequential u (withPaging q (Some p) (Some limit)) s []
              Hrole Hvalid) as (w' & -> & _).
  cbn [fst]. rewrite (listBodyIn_rows _ _ _ Hids), row_detailsIn.
  unfold pageRows, skip, pageNumber, pageSize. cbn [q_page q_limit withPaging].
  unfold numOr.
  destruct (Z.eqb_spec p 0) as [?|_]; [lia|].
  destruct (Z.eqb_spec limit 0) as [?|_]; [lia|].
  now rewrite slice_window.
Qed.



(** A non-positive page size makes [slice] count from the end of the
    array: with [limit=-1] the first page holds every row but the last. *)
Example negative_limit_counts_from_the_end :
  map (fun r => Booking.id (row r))
      (lb_bookings (listBodyIn adminUser (plainQuery (Some 1) (Some (-1)))
                      sevenBooked))
  = ["r1"; "r2"; "r3"; "r4"; "r5"; "r6"]
  /\ pg_totalPages
       (lb_pagination (listBodyIn adminUser (plainQuery (Some 1) (Some (-1)))
                         sevenBooked)) = -7.
Proof. split; reflexivity. Qed.

(** ** The sort key *)

Lemma jsOr_nullish (a b : option string) :
  a <> Some "" -> jsOr a b = nullish a b.
Proof.
  intros Ha. unfold jsOr, nullish, truthy. destruct a as [x|]; [|reflexivity].
  destruct (String.eqb_spec x "") as [->|_]; [contradiction|reflexivity].
Qed.

(** Neither [createBooking] nor [updateBooking] stores an empty string in
    a nullable column: both write [value || null]. *)
Lemma orNull_not_empty (a : option string) : orNull a <> Some "".
Proof.
  unfold orNull, jsOr, truthy. destruct a as [x|]; [|discriminate].
  destruct (String.eqb_spec x "") as [->|Hne]; [discriminate|].
  intros [= ->]. contradiction.
Qed.

Lemma jsOrNull_not_empty (v : JsValue) :
  columnOfJs (jsOrNull v) <> Some (Some "").
Proof.
  unfold jsOrNull. destruct v as [| |x|k]; cbn; try discriminate.
  - destruct (String.eqb_spec x "") as [->|Hne]; cbn; [discriminate|].
    intros [= ->]. contradiction.
  - destruct k; discriminate.
Qed.

Lemma compareSlots_absent_date (dA tA dB tB : option string) :
  truthy dA = true -> truthy dB = false ->
  compareSlots dA tA dB tB = -1 /\ compareSlots dB tB dA tA = 1.
Proof. intros HA HB. unfold compareSlots. now rewrite HA, HB. Qed.

Lemma compareSlots_dates (dA dB : string) (tA tB : option string) :
  dA <> "" -> dB <> "" -> dA <> dB ->
  compareSlots (Some dA) tA (Some dB) tB = localeCompare dA dB.
Proof.
  intros HA HB Hne. unfold compareSlots. cbn.
  apply String.eqb_neq in HA, HB, Hne. now rewrite HA, HB, Hne.
Qed.

Lemma compareSlots_times (d : string) (tA tB : option string) :
  d <> "" ->
  compareSlots (Some d) tA (Some d) tB = absentLast tA tB.
Proof.
  intros Hd. unfold compareSlots, absentLast. cbn.
  apply String.eqb_neq in Hd. now rewrite Hd, String.eqb_refl.
Qed.

(** A string of one of the two formats is not empty. *)
Lemma absentOr_truthy (format : string -> bool) (value : option string) :
  format "" = false -> absentOr format value = true ->
  truthy value = isSome value /\ value <> Some "".
Proof.
  intros Hempty. destruct value as [v|]; cbn; [|now split].
  intros Hv. destruct (String.eqb_spec v "") as [->|Hne]; [congruence|].
  split; [reflexivity|congruence].
Qed.

(** On a row whose sort columns have the formats, the key the comparator
    reads is the key of the specification, and has the formats. *)
Lemma slotInFormat_keys (c : bool) (b : Booking.t) :
  slotInFormat c b = true ->
  effectiveDate c b = specDate c b /\ effectiveTime c b = specTime c b
  /\ absentOr isDateFormat (specDate c b) = true
  /\ absentOr isTimeFormat (specTime c b) = true.
Proof.
  unfold slotInFormat, effectiveDate, effectiveTime, specDate, specTime.
  destruct c; rewrite !andb_true_iff.
  - intros [Hd Ht]. repeat split; assumption.
  - intros [[[Hsd Hd] Hst] Ht].
    destruct (absentOr_truthy isDateFormat _ eq_refl Hsd) as [_ Hnd].
    destruct (absentOr_truthy isTimeFormat _ eq_refl Hst) as [_ Hnt].
    rewrite (jsOr_nullish _ _ Hnd), (jsOr_nullish _ _ Hnt).
    repeat split; unfold nullish;
      [destruct (Booking.specialRequestDate b)
      |destruct (Booking.specialRequestTime b)]; assumption.
Qed.

Lemma lexicographic_zero (a b : string) : lexicographic a b = 0 <-> a = b.
Proof.
  unfold lexicographic. split.
  - destruct (String.compare a b) eqn:Hc; try discriminate.
    intros _. now apply String.compare_eq_iff.
  - intros ->. pose proof (proj2 (String_as_OT.cmp_eq b b) eq_refl) as H.
    unfold String_as_OT.cmp in H. now rewrite H.
Qed.

(** On dates and times of the formats the comparator of the controller
    is the order of the specification. *)
Lemma compareBookings_in_format (c : bool) (a b : Booking.t) :
  slotInFormat c a = true -> slotInFormat c b = true ->
  compareBookings c a b = specCompare c a b.
Proof.
  intros Ha Hb.
  destruct (slotInFormat_keys c a Ha) as (HdA & HtA & HfdA & HftA).
  destruct (slotInFormat_keys c b Hb) as (HdB & HtB & HfdB & HftB).
  unfold compareBookings, specCompare. rewrite HdA, HtA, HdB, HtB.
  destruct (absentOr_truthy isDateFormat _ eq_refl HfdA) as [TdA _].
  destruct (absentOr_truthy isDateFormat _ eq_refl HfdB) as [TdB _].
  destruct (absentOr_truthy isTimeFormat _ eq_refl HftA) as [TtA _].
  destruct (absentOr_truthy isTimeFormat _ eq_refl HftB) as [TtB _].
  unfold compareSlots. rewrite TdA, TdB, TtA, TtB.
  destruct (specDate c a) as [dA|], (specDate c b) as [dB|];
    cbn [isSome negb andb nullLast default from_option id Z.eqb];
    try reflexivity.
  cbn [absentOr] in HfdA, HfdB.
  destruct (String.eqb_spec dA dB) as [->|Hne]; cbn [negb].
  - rewrite (proj2 (lexicographic_zero dB dB) eq_refl). cbn [Z.eqb].
    destruct (specTime c a) as [tA|], (specTime c b) as [tB|];
      cbn [isSome negb andb nullLast default from_option id];
      try reflexivity.
    cbn [absentOr] in HftA, HftB.
    exact (localeCompare_pattern timePattern tA tB HftA HftB).
  - rewrite (localeCompare_pattern datePattern dA dB HfdA HfdB).
    destruct (Z.eqb_spec (lexicographic dA dB) 0) as [H0|_]; [|reflexivity].
    now apply lexicographic_zero in H0.
Qed.

Lemma StronglySorted_within {A} (R S : A -> A -> Prop) (l : list A) :
  (forall a b, a ∈ l -> b ∈ l -> R a b -> S a b) ->
  StronglySorted R l -> StronglySorted S l.
Proof.
  intros HRS Hs. induction Hs as [|x l Hs IH Hall]; constructor.
  - apply IH. intros a b Ha Hb. apply HRS; now right.
  - rewrite Forall_forall in Hall. apply Forall_forall. intros y Hy.
    apply HRS; [now left|now right|now apply Hall].
Qed.

(** C3.  Where the sort columns of the filtered rows hold dates
    [YYYY-MM-DD] and times [HH:MM] or nothing, the rows [getBookings]
    returns, read without concurrent writes from a table keyed by the
    identifier, are in ascending order of the comparator, which is there
    the order of the specification.  The comparator takes the collection
    date and time when the [hasCollectionDate] filter is on, and otherwise
    the special request date or else the session date, and the special
    request time or else the session time; a row without a date stands
    after every row with one; two different dates of the format compare
    lexicographically; under the same date a row without a time stands
    after a row with one, and two times of the format compare
    lexicographically.  Bookings A (2024-01-02, 09:00), B (2024-01-02,
    08:00) and C (no date) are listed as B, A, C. *)
Theorem list_sorted_by_effective_slot (u : AuthUser) (q : ListQuery)
    (s : Store) (t : list Event) (body : ListBody) (msg : string) (code : Z)
    (w' : World) :
  uniqueIds s ->
  slotsInFormat u q s = true ->
  getBookings (Some u) q (mkWorld s t [])
  = (Val (successResponse body msg code), w') ->
  StronglySorted (sortsBefore (byCollection q)) (map row (lb_bookings body))
  /\ StronglySorted (specBefore (byCollection q)) (map row (lb_bookings body))
  /\ (forall (i j : nat) a b, (i < j)%nat ->
        map row (lb_bookings body) !! i = Some a ->
        map row (lb_bookings body) !! j = Some b ->
        compareBookings (byCollection q) a b <= 0
        /\ specCompare (byCollection q) a b <= 0
        /\ (truthy (effectiveDate (byCollection q) b) = true ->
            truthy (effectiveDate (byCollection q) a) = true))
  /\ (forall b,
        effectiveDate true b = Booking.collectionDate b
        /\ effectiveTime true b = Booking.collectionTime b
        /\ effectiveDate false b
           = jsOr (Booking.specialRequestDate b) (Booking.sessionDate b)
        /\ effectiveTime false b
           = jsOr (Booking.specialRequestTime b) (Booking.sessionTime b)
        /\ (Booking.specialRequestDate b <> Some "" ->
            effectiveDate false b
            = nullish (Booking.specialRequestDate b) (Booking.sessionDate b))
        /\ (Booking.specialRequestTime b <> Some "" ->
            effectiveTime false b
            = nullish (Booking.specialRequestTime b) (Booking.sessionTime b)))
  /\ (forall c a b,
        slotInFormat c a = true -> slotInFormat c b = true ->
        compareBookings c a b = specCompare c a b)
  /\ (forall c a b,
        truthy (effectiveDate c a) = true ->
        truthy (effectiveDate c b) = false ->
        compareBookings c a b = -1 /\ compareBookings c b a = 1)
  /\ (forall c a b dA dB,
        effectiveDate c a = Some dA -> effectiveDate c b = Some dB ->
        isDateFormat dA = true -> isDateFormat dB = true -> dA <> dB ->
        compareBookings c a b = lexicographic dA dB)
  /\ (forall c a b d,
        effectiveDate c a = Some d -> effectiveDate c b = Some d -> d <> "" ->
        (truthy (effectiveTime c a) = true ->
         truthy (effectiveTime c b) = false ->
         compareBookings c a b = -1 /\ compareBookings c b a = 1)
        /\ (forall tA tB,
              effectiveTime c a = Some tA -> effectiveTime c b = Some tB ->
              isTimeFormat tA = true -> isTimeFormat tB = true ->
              compareBookings c a b = lexicographic tA tB))
  /\ (exists listing,
        fst (getBookings (Some adminUser) (plainQuery None None)
               (quiet (storeOf [bookingA; bookingB; bookingC])))
        = Val (successResponse listing "Bookings retrieved successfully" 200)
        /\ map row (lb_bookings listing) = [bookingB; bookingA; bookingC]).
Proof.
  intros Hnd Hformat Hrun.
  apply getBookings_success in Hrun as (u0 & [= <-] & _ & _ & -> & _).
  assert (Hrows : map row (lb_bookings (listBodyIn u q s)) = pageRows u q s).
  { rewrite (listBodyIn_rows _ _ _ Hnd). apply row_detailsIn. }
  assert (Hsorted : StronglySorted (sortsBefore (byCollection q))
                      (map row (lb_bookings (listBodyIn u q s)))).
  { rewrite Hrows. apply slice_sorted, sortBookings_sorted. }
  assert (Hin : forall b, b ∈ map row (lb_bookings (listBodyIn u q s)) ->
                          slotInFormat (byCollection q) b = true).
  { intros b Hb. rewrite Hrows in Hb. apply pageRows_in_sorted in Hb.
    unfold sortedRows in Hb. rewrite sortBookings_permutation in Hb.
    unfold slotsInFormat in Hformat. rewrite forallb_forall in Hformat.
    apply Hformat. now apply list_elem_of_In. }
  assert (Hspec : StronglySorted (specBefore (byCollection q))
                    (map row (lb_bookings (listBodyIn u q s)))).
  { apply (StronglySorted_within (sortsBefore (byCollection q)));
      [|exact Hsorted].
    intros a b Ha Hb. unfold sortsBefore, specBefore.
    now rewrite (compareBookings_in_format _ a b (Hin a Ha) (Hin b Hb)). }
  split; [exact Hsorted|]. split; [exact Hspec|]. split.
  { intros i j a b Hij Ha Hb.
    assert (Hab : sortsBefore (byCollection q) a b).
    { generalize dependent (map row (lb_bookings (listBodyIn u q s))).
      intros l _ Hsorted _ _. revert i j Hij.
      induction Hsorted as [|x l Hs IH Hall]; intros i j Hij Ha Hb.
      - now rewrite lookup_nil in Ha.
      - destruct j as [|j]; [lia|]. destruct i as [|i].
        + cbn in Ha, Hb. injection Ha as <-. rewrite Forall_forall in Hall.
          apply Hall. eapply list_elem_of_lookup_2. exact Hb.
        + cbn in Ha, Hb. apply (IH i j); [lia|assumption|assumption]. }
    split; [exact Hab|]. split.
    { rewrite <- (compareBookings_in_format _ a b); [exact Hab| |];
        apply Hin; eapply list_elem_of_lookup_2; eassumption. }
    intros Hdb.
    destruct (truthy (effectiveDate (byCollection q) a)) eqn:Hda;
      [reflexivity|].
    unfold sortsBefore, compareBookings in Hab.
    destruct (compareSlots_absent_date
                (effectiveDate (byCollection q) b)
                (effectiveTime (byCollection q) b)
                (effectiveDate (byCollection q) a)
                (effectiveTime (byCollection q) a) Hdb Hda) as [_ Hone].
    lia. }
  split.
  { intros b. cbn [effectiveDate effectiveTime].
    repeat split; try reflexivity; apply jsOr_nullish. }
  split; [exact compareBookings_in_format|].
  split.
  { intros c a b. apply compareSlots_absent_date. }
  split.
  { intros c a b dA dB HA HB HfA HfB Hne. unfold compareBookings.
    rewrite HA, HB.
    rewrite <- (localeCompare_pattern datePattern dA dB HfA HfB).
    apply compareSlots_dates; [| |exact Hne]; intros ->; discriminate. }
  split.
  { intros c a b d HA HB Hd. unfold compareBookings. rewrite HA, HB.
    rewrite !compareSlots_times by exact Hd. split.
    - intros Ht Hf. unfold absentLast. now rewrite Ht, Hf.
    - intros tA tB -> -> HtA HtB.
      rewrite <- (localeCompare_pattern timePattern tA tB HtA HtB).
      unfold absentLast. cbn.
      destruct (String.eqb_spec tA "") as [->|_]; [discriminate HtA|].
      destruct (String.eqb_spec tB "") as [->|_]; [discriminate HtB|].
      reflexivity. }
  eexists. split; reflexivity.
Qed.

Lemma list_sorted_by_effective_slot_witness :
  exists body,
    fst (getBookings (Some adminUser) (plainQuery None None)
           (mkWorld (storeOf [bookingA; bookingB; bookingC]) [] []))
    = Val (successResponse body "Bookings retrieved successfully" 200)
    /\ map row (lb_bookings body) = [bookingB; bookingA; bookingC]
    /\ StronglySorted (specBefore false) (map row (lb_bookings body)).
Proof.
  exists (listBodyIn adminUser (plainQuery None None)
            (storeOf [bookingA; bookingB; bookingC])).
  split; [reflexivity|]. split; [reflexivity|].
  apply (list_sorted_by_effective_slot adminUser (plainQuery None None)
           (storeOf [bookingA; bookingB; bookingC]) []
           (listBodyIn adminUser (plainQuery None None)
              (storeOf [bookingA; bookingB; bookingC]))
           "Bookings retrieved successfully" 200
           (snd (getBookings (Some adminUser) (plainQuery None None)
                   (mkWorld (storeOf [bookingA; bookingB; bookingC]) [] [])))).
  - vm_compute. repeat constructor; rewrite ?elem_of_cons, ?elem_of_nil;
      intuition discriminate.
  - reflexivity.
  - reflexivity.
Defined.

(** C3 as stated fails outside the formats.  The route of the update has
    no rule for the collection columns, so [updateBooking] stores the
    collection time ["1:00"] as it comes.  Listed by collection slot, the
    booking to be collected at ["1:00"] stands before the one at
    ["10:00"] of the same day: [localeCompare] puts the colon before the
    digits.  Lexicographically ["10:00"] is the smaller string, so the
    rows are not in the order of the specification. *)
Lemma collection_times_not_lexicographic :
  (exists view,
      fst (updateBooking "k2" (collectAt adminUser "2024-03-01" "1:00")
             (quiet (db (snd (updateBooking "k1"
                                (collectAt adminUser "2024-03-01" "10:00")
                                (quiet toCollect))))))
      = Val (successResponse view "Booking updated successfully" 200))
  /\ map (fun b => (Booking.id b, Booking.collectionDate b,
                    Booking.collectionTime b)) (bookings collected)
     = [("k1", Some "2024-03-01", Some "10:00");
        ("k2", Some "2024-03-01", Some "1:00")]
  /\ (exists listing,
        fst (getBookings (Some adminUser) collectionQuery (quiet collected))
        = Val (successResponse listing "Bookings retrieved successfully" 200)
        /\ map (fun r => Booking.id (row r)) (lb_bookings listing)
           = ["k2"; "k1"]
        /\ ~ StronglySorted (specBefore true) (map row (lb_bookings listing)))
  /\ lexicographic "10:00" "1:00" = -1
  /\ localeCompare "10:00" "1:00" = 1.
Proof.
  split; [eexists; vm_compute; reflexivity|].
  split; [reflexivity|].
  split; [|split; reflexivity].
  eexists. split; [vm_compute; reflexivity|]. split; [reflexivity|].
  intros Hs. inversion Hs as [|x l _ Hall]; subst.
  inversion Hall as [|y l' Hxy _]; subst.
  vm_compute in Hxy. now apply Hxy.
Qed.

(** ** The summary and the visible rows *)

(** C6.  The summary of the answer of [getBookings] counts the rows of
    the whole filtered set: one count per status and the total.  It does
    not depend on the page or on the page size of the request: the same
    query for any other page carries the same summary.  With seven BOOKED
    rows in the filtered set [summary.booked] is 7 whatever the page
    size. *)
Theorem summary_counts_filtered_set (u : AuthUser) (q : ListQuery)
    (s : Store) (t : list Event) (body : ListBody) (msg : string) (code : Z)
    (w' : World) :
  getBookings (Some u) q (mkWorld s t [])
  = (Val (successResponse body msg code), w') ->
  sm_total (lb_summary body)
  = Z.of_nat (length (selectWhere (listWhere u q) s))
  /\ sm_confirmed (lb_summary body)
     = countWithStatus CONFIRMED (selectWhere (listWhere u q) s)
  /\ sm_booked (lb_summary body)
     = countWithStatus BOOKED (selectWhere (listWhere u q) s)
  /\ sm_tbc (lb_summary body)
     = countWithStatus TBC (selectWhere (listWhere u q) s)
  /\ sm_cancelled (lb_summary body)
     = countWithStatus CANCELLED (selectWhere (listWhere u q) s)
  /\ sm_noAnswer (lb_summary body)
     = countWithStatus NO_ANSWER (selectWhere (listWhere u q) s)
  /\ sm_wlmk (lb_summary body)
     = countWithStatus WLMK (selectWhere (listWhere u q) s)
  /\ sm_videoCall (lb_summary body)
     = countWithStatus VIDEO_CALL (selectWhere (listWhere u q) s)
  /\ (forall page limit t2,
        exists body2 w2,
          getBookings (Some u) (withPaging q page limit) (mkWorld s t2 [])
          = (Val (successResponse body2 msg code), w2)
          /\ lb_summary body2 = lb_summary body)
  /\ (countWithStatus BOOKED (selectWhere (listWhere u q) s) = 7 ->
      forall limit t2,
        exists body2 w2,
          getBookings (Some u) (withPaging q (q_page q) limit) (mkWorld s t2 [])
          = (Val (successResponse body2 msg code), w2)
          /\ sm_booked (lb_summary body2) = 7).
Proof.
  intros Hrun.
  pose proof Hrun as Hrun'.
  apply getBookings_success in Hrun as (u0 & [= <-] & Hrole & Hvalid & -> & ->).
  assert (Hmsg : msg = "Bookings retrieved successfully").
  { destruct (getBookings_sequential u q s t Hrole Hvalid) as (w1 & Heq & _).
    rewrite Heq in Hrun'. now injection Hrun'. }
  subst msg.
  cbn [listBodyIn lb_summary summaryOf sm_total sm_confirmed sm_booked sm_tbc
       sm_cancelled sm_noAnswer sm_wlmk sm_videoCall].
  split; [reflexivity|].
  split; [apply (statusCounts_count _ CONFIRMED)|].
  split; [apply (statusCounts_count _ BOOKED)|].
  split; [apply (statusCounts_count _ TBC)|].
  split; [apply (statusCounts_count _ CANCELLED)|].
  split; [apply (statusCounts_count _ NO_ANSWER)|].
  split; [apply (statusCounts_count _ WLMK)|].
  split; [apply (statusCounts_count _ VIDEO_CALL)|].
  assert (Hother : forall page limit t2,
            exists body2 w2,
              getBookings (Some u) (withPaging q page limit) (mkWorld s t2 [])
              = (Val (successResponse body2
                        "Bookings retrieved successfully" 200), w2)
              /\ lb_summary body2 = lb_summary (listBodyIn u q s)).
  { intros page limit t2.
    destruct (getBookings_sequential u (withPaging q page limit) s t2 Hrole)
      as (w2 & Heq & _); [exact Hvalid|].
    eexists _, w2. split; [exact Heq|reflexivity]. }
  split; [exact Hother|].
  intros Hseven limit t2.
  destruct (Hother (q_page q) limit t2) as (body2 & w2 & Heq & Hsum).
  exists body2, w2. split; [exact Heq|]. rewrite Hsum.
  cbn [listBodyIn lb_summary summaryOf sm_booked].
  rewrite <- Hseven. apply (statusCounts_count _ BOOKED).
Qed.

Lemma summary_counts_filtered_set_witness :
  exists body,
    fst (getBookings (Some adminUser) (plainQuery (Some 3) (Some 2))
           (mkWorld sevenBooked [] []))
    = Val (successResponse body "Bookings retrieved successfully" 200)
    /\ length (lb_bookings body) = 2%nat
    /\ sm_booked (lb_summary body) = 7.
Proof.
  exists (listBodyIn adminUser (plainQuery (Some 3) (Some 2)) sevenBooked).
  split; [reflexivity|]. split; [reflexivity|].
  destruct (summary_counts_filtered_set adminUser
              (plainQuery (Some 3) (Some 2)) sevenBooked []
              (listBodyIn adminUser (plainQuery (Some 3) (Some 2)) sevenBooked)
              "Bookings retrieved successfully" 200
              (snd (getBookings (Some adminUser) (plainQuery (Some 3) (Some 2))
                      (mkWorld sevenBooked [] []))))
    as (_ & _ & Hbooked & _).
  - reflexivity.
  - rewrite Hbooked. reflexivity.
Defined.

Lemma selectWhere_owned (wh : BookingWhere) (userId : string) (s : Store) :
  w_salesPersonId wh = Some userId ->
  selectWhere wh s
  = filter (fun b => matchesWhere wh b = true) (ownedBy userId s).
Proof.
  intros Hsp. unfold selectWhere, ownedBy. rewrite list_filter_filter.
  apply list_filter_iff. intros b. split; [|tauto].
  intros Hm. split; [exact Hm|].
  unfold matchesWhere in Hm. rewrite Hsp in Hm.
  repeat (apply andb_true_iff in Hm as [Hm _]).
  now apply String.eqb_eq in Hm.
Qed.

Lemma detailsIn_same_references (s1 s2 : Store) (b : Booking.t) :
  locations s1 = locations s2 -> users s1 = users s2 ->
  detailsIn s1 b = detailsIn s2 b.
Proof.
  intros Hl Hu. unfold detailsIn, findLocation, findUser. now rewrite Hl, Hu.
Qed.

Lemma salesPerson_where (u : AuthUser) (q : ListQuery) :
  au_role u = Some "SALES_PERSON" ->
  shouldIncludeAllSalesPersons q = false ->
  w_salesPersonId (listWhere u q) = Some (au_id u).
Proof.
  intros Hrole Hall. unfold listWhere, hasRole. cbn [w_salesPersonId].
  now rewrite Hrole, Hall.
Qed.

(** C7.  A caller with role SALES_PERSON whose request does not combine
    [includeAllSalesPersons=true] with a location filter receives, from a
    table keyed by the identifier and read without concurrent writes,
    only bookings whose sales person is the caller, whatever the other
    filters; and the answer is the same on every store that holds the same
    bookings of the caller (and the same locations and users), whatever
    bookings of other sales persons it holds. *)
Theorem sales_person_sees_own_bookings (u : AuthUser) (q : ListQuery)
    (s : Store) (t : list Event) (body : ListBody) (msg : string) (code : Z)
    (w' : World) :
  au_role u = Some "SALES_PERSON" ->
  shouldIncludeAllSalesPersons q = false ->
  uniqueIds s ->
  getBookings (Some u) q (mkWorld s t [])
  = (Val (successResponse body msg code), w') ->
  Forall (fun r => Booking.salesPersonId (row r) = au_id u) (lb_bookings body)
  /\ forall s2 t2,
       uniqueIds s2 ->
       ownedBy (au_id u) s2 = ownedBy (au_id u) s ->
       locations s2 = locations s -> users s2 = users s ->
       fst (getBookings (Some u) q (mkWorld s2 t2 []))
       = Val (successResponse body msg code).
Proof.
  intros Hsales Hall Hnd Hrun.
  pose proof Hrun as Hrun'.
  apply getBookings_success in Hrun as (u0 & [= <-] & Hrole & Hvalid & -> & ->).
  assert (Hmsg : msg = "Bookings retrieved successfully").
  { destruct (getBookings_sequential u q s t Hrole Hvalid) as (w1 & Heq & _).
    rewrite Heq in Hrun'. now injection Hrun'. }
  subst msg.
  pose proof (salesPerson_where u q Hsales Hall) as Hwhere.
  split.
  - rewrite (listBodyIn_rows _ _ _ Hnd). rewrite Forall_forall.
    intros r Hr. apply list_elem_of_In, in_map_iff in Hr as (b & <- & Hb).
    apply list_elem_of_In, pageRows_in_sorted, sortedRows_in_store in Hb
      as [_ Hm].
    cbn [detailsIn row]. unfold matchesWhere in Hm. rewrite Hwhere in Hm.
    repeat (apply andb_true_iff in Hm as [Hm _]).
    now apply String.eqb_eq in Hm.
  - intros s2 t2 Hnd2 Hown Hlocs Husers.
    destruct (getBookings_sequential u q s2 t2 Hrole Hvalid) as (w2 & -> & _).
    cbn [fst]. do 2 f_equal.
    assert (Hsel : selectWhere (listWhere u q) s2
                   = selectWhere (listWhere u q) s).
    { rewrite !(selectWhere_owned _ _ _ Hwhere). now rewrite Hown. }
    assert (Hpage : pageRows u q s2 = pageRows u q s).
    { unfold pageRows, sortedRows. now rewrite Hsel. }
    pose proof (listBodyIn_rows u q s2 Hnd2) as Hrows2.
    pose proof (listBodyIn_rows u q s Hnd) as Hrows.
    unfold listBodyIn in *. cbn [lb_bookings] in Hrows, Hrows2.
    rewrite Hrows, Hrows2, Hsel, Hpage. f_equal.
    apply map_ext. intros b. now apply detailsIn_same_references.
Qed.

(** On [sevenBooked] the caller [sp1] is not shown the booking of [sp2]. *)
Lemma sales_person_sees_own_bookings_witness :
  exists body,
    fst (getBookings (Some salesAnn) (plainQuery None None)
           (mkWorld sevenBooked [] []))
    = Val (successResponse body "Bookings retrieved successfully" 200)
    /\ map (fun r => Booking.id (row r)) (lb_bookings body)
       = ["r1"; "r2"; "r3"; "r5"; "r6"; "r7"]
    /\ Forall (fun r => Booking.salesPersonId (row r) = "sp1")
              (lb_bookings body).
Proof.
  exists (listBodyIn salesAnn (plainQuery None None) sevenBooked).
  split; [reflexivity|]. split; [reflexivity|].
  apply (sales_person_sees_own_bookings salesAnn (plainQuery None None)
           sevenBooked []
           (listBodyIn salesAnn (plainQuery None None) sevenBooked)
           "Bookings retrieved successfully" 200
           (snd (getBookings (Some salesAnn) (plainQuery None None)
                   (mkWorld sevenBooked [] [])))).
  - reflexivity.
  - reflexivity.
  - vm_compute. repeat constructor; rewrite ?elem_of_cons, ?elem_of_nil;
      intuition discriminate.
  - reflexivity.
Defined.

(** ** The constraints of the table are kept *)

Lemma numbersAt_cons (loc : string) (b : Booking.t) (rows : list Booking.t) :
  numbersAt loc (b :: rows) = contribution loc b ++ numbersAt loc rows.
Proof.
  unfold numbersAt, contribution. cbn.
  now destruct (if optStringEqb _ _ then _ else _).
Qed.

Lemma numbersAt_app (loc : string) (l1 l2 : list Booking.t) :
  numbersAt loc (l1 ++ l2) = numbersAt loc l1 ++ numbersAt loc l2.
Proof. apply omap_app. Qed.

Lemma split_by_id (rows : list Booking.t) (b : Booking.t) :
  NoDup (map Booking.id rows) -> b ∈ rows ->
  exists l1 l2, rows = l1 ++ b :: l2
                /\ forall r, r ∈ l1 ++ l2 -> Booking.id r <> Booking.id b.
Proof.
  intros Hnd Hb. apply list_elem_of_split in Hb as (l1 & l2 & ->).
  exists l1, l2. split; [reflexivity|].
  rewrite map_fmap, fmap_app, fmap_cons in Hnd.
  apply NoDup_app in Hnd as (_ & Hleft & Hright).
  apply NoDup_cons in Hright as [Hright _].
  intros r Hr Heq. apply elem_of_app in Hr as [Hr|Hr].
  - apply (Hleft (Booking.id r)).
    + now apply list_elem_of_fmap_2.
    + rewrite Heq. apply list_elem_of_here.
  - apply Hright. rewrite <- Heq. now apply list_elem_of_fmap_2.
Qed.

Lemma replaceRow_other (b' : Booking.t) (rows : list Booking.t) :
  (forall r, r ∈ rows -> Booking.id r <> Booking.id b') ->
  replaceRow b' rows = rows.
Proof.
  intros Hother. unfold replaceRow. induction rows as [|r rows IH];
    [reflexivity|].
  cbn. rewrite IH by (intros x Hx; apply Hother; now apply list_elem_of_further).
  destruct (String.eqb_spec (Booking.id r) (Booking.id b')) as [Heq|_];
    [|reflexivity].
  exfalso. apply (Hother r); [apply list_elem_of_here|exact Heq].
Qed.

Lemma replaceRow_split (b b' : Booking.t) (l1 l2 : list Booking.t) :
  Booking.id b' = Booking.id b ->
  (forall r, r ∈ l1 ++ l2 -> Booking.id r <> Booking.id b) ->
  replaceRow b' (l1 ++ b :: l2) = l1 ++ b' :: l2.
Proof.
  intros Hid Hother. unfold replaceRow. rewrite map_app. cbn.
  rewrite <- Hid, String.eqb_refl. f_equal; [|f_equal].
  - apply replaceRow_other. intros r Hr. rewrite Hid.
    apply Hother, elem_of_app. now left.
  - apply replaceRow_other. intros r Hr. rewrite Hid.
    apply Hother, elem_of_app. now right.
Qed.

(** A successful update replaces one row, and the new row does not take
    a number that another row of its location holds. *)
Lemma updateRow_shape (id : string) (d : BookingUpdateInput) (s s' : Store)
    (b' : Booking.t) :
  uniqueIds s -> updateRow id d s = inr (b', s') ->
  exists b l1 l2,
    bookings s = l1 ++ b :: l2 /\ bookings s' = l1 ++ b' :: l2
    /\ locations s' = locations s /\ users s' = users s
    /\ applyUpdate d b = Some b' /\ Booking.id b' = Booking.id b
    /\ (forall r, r ∈ l1 ++ l2 -> Booking.id r <> Booking.id b)
    /\ breaksUnique b' (bookings s) = false.
Proof.
  intros Hnd. unfold updateRow.
  destruct (findBooking id s) as [b|] eqn:Hf; [|discriminate].
  destruct (applyUpdate d b) as [b1|] eqn:Happ; [|discriminate].
  destruct (breaksUnique b1 (bookings s)) eqn:Hbreak; [discriminate|].
  intros [= <- <-].
  apply findBooking_id in Hf as [_ Hb].
  destruct (split_by_id _ _ Hnd Hb) as (l1 & l2 & Hrows & Hother).
  pose proof (applyUpdate_id _ _ _ Happ) as Hid.
  exists b, l1, l2. cbn [bookings locations users withBookings].
  split; [exact Hrows|]. split; [rewrite Hrows; now apply replaceRow_split|].
  repeat (split; [reflexivity || assumption|]). assumption.
Qed.

Lemma free_number (loc : string) (n : Z) (notId : string)
    (rows : list Booking.t) :
  (forall r, r ∈ rows -> Booking.id r <> notId) ->
  (forall r, r ∈ rows -> holdsNumber loc n notId r = false) ->
  n ∉ numbersAt loc rows.
Proof.
  intros Hother Hfree Hin. unfold numbersAt in Hin.
  apply list_elem_of_omap in Hin as (r & Hr & Hn).
  specialize (Hfree r Hr). specialize (Hother r Hr).
  unfold holdsNumber in Hfree.
  destruct (optStringEqb (Booking.locationId r) loc); [|discriminate].
  rewrite Hn, Z.eqb_refl in Hfree. cbn in Hfree.
  apply negb_false_iff, String.eqb_eq in Hfree. contradiction.
Qed.

Lemma updateRow_wellFormed (id : string) (d : BookingUpdateInput)
    (s s' : Store) (b' : Booking.t) :
  wellFormed s -> updateRow id d s = inr (b', s') ->
  (forall n, Booking.studioNumber b' = Some n -> 1 <= n) ->
  wellFormed s'.
Proof.
  intros (Hids & Huniq & Hpos) Hupd Hnum.
  destruct (updateRow_shape _ _ _ _ _ Hids Hupd)
    as (b & l1 & l2 & Hrows & Hrows' & _ & _ & _ & Hid & Hother & Hbreak).
  unfold wellFormed, uniqueIds, numbersUnique, numbersPositive in *.
  rewrite Hrows' in *. rewrite Hrows in *.
  split; [|split].
  - rewrite map_app in *. cbn in *. now rewrite Hid.
  - intros loc. specialize (Huniq loc).
    rewrite numbersAt_app, numbersAt_cons in *.
    apply NoDup_app in Huniq as (Hl1 & Hcross & Hrest).
    apply NoDup_app in Hrest as (_ & _ & Hl2).
    assert (Hsep : forall x, x ∈ numbersAt loc l1 -> x ∉ numbersAt loc l2).
    { intros x Hx Hx'. apply (Hcross x Hx), elem_of_app. now right. }
    unfold contribution at 1.
    destruct (optStringEqb (Booking.locationId b') loc) eqn:Hloc;
      [|cbn; apply NoDup_app; auto].
    destruct (Booking.studioNumber b') as [n|] eqn:Hn;
      [|cbn; apply NoDup_app; auto].
    assert (Hfree : n ∉ numbersAt loc (l1 ++ l2)).
    { unfold breaksUnique in Hbreak. rewrite Hn in Hbreak.
      destruct (Booking.locationId b') as [loc'|]; [|discriminate].
      cbn in Hloc. apply String.eqb_eq in Hloc as ->.
      apply (free_number _ _ (Booking.id b')).
      - intros r Hr. rewrite Hid. now apply Hother.
      - intros r Hr. destruct (holdsNumber loc n (Booking.id b') r) eqn:Hh;
          [|reflexivity].
        assert (Hex : existsb (holdsNumber loc n (Booking.id b'))
                        (l1 ++ b :: l2) = true).
        { apply existsb_exists. exists r. split; [|exact Hh].
          apply list_elem_of_In. apply elem_of_app in Hr as [Hr|Hr];
            apply elem_of_app; [now left|right].
          now apply list_elem_of_further. }
        congruence. }
    rewrite numbersAt_app, elem_of_app in Hfree.
    apply NoDup_app. split; [exact Hl1|]. split.
    + intros x Hx. cbn. rewrite elem_of_cons. intros [->|Hx'].
      * apply Hfree. now left.
      * now apply (Hsep x).
    + cbn. apply NoDup_cons. split; [|exact Hl2].
      intros Hx. apply Hfree. now right.
  - intros r n Hr Hn. apply elem_of_app in Hr as [Hr|Hr].
    + apply (Hpos r n); [|exact Hn]. apply elem_of_app. now left.
    + apply elem_of_cons in Hr as [->|Hr]; [now apply Hnum|].
      apply (Hpos r n); [|exact Hn]. apply elem_of_app. right.
      now apply list_elem_of_further.
Qed.

Lemma createRow_wellFormed (newId : string) (d : BookingCreateInput)
    (s s' : Store) (b : Booking.t) :
  wellFormed s -> createRow newId d s = inr (b, s') -> wellFormed s'.
Proof.
  intros (Hids & Huniq & Hpos) Hc.
  apply createRow_stored in Hc as (Hrow & Hfresh & -> & Hstored).
  assert (Hnone : Booking.studioNumber b = None).
  { unfold rowOfCreate in Hrow.
    repeat match type of Hrow with
           | context [mbind _ ?o] => destruct o; cbn in Hrow; [|discriminate]
           end.
    injection Hrow as <-. reflexivity. }
  apply findBooking_id in Hstored as [Hid _].
  unfold wellFormed, uniqueIds, numbersUnique, numbersPositive in *.
  cbn [bookings withBookings]. split; [|split].
  - rewrite map_fmap, fmap_app. cbn. rewrite <- map_fmap.
    apply NoDup_app. split; [exact Hids|]. split; [|apply NoDup_singleton].
    intros x Hx. rewrite list_elem_of_singleton. intros ->.
    rewrite map_fmap in Hx. apply list_elem_of_fmap in Hx as (r & Hr & Hin).
    unfold findBooking in Hfresh.
    apply list_elem_of_In in Hin.
    pose proof (find_none _ _ Hfresh r Hin) as Hneq. cbn beta in Hneq.
    rewrite Hid in Hr. rewrite <- Hr, String.eqb_refl in Hneq. discriminate.
  - intros loc. rewrite numbersAt_app, numbersAt_cons. unfold contribution.
    rewrite Hnone. destruct (optStringEqb _ _); cbn; rewrite app_nil_r;
      apply Huniq.
  - intros r n Hr Hn. apply elem_of_app in Hr as [Hr|Hr];
      [now apply (Hpos r n)|].
    apply list_elem_of_singleton in Hr as ->. congruence.
Qed.

Lemma applyUpdate_number (d : BookingUpdateInput) (b b' : Booking.t) :
  u_studioNumber d = None -> applyUpdate d b = Some b' ->
  Booking.studioNumber b' = Booking.studioNumber b.
Proof.
  unfold applyUpdate. intros Hd H. rewrite Hd in H.
  destruct (match u_status d with Some _ => _ | None => _ end); [|discriminate].
  destruct (match u_paymentMethod d with Some _ => _ | None => _ end);
    [|discriminate].
  cbn in H. injection H as <-. reflexivity.
Qed.

Lemma positive_numbers_at (loc : string) (s : Store) :
  numbersPositive s -> Forall (fun x => 1 <= x) (numbersAt loc (bookings s)).
Proof.
  intros Hpos. rewrite Forall_forall. intros x Hx.
  apply list_elem_of_omap in Hx as (r & Hr & Hx).
  destruct (optStringEqb _ _); [|discriminate]. now apply (Hpos r x).
Qed.

Lemma createBooking_store (newId : string) (req : CreateRequest) (s : Store)
    (t : list Event) :
  db (snd (createBooking newId req (mkWorld s t []))) = s
  \/ exists b,
       createRow newId (createData req) s
       = inr (b, db (snd (createBooking newId req (mkWorld s t [])))).
Proof.
  unfold createBooking, tryCatch, prisma.booking_create.
  destruct (cr_validationErrors req); [|now left].
  destruct (negb (elevenDigits (cr_phoneNumber req))); [now left|].
  destruct (truthy (cr_emergencyPhoneNumber req) && _); [now left|].
  destruct (negb _ && negb _ && negb _); [now left|].
  rewrite bind_command. cbn [interleave pending db].
  destruct (createRow newId (createData req) s) as [e|[b s']]; [now left|].
  right. now exists b.
Qed.

Lemma updateBooking_store (id : string) (req : UpdateRequest) (s : Store)
    (t : list Event) :
  db (snd (updateBooking id req (mkWorld s t []))) = s
  \/ exists b',
       updateRow id (updateData req) s
       = inr (b', db (snd (updateBooking id req (mkWorld s t [])))).
Proof.
  unfold updateBooking, tryCatch, prisma.booking_findUnique,
    prisma.booking_update.
  destruct (ur_validationErrors req); [|now left].
  rewrite bind_query. cbn [interleave pending db record trace].
  destruct (findBooking id s) as [existing|]; [|now left].
  destruct (lacksPermission (ur_user req) existing); [now left|].
  destruct (truthy (ur_phoneNumber req) && _); [now left|].
  destruct (truthy (flatten (ur_emergencyPhoneNumber req)) && _); [now left|].
  rewrite bind_command. cbn [interleave pending db record trace].
  destruct (updateRow id (updateData req) s) as [e|[b' s']] eqn:Hupd;
    [now left|].
  right. exists b'. f_equal. f_equal.
  match goal with |- context [bind ?m ?k ?w0] =>
    assert (Hloc : exists v w1,
               m w0 = (Val v, w1) /\ db w1 = s' /\ sequential w1) end.
  { destruct (truthy (Booking.locationId b')).
    - unfold prisma.location_findUnique. rewrite bind_query. cbn.
      eexists _, _. split; [reflexivity|]. split; reflexivity.
    - eexists _, _. cbn. split; [reflexivity|]. split; reflexivity. }
  destruct Hloc as (v & w1 & Hloc & Hdb1 & Hseq1).
  unfold bind at 1. rewrite Hloc.
  destruct (lookupSalesPerson_sequential b' w1 Hseq1)
    as (w2 & Hsp & Hdb2 & _).
  unfold bind. rewrite Hsp. cbn [ret snd]. now rewrite Hdb2, Hdb1.
Qed.

Lemma allocate_store (id : string) (s : Store) (t : list Event) :
  wellFormed s ->
  db (snd (allocateStudioNumber id (mkWorld s t []))) = s
  \/ exists b' n,
       1 <= n /\ Booking.studioNumber b' = Some n
       /\ updateRow id (allocationData (Some n)) s
          = inr (b', db (snd (allocateStudioNumber id (mkWorld s t [])))).
Proof.
  intros (Hids & Huniq & Hpos).
  destruct (rejectionOf id s) as [r|] eqn:Hrej.
  - destruct (allocate_rejected id s t r Hrej) as (evs & -> & _). now left.
  - unfold rejectionOf in Hrej.
    destruct (findBooking id s) as [b|] eqn:Hfind; [|discriminate].
    destruct (Booking.locationId b) as [loc|] eqn:Hloc; [|discriminate].
    cbn [truthy] in Hrej.
    destruct (String.eqb_spec loc "") as [->|Hne]; [discriminate|].
    cbn [negb] in Hrej.
    destruct (Booking.studioNumber b) eqn:Hnum; [discriminate|].
    cbn [isSome] in Hrej. change (default "" (Some loc)) with loc in Hrej.
    destruct (findLocation loc s) as [l|] eqn:Hl; [|discriminate].
    destruct (allocate_sequential s t id loc b l (Huniq loc)
                (positive_numbers_at loc s Hpos) Hfind Hloc Hne Hnum Hl)
      as ((Hone & Hfree & _) & _ & Hrun).
    right. rewrite Hrun. cbn [snd db].
    exists (allocatedRow b (gapScan (studioNumbersAsc loc s))),
      (gapScan (studioNumbersAsc loc s)).
    split; [exact Hone|]. split; [reflexivity|].
    unfold updateRow. rewrite Hfind, applyUpdate_allocation.
    assert (Hok : breaksUnique
                    (allocatedRow b (gapScan (studioNumbersAsc loc s)))
                    (bookings s) = false).
    { unfold breaksUnique. cbn. rewrite Hloc.
      now apply unused_keeps_unique. }
    now rewrite Hok.
Qed.

(** [createBooking], [updateBooking] and [allocateStudioNumber] keep the
    constraints of the table: identifiers stay unique, and the studio numbers of a location
    stay distinct positive integers. *)
Lemma writes_keep_wellFormed (s : Store) (t : list Event) :
  wellFormed s ->
  (forall newId req,
      wellFormed (db (snd (createBooking newId req (mkWorld s t [])))))
  /\ (forall id req,
        wellFormed (db (snd (updateBooking id req (mkWorld s t [])))))
  /\ (forall id,
        wellFormed (db (snd (allocateStudioNumber id (mkWorld s t []))))).
Proof.
  intros Hwf. split; [|split].
  - intros newId req.
    destruct (createBooking_store newId req s t) as [->|(b & Hc)];
      [exact Hwf|].
    exact (createRow_wellFormed _ _ _ _ _ Hwf Hc).
  - intros id req.
    destruct (updateBooking_store id req s t) as [->|(b' & Hupd)];
      [exact Hwf|].
    apply (updateRow_wellFormed _ _ _ _ _ Hwf Hupd).
    intros n Hn. destruct Hwf as (Hids & _ & Hpos).
    destruct (updateRow_shape _ _ _ _ _ Hids Hupd)
      as (b & l1 & l2 & Hrows & _ & _ & _ & Happ & _).
    rewrite (applyUpdate_number (updateData req) b b' eq_refl Happ) in Hn.
    apply (Hpos b n); [|exact Hn]. rewrite Hrows. apply elem_of_app. right.
    apply list_elem_of_here.
  - intros id.
    destruct (allocate_store id s t Hwf) as [->|(b' & n & Hn & Hb' & Hupd)];
      [exact Hwf|].
    apply (updateRow_wellFormed _ _ _ _ _ Hwf Hupd).
    intros m Hm. congruence.
Qed.

(** ** Who may touch a booking *)

Lemma lacksPermission_mayAccess (u : AuthUser) (b : Booking.t) :
  lacksPermission u b = false <-> mayAccess u b.
Proof.
  unfold lacksPermission, mayAccess, hasRole, optStringEqb.
  rewrite !andb_false_iff, !negb_false_iff.
  destruct (au_role u) as [r|].
  - rewrite !String.eqb_eq. split.
    + intros [[[[->| ->]| ->]| ->]|H]; auto 6.
    + intros [[= H]|[[= H]|[[= H]|[[= H]|H]]]]; auto 6.
  - rewrite String.eqb_eq. split.
    + intros [[[[H|H]|H]|H]|H]; try discriminate H. auto 6.
    + intros [H|[H|[H|[H|H]]]]; try discriminate H. auto.
Qed.

Lemma lacksPermission_refused (u : AuthUser) (b : Booking.t) :
  lacksPermission u b = true <-> ~ mayAccess u b.
Proof.
  rewrite <- lacksPermission_mayAccess.
  destruct (lacksPermission u b); split; intros H; congruence.
Qed.

(** ** [deleteBooking] *)

Lemma findBooking_without (id : string) (s : Store) :
  findBooking id (without id s) = None.
Proof.
  unfold findBooking, without. cbn.
  induction (bookings s) as [|r rows IH]; [reflexivity|].
  rewrite filter_cons. destruct (decide (Booking.id r <> id)) as [Hne|He].
  - cbn. apply String.eqb_neq in Hne. rewrite Hne. exact IH.
  - exact IH.
Qed.

Lemma findBooking_without_other (id id' : string) (s : Store) :
  id' <> id -> findBooking id' (without id s) = findBooking id' s.
Proof.
  intros Hne. unfold findBooking, without. cbn.
  induction (bookings s) as [|r rows IH]; [reflexivity|].
  rewrite filter_cons. destruct (decide (Booking.id r <> id)) as [Hr|Hr].
  - cbn. now rewrite IH.
  - cbn. apply dec_stable in Hr.
    assert (Hf : String.eqb (Booking.id r) id' = false).
    { apply String.eqb_neq. congruence. }
    now rewrite Hf.
Qed.

Lemma numbersAt_filter_sublist (loc : string) (P : Booking.t -> Prop)
    `{forall r, Decision (P r)} (rows : list Booking.t) :
  numbersAt loc (filter P rows) `sublist_of` numbersAt loc rows.
Proof.
  induction rows as [|r rows IH]; [reflexivity|].
  rewrite filter_cons, (numbersAt_cons loc r rows).
  destruct (decide (P r)).
  - rewrite numbersAt_cons. now apply sublist_app.
  - now apply sublist_inserts_l.
Qed.

Lemma without_wellFormed (id : string) (s : Store) :
  wellFormed s -> wellFormed (without id s).
Proof.
  intros (Hids & Hnum & Hpos). repeat split.
  - unfold uniqueIds, without in *. cbn. rewrite map_fmap in *.
    apply (sublist_NoDup _ (Booking.id <$> bookings s)); [exact Hids|].
    apply fmap_sublist, sublist_filter.
  - intros loc. unfold without. cbn.
    apply (sublist_NoDup _ (numbersAt loc (bookings s))); [exact (Hnum loc)|].
    apply numbersAt_filter_sublist.
  - intros b n Hb. unfold without in Hb. cbn in Hb.
    apply list_elem_of_filter in Hb as [_ Hb]. now apply Hpos.
Qed.

Lemma deleteBooking_sequential (id : string) (u : AuthUser) (s : Store)
    (t : list Event) (b : Booking.t) :
  findBooking id s = Some b -> lacksPermission u b = false ->
  deleteBooking id u (mkWorld s t [])
  = (Val (successResponse tt "Booking deleted successfully" 200),
     mkWorld (without id s) (t ++ [BookingFindUnique id; BookingDelete id]) []).
Proof.
  intros Hb Hperm. unfold deleteBooking, tryCatch, prisma.booking_findUnique,
    prisma.booking_delete.
  rewrite bind_query. cbn [interleave pending db]. rewrite Hb, Hperm.
  rewrite bind_command. cbn [interleave pending db record trace].
  unfold deleteRow. rewrite Hb. cbn. rewrite <- app_assoc. reflexivity.
Qed.

(** X1.  A caller who may access a booking deletes it, when no other
    request writes in between: the answer is 200, the call issues one
    read and one delete, the booking is gone afterwards, every other
    booking is found as before, and the constraints of the table still
    hold. *)
Theorem delete_removes_the_booking (id : string) (u : AuthUser) (s : Store)
    (t : list Event) (b : Booking.t) :
  findBooking id s = Some b -> mayAccess u b ->
  deleteBooking id u (mkWorld s t [])
  = (Val (successResponse tt "Booking deleted successfully" 200),
     mkWorld (without id s) (t ++ [BookingFindUnique id; BookingDelete id]) [])
  /\ findBooking id (without id s) = None
  /\ (forall id', id' <> id ->
        findBooking id' (without id s) = findBooking id' s)
  /\ locations (without id s) = locations s
  /\ users (without id s) = users s
  /\ (wellFormed s -> wellFormed (without id s)).
Proof.
  intros Hb Hmay. apply lacksPermission_mayAccess in Hmay.
  split; [now apply (deleteBooking_sequential id u s t b)|].
  split; [apply findBooking_without|].
  split; [intros id'; apply findBooking_without_other|].
  split; [reflexivity|]. split; [reflexivity|].
  apply without_wellFormed.
Qed.

Lemma delete_removes_the_booking_witness :
  findBooking "A" (db (snd (deleteBooking "A" salesAnn
                              (quiet (storeOf [bookingA; bookingB])))))
  = None
  /\ findBooking "B" (db (snd (deleteBooking "A" salesAnn
                                 (quiet (storeOf [bookingA; bookingB])))))
     = Some bookingB.
Proof.
  destruct (delete_removes_the_booking "A" salesAnn
              (storeOf [bookingA; bookingB]) [] bookingA)
    as (Hrun & Hgone & Hother & _).
  - reflexivity.
  - unfold mayAccess. do 4 right. reflexivity.
  - unfold quiet. rewrite Hrun. cbn [snd db]. split; [exact Hgone|].
    rewrite Hother; [reflexivity|discriminate].
Defined.

(** X2.  Whatever other requests write in between, [deleteBooking]
    always answers; it issues a delete only for a booking that its own
    read found and that the caller may access, and then exactly one; a
    404 or 403 answer comes with no write at all. *)
Theorem delete_needs_permission (id : string) (u : AuthUser) (w : World) :
  exists r evs,
    fst (deleteBooking id u w) = Val r
    /\ trace (snd (deleteBooking id u w)) = trace w ++ evs
    /\ (List.filter isWrite evs = []
        \/ List.filter isWrite evs = [BookingDelete id]
           /\ exists b, findBooking id (db (interleave w)) = Some b
                        /\ mayAccess u b)
    /\ (statusCodeOf r = 200 ->
        List.filter isWrite evs = [BookingDelete id]
        /\ findBooking id (db (snd (deleteBooking id u w))) = None)
    /\ (statusCodeOf r = 404 \/ statusCodeOf r = 403 ->
        List.filter isWrite evs = []).
Proof.
  unfold deleteBooking, tryCatch, prisma.booking_findUnique,
    prisma.booking_delete.
  rewrite bind_query.
  destruct (findBooking id (db (interleave w))) as [b|] eqn:Hb.
  - destruct (lacksPermission u b) eqn:Hperm.
    + eexists _, [BookingFindUnique id]. cbn.
      rewrite trace_interleave. repeat split; auto; try discriminate.
    + rewrite bind_command. unfold deleteRow.
      destruct (findBooking id (db (interleave (record _ (interleave w)))))
        as [b2|] eqn:Hb2.
      * eexists _, [BookingFindUnique id; BookingDelete id]. cbn.
        rewrite trace_interleave, <- app_assoc. cbn.
        split; [reflexivity|]. split; [reflexivity|]. split.
        { right. split; [reflexivity|]. exists b. split; [reflexivity|].
          now apply lacksPermission_mayAccess. }
        split; [|intros [H|H]; discriminate H].
        intros _. split; [reflexivity|].
        apply (findBooking_without id (db (interleave (record _ (interleave w))))).
      * eexists _, [BookingFindUnique id; BookingDelete id]. cbn.
        rewrite !trace_interleave. cbn. rewrite trace_interleave, <- app_assoc.
        cbn. split; [reflexivity|]. split; [reflexivity|]. split.
        { right. split; [reflexivity|]. exists b. split; [reflexivity|].
          now apply lacksPermission_mayAccess. }
        split; [discriminate|intros [H|H]; discriminate H].
  - eexists _, [BookingFindUnique id]. cbn.
    rewrite trace_interleave. repeat split; auto; try discriminate.
Qed.

Lemma delete_needs_permission_witness :
  exists r evs,
    fst (deleteBooking "r4" salesAnn (quiet sevenBooked)) = Val r
    /\ statusCodeOf r = 403
    /\ List.filter isWrite evs = [].
Proof.
  destruct (delete_needs_permission "r4" salesAnn (quiet sevenBooked))
    as (r & evs & Hr & _ & _ & _ & Hnone).
  exists r, evs. split; [exact Hr|].
  assert (Hcode : statusCodeOf r = 403).
  { vm_compute in Hr. injection Hr as <-. reflexivity. }
  split; [exact Hcode|]. apply Hnone. right. exact Hcode.
Defined.

(** ** Deleting a numbered booking *)

Lemma filter_other_ids (id : string) (rows : list Booking.t) :
  (forall r, r ∈ rows -> Booking.id r <> id) ->
  filter (fun r => Booking.id r <> id) rows = rows.
Proof.
  induction rows as [|r rows IH]; intros H; [reflexivity|].
  rewrite filter_cons. destruct (decide (Booking.id r <> id)) as [_|Hn].
  - f_equal. apply IH. intros r' Hr'. apply H. now right.
  - exfalso. apply Hn, H. left.
Qed.

Lemma without_split (s : Store) (b : Booking.t) :
  uniqueIds s -> b ∈ bookings s ->
  exists l1 l2,
    bookings s = l1 ++ b :: l2
    /\ bookings (without (Booking.id b) s) = l1 ++ l2.
Proof.
  intros Hids Hb.
  destruct (split_by_id (bookings s) b Hids Hb) as (l1 & l2 & Heq & Hother).
  exists l1, l2. split; [exact Heq|].
  unfold without. cbn. rewrite Heq, filter_app, filter_cons.
  destruct (decide (Booking.id b <> Booking.id b)) as [Hn|_]; [congruence|].
  rewrite <- filter_app. now apply filter_other_ids.
Qed.

Lemma smallestUnused_unique (used : list Z) (a b : Z) :
  smallestUnused used a -> smallestUnused used b -> a = b.
Proof.
  intros (Ha1 & Ha2 & Ha3) (Hb1 & Hb2 & Hb3).
  destruct (Z.lt_trichotomy a b) as [Hlt|[Heq|Hgt]]; [|exact Heq|].
  - exfalso. apply Ha2, Hb3. lia.
  - exfalso. apply Hb2, Ha3. lia.
Qed.

Lemma freed_number_is_smallest (s : Store) (b : Booking.t) (loc : string)
    (k : Z) :
  wellFormed s -> b ∈ bookings s ->
  Booking.locationId b = Some loc -> Booking.studioNumber b = Some k ->
  (forall j, 1 <= j < k -> j ∈ numbersAt loc (bookings s)) ->
  smallestUnused (numbersAt loc (bookings (without (Booking.id b) s))) k.
Proof.
  intros (Hids & Hnum & Hpos) Hb Hloc Hk Hbelow.
  destruct (without_split s b Hids Hb) as (l1 & l2 & Heq & Heq').
  rewrite Heq'. specialize (Hnum loc). rewrite Heq in Hnum, Hbelow.
  rewrite numbersAt_app, numbersAt_cons in Hnum, Hbelow.
  assert (Hc : contribution loc b = [k]).
  { unfold contribution, optStringEqb. rewrite Hloc, String.eqb_refl, Hk.
    reflexivity. }
  rewrite Hc in Hnum, Hbelow. rewrite numbersAt_app.
  apply NoDup_app in Hnum as (Hn1 & Hn2 & Hn3).
  apply NoDup_cons in Hn3 as [Hk2 Hn3].
  repeat split.
  - apply (Hpos b k Hb Hk).
  - intros Hin. apply elem_of_app in Hin as [Hin|Hin].
    + apply (Hn2 k Hin). left.
    + exact (Hk2 Hin).
  - intros j Hj. specialize (Hbelow j Hj).
    apply elem_of_app in Hbelow as [Hin|Hin].
    + apply elem_of_app. now left.
    + cbn in Hin. apply elem_of_cons in Hin as [Hin|Hin]; [lia|].
      apply elem_of_app. now right.
Qed.

Lemma findBooking_replaceRow_other (b' : Booking.t) (s : Store) (id : string) :
  id <> Booking.id b' ->
  findBooking id (withBookings (replaceRow b' (bookings s)) s)
  = findBooking id s.
Proof.
  intros Hne. unfold findBooking, withBookings, replaceRow. cbn [bookings].
  induction (bookings s) as [|r rows IH]; [reflexivity|].
  cbn. destruct (String.eqb (Booking.id r) (Booking.id b')) eqn:Hr.
  - apply String.eqb_eq in Hr.
    assert (H1 : String.eqb (Booking.id b') id = false)
      by (apply String.eqb_neq; congruence).
    assert (H2 : String.eqb (Booking.id r) id = false)
      by (apply String.eqb_neq; congruence).
    now rewrite H1, H2.
  - destruct (String.eqb (Booking.id r) id); [reflexivity|exact IH].
Qed.

(** X3.  Deleting frees the studio number.  When a booking that holds
    number [k] at a location is deleted and every smaller number is in use
    there, the next allocation at that location, served without
    concurrent writes, assigns [k] again. *)
Theorem delete_frees_the_number (s : Store) (t : list Event) (u : AuthUser)
    (idOld idNew loc : string) (bOld bNew : Booking.t) (l : Location.t)
    (k : Z) :
  wellFormed s ->
  findBooking idOld s = Some bOld -> mayAccess u bOld ->
  Booking.locationId bOld = Some loc -> Booking.studioNumber bOld = Some k ->
  (forall j, 1 <= j < k -> j ∈ numbersAt loc (bookings s)) ->
  idNew <> idOld -> findBooking idNew s = Some bNew ->
  Booking.locationId bNew = Some loc -> loc <> "" ->
  Booking.studioNumber bNew = None ->
  findLocation loc s = Some l ->
  exists data msg w2,
    allocateStudioNumber idNew (snd (deleteBooking idOld u (mkWorld s t [])))
    = (Val (successResponse data msg 200), w2)
    /\ ab_studioNumber data = Some k
    /\ findBooking idOld (db w2) = None
    /\ exists b', findBooking idNew (db w2) = Some b'
                  /\ Booking.studioNumber b' = Some k
                  /\ Booking.status b' = CONFIRMED.
Proof.
  intros Hwf HbOld Hmay HlocOld Hk Hbelow Hne HbNew HlocNew Hloc Hnone Hl.
  apply lacksPermission_mayAccess in Hmay.
  rewrite (deleteBooking_sequential idOld u s t bOld HbOld Hmay). cbn [snd].
  destruct (findBooking_id idOld s bOld HbOld) as [HidOld HinOld].
  pose proof (without_wellFormed idOld s Hwf) as Hwf'.
  pose proof (freed_number_is_smallest s bOld loc k Hwf HinOld HlocOld Hk Hbelow)
    as Hsmall.
  rewrite HidOld in Hsmall.
  destruct Hwf' as (Hids' & Hnum' & Hpos').
  destruct (allocate_sequential (without idOld s)
              (t ++ [BookingFindUnique idOld; BookingDelete idOld])
              idNew loc bNew l)
    as (Hn & _ & Hrun); auto.
  - now apply positive_numbers_at.
  - now rewrite findBooking_without_other.
  - pose proof (smallestUnused_unique _ _ _ Hn Hsmall) as Hnk.
    rewrite Hnk in Hrun. rewrite Hrun.
    eexists _, _, _. split; [reflexivity|]. split; [reflexivity|].
    cbn [db]. split.
    + destruct (findBooking_id idNew s bNew HbNew) as [HidNew _].
      rewrite findBooking_replaceRow_other; [apply findBooking_without|].
      cbn. congruence.
    + exists (allocatedRow bNew k). split; [|split; reflexivity].
      assert (Hfound : findBooking idNew (without idOld s) = Some bNew)
        by now rewrite findBooking_without_other.
      destruct (findBooking_id idNew s bNew HbNew) as [HidNew _].
      unfold findBooking in Hfound |- *. cbn [bookings withBookings].
      rewrite <- HidNew in Hfound |- *.
      now apply (find_replaceRow (allocatedRow bNew k) _ bNew).
Qed.

Lemma sampleStore_wellFormed : wellFormed (sampleStore [1; 2; 3]).
Proof.
  split; [|split].
  - vm_compute. repeat constructor; rewrite ?elem_of_cons, ?elem_of_nil;
      intuition discriminate.
  - intros loc. unfold numbersAt, sampleStore. cbn -[String.eqb].
    destruct (String.eqb "L1" loc); cbn;
      repeat constructor; rewrite ?elem_of_cons, ?elem_of_nil;
      intuition discriminate.
  - intros b n Hb. cbn in Hb.
    rewrite !elem_of_cons, elem_of_nil in Hb.
    destruct Hb as [->|[->|[->|[->|[]]]]]; cbn; intros [= <-]; lia.
Qed.

Lemma delete_frees_the_number_witness :
  exists data msg w2,
    allocateStudioNumber "new"
      (snd (deleteBooking "1" salesAnn (mkWorld (sampleStore [1; 2; 3]) [] [])))
    = (Val (successResponse data msg 200), w2)
    /\ ab_studioNumber data = Some 2.
Proof.
  destruct (delete_frees_the_number (sampleStore [1; 2; 3]) [] salesAnn
              "1" "new" "L1"
              (sampleBooking "1" "L1" (Some 2) CONFIRMED)
              (sampleBooking "new" "L1" None BOOKED)
              {| Location.id := "L1"; Location.name := "Leeds";
                 Location.code := Some "LE" |} 2)
    as (data & msg & w2 & Hrun & Hnum & _).
  - exact sampleStore_wellFormed.
  - reflexivity.
  - unfold mayAccess. do 4 right. reflexivity.
  - reflexivity.
  - reflexivity.
  - intros j Hj. assert (j = 1) as -> by lia. vm_compute. left.
  - discriminate.
  - reflexivity.
  - reflexivity.
  - discriminate.
  - reflexivity.
  - reflexivity.
  - exists data, msg, w2. split; [exact Hrun|exact Hnum].
Defined.

(** ** What an allocation changes *)

Lemma contribution_elsewhere (loc loc' : string) (b : Booking.t) :
  Booking.locationId b = Some loc -> loc' <> loc -> contribution loc' b = [].
Proof.
  intros Hloc Hne. unfold contribution, optStringEqb. rewrite Hloc.
  assert (Hf : String.eqb loc loc' = false)
    by (apply String.eqb_neq; congruence).
  now rewrite Hf.
Qed.

(** X4.  A successful allocation, served without concurrent writes,
    adds exactly one number to the numbers of the booking's location: a
    number that was not in use there.  The numbers of every other location
    and every other booking stay as they were, the constraints of the
    table are kept, and a location numbered 1..n without a gap is numbered
    1..n+1 afterwards. *)
Theorem allocate_adds_one_number (s : Store) (t : list Event) (id loc : string)
    (b : Booking.t) (l : Location.t) :
  wellFormed s ->
  findBooking id s = Some b ->
  Booking.locationId b = Some loc -> loc <> "" ->
  Booking.studioNumber b = None ->
  findLocation loc s = Some l ->
  exists n data msg s',
    allocateStudioNumber id (mkWorld s t [])
    = (Val (successResponse data msg 200),
       mkWorld s' (t ++ allocationCalls id loc n) [])
    /\ findBooking id s' = Some (allocatedRow b n)
    /\ (n ∉ numbersAt loc (bookings s))
    /\ (numbersAt loc (bookings s') ≡ₚ n :: numbersAt loc (bookings s))
    /\ (forall loc', loc' <> loc ->
          numbersAt loc' (bookings s') = numbersAt loc' (bookings s))
    /\ (forall id', id' <> id -> findBooking id' s' = findBooking id' s)
    /\ wellFormed s'
    /\ (dense loc s ->
        n = Z.of_nat (length (numbersAt loc (bookings s))) + 1
        /\ dense loc s').
Proof.
  intros Hwf Hb Hloc Hne Hnone Hl.
  pose proof Hwf as (Hids & Hnum & Hpos).
  destruct (allocate_sequential s t id loc b l)
    as ((Hn1 & Hn2 & Hn3) & _ & Hrun); auto.
  { now apply positive_numbers_at. }
  set (n := gapScan (studioNumbersAsc loc s)) in *.
  destruct (findBooking_id id s b Hb) as [Hid Hin].
  destruct (split_by_id (bookings s) b Hids Hin) as (l1 & l2 & Heq & Hother).
  assert (Hrows : replaceRow (allocatedRow b n) (bookings s)
                  = l1 ++ allocatedRow b n :: l2).
  { rewrite Heq. now apply replaceRow_split. }
  assert (Hperm : numbersAt loc (l1 ++ allocatedRow b n :: l2)
                  ≡ₚ n :: numbersAt loc (bookings s)).
  { rewrite Heq, !numbersAt_app, !numbersAt_cons.
    unfold contribution, optStringEqb. cbn [Booking.locationId
      Booking.studioNumber allocatedRow].
    rewrite Hloc, String.eqb_refl, Hnone. cbn [app].
    now rewrite Permutation_middle. }
  exists n, (allocatedView (allocatedRow b n) l),
    ("Studio number " +:+ studioNumberDisplay l (Some n)
     +:+ " allocated successfully"),
    (withBookings (replaceRow (allocatedRow b n) (bookings s)) s).
  split; [exact Hrun|]. split.
  { unfold findBooking. cbn [bookings withBookings]. rewrite <- Hid.
    change (Booking.id b) with (Booking.id (allocatedRow b n)).
    apply (find_replaceRow (allocatedRow b n) _ b).
    cbn [Booking.id allocatedRow]. rewrite Hid. exact Hb. }
  split; [exact Hn2|]. cbn [bookings withBookings]. rewrite Hrows.
  split; [exact Hperm|]. split.
  { intros loc' Hne'. rewrite Heq, !numbersAt_app, !numbersAt_cons.
    rewrite (contribution_elsewhere loc loc' b Hloc Hne').
    now rewrite (contribution_elsewhere loc loc' (allocatedRow b n) Hloc Hne'). }
  split.
  { intros id' Hid'. rewrite <- Hrows.
    apply (findBooking_replaceRow_other (allocatedRow b n) s id').
    cbn. congruence. }
  split.
  { destruct (writes_keep_wellFormed s t Hwf) as (_ & _ & Hkeep).
    specialize (Hkeep id). rewrite Hrun in Hkeep. cbn [snd db] in Hkeep.
    unfold wellFormed, uniqueIds, numbersUnique, numbersPositive in Hkeep |- *.
    cbn [bookings withBookings] in Hkeep. now rewrite Hrows in Hkeep. }
  intros Hdense.
  assert (Hlen : n = Z.of_nat (length (numbersAt loc (bookings s))) + 1).
  { apply (smallestUnused_unique (numbersAt loc (bookings s)));
      [repeat split; assumption|].
    repeat split.
    - lia.
    - intros Hin'. apply Hdense in Hin'. lia.
    - intros k Hk. apply Hdense. lia. }
  split; [exact Hlen|].
  intros k. rewrite Hperm. cbn [length].
  rewrite elem_of_cons, (Hdense k). lia.
Qed.

Lemma allocate_adds_one_number_witness :
  exists n data msg s',
    allocateStudioNumber "new" (mkWorld (sampleStore [1; 2; 3]) [] [])
    = (Val (successResponse data msg 200),
       mkWorld s' (allocationCalls "new" "L1" n) [])
    /\ n = 4 /\ dense "L1" s'.
Proof.
  destruct (allocate_adds_one_number (sampleStore [1; 2; 3]) [] "new" "L1"
              (sampleBooking "new" "L1" None BOOKED)
              {| Location.id := "L1"; Location.name := "Leeds";
                 Location.code := Some "LE" |})
    as (n & data & msg & s' & Hrun & _ & _ & _ & _ & _ & _ & Hdense).
  - exact sampleStore_wellFormed.
  - reflexivity.
  - reflexivity.
  - discriminate.
  - reflexivity.
  - reflexivity.
  - exists n, data, msg, s'. split; [exact Hrun|]. apply Hdense.
    intros k.
    change (numbersAt "L1" (bookings (sampleStore [1; 2; 3]))) with [1; 2; 3].
    rewrite !elem_of_cons, elem_of_nil. cbn. lia.
Defined.

(** ** Requests that only read *)

Lemma readOnly_ret {A} (a : A) : readOnly (ret a).
Proof. intros w. exists []. cbn. now rewrite app_nil_r. Qed.

Lemma readOnly_bind {A B} (m : M A) (k : A -> M B) :
  readOnly m -> (forall a, readOnly (k a)) -> readOnly (bind m k).
Proof.
  intros Hm Hk w. unfold bind. destruct (Hm w) as (e1 & Ht1 & Hw1).
  destruct (m w) as [[a|e] w1]; cbn [snd] in *.
  - destruct (Hk a w1) as (e2 & Ht2 & Hw2). exists (e1 ++ e2).
    rewrite Ht2, Ht1, app_assoc, List.filter_app, Hw1, Hw2. now split.
  - exists e1. now split.
Qed.

Lemma readOnly_tryCatch {A} (m : M A) (h : PrismaError -> M A) :
  readOnly m -> (forall e, readOnly (h e)) -> readOnly (tryCatch m h).
Proof.
  intros Hm Hh w. unfold tryCatch. destruct (Hm w) as (e1 & Ht1 & Hw1).
  destruct (m w) as [[a|e] w1]; cbn [snd] in *.
  - exists e1. now split.
  - destruct (Hh e w1) as (e2 & Ht2 & Hw2). exists (e1 ++ e2).
    rewrite Ht2, Ht1, app_assoc, List.filter_app, Hw1, Hw2. now split.
Qed.

Lemma readOnly_query {A} (q : Store -> PrismaError + A) (ev : A -> Event)
    (dflt : Event) :
  (forall a, isWrite (ev a) = false) -> isWrite dflt = false ->
  readOnly (query q ev dflt).
Proof.
  intros Hev Hd w. unfold query.
  destruct (q (db (interleave w))) as [e|a]; cbn.
  - exists [dflt]. rewrite trace_interleave. cbn. now rewrite Hd.
  - exists [ev a]. rewrite trace_interleave. cbn. now rewrite Hev.
Qed.

Lemma readOnly_forEach {A B} (f : A -> M B) (l : list A) :
  (forall a, readOnly (f a)) -> readOnly (forEach f l).
Proof.
  intros Hf. induction l as [|x rest IH]; cbn [forEach].
  - apply readOnly_ret.
  - apply readOnly_bind; [apply Hf|]. intros y.
    apply readOnly_bind; [exact IH|]. intros ys. apply readOnly_ret.
Qed.

Lemma answers_tryCatch {A} (m : M A) (h : PrismaError -> M A) :
  (forall e, answers (h e)) -> answers (tryCatch m h).
Proof.
  intros Hh w. unfold tryCatch. destruct (m w) as [[a|e] w1].
  - now exists a.
  - apply Hh.
Qed.

Lemma answers_ret {A} (a : A) : answers (ret a).
Proof. intros w. now exists a. Qed.

Ltac read_only :=
  repeat first
    [ apply readOnly_ret
    | apply readOnly_query; [intros ?; reflexivity|reflexivity]
    | apply readOnly_tryCatch; [|intros ?]
    | apply readOnly_forEach; intros ?
    | apply readOnly_bind; [|intros ?]
    | match goal with
      | |- readOnly (match ?x with _ => _ end) => destruct x
      | |- readOnly (if ?x then _ else _) => destruct x
      end ].

Lemma lookupLocation_readOnly (b : Booking.t) : readOnly (lookupLocation b).
Proof.
  unfold lookupLocation, orNullOnError, prisma.location_findUnique. read_only.
Qed.

Lemma lookupSalesPerson_readOnly (b : Booking.t) :
  readOnly (lookupSalesPerson b).
Proof. unfold lookupSalesPerson, prisma.user_findUnique. read_only. Qed.

Lemma withDetails_readOnly (b : Booking.t) : readOnly (withDetails b).
Proof.
  unfold withDetails. apply readOnly_bind; [apply lookupLocation_readOnly|].
  intros loc. apply readOnly_bind; [apply lookupSalesPerson_readOnly|].
  intros sp. apply readOnly_ret.
Qed.

(** X5.  The two read endpoints never write and always answer: whatever
    the caller, the query and the writes of other requests in between,
    [getBookings] and [getBookingById] issue no create, update or delete,
    and an error of the store is caught and answered, never thrown. *)
Theorem reads_never_write (user : option AuthUser) :
  (forall q, readOnly (getBookings user q) /\ answers (getBookings user q))
  /\ (forall id, readOnly (getBookingById id user)
                 /\ answers (getBookingById id user)).
Proof.
  split.
  - intros q. split.
    + unfold getBookings, prisma.booking_count, prisma.booking_findMany,
        prisma.booking_findManyIn.
      apply readOnly_tryCatch; [|intros e; apply readOnly_ret].
      destruct user as [u|]; [|apply readOnly_ret].
      destruct (negb (truthy (au_role u))); [apply readOnly_ret|].
      apply readOnly_bind;
        [apply readOnly_query; [intros ?; reflexivity|reflexivity]|].
      intros totalCount. apply readOnly_bind;
        [apply readOnly_query; [intros ?; reflexivity|reflexivity]|].
      intros allBookings. apply readOnly_bind;
        [apply readOnly_query; [intros ?; reflexivity|reflexivity]|].
      intros forSorting. apply readOnly_bind;
        [apply readOnly_query; [intros ?; reflexivity|reflexivity]|].
      intros fetched. apply readOnly_bind;
        [apply readOnly_forEach, withDetails_readOnly|].
      intros rows. apply readOnly_ret.
    + apply answers_tryCatch. intros e. apply answers_ret.
  - intros id. split.
    + unfold getBookingById, prisma.booking_findUnique.
      apply readOnly_tryCatch; [|intros e; apply readOnly_ret].
      destruct user as [u|]; [|apply readOnly_ret].
      destruct (negb (truthy (au_role u))); [apply readOnly_ret|].
      apply readOnly_bind;
        [apply readOnly_query; [intros ?; reflexivity|reflexivity]|].
      intros [b|]; [|apply readOnly_ret].
      destruct (lacksPermission u b); [apply readOnly_ret|].
      apply readOnly_bind; [apply lookupLocation_readOnly|]. intros loc.
      apply readOnly_bind.
      { unfold orNullOnError. apply readOnly_tryCatch;
          [apply lookupSalesPerson_readOnly|intros e; apply readOnly_ret]. }
      intros sp. apply readOnly_ret.
    + apply answers_tryCatch. intros e. apply answers_ret.
Qed.

Lemma reads_never_write_witness :
  exists evs,
    trace (snd (getBookings (Some adminUser) (plainQuery None None)
                  {| db := sevenBooked; trace := [];
                     pending := [rivalTakesOne] |}))
    = [] ++ evs
    /\ List.filter isWrite evs = [].
Proof.
  apply (proj1 (proj1 (reads_never_write (Some adminUser))
                  (plainQuery None None))).
Defined.

(** ** [updateBooking]: who may write, and what *)

Lemma updateTail_readOnly (updatedBooking : Booking.t) :
  readOnly
    (await loc :=
       (if truthy (Booking.locationId updatedBooking) then
          await l := prisma.location_findUnique
                       (default "" (Booking.locationId updatedBooking)) in
          ret (option_map locationNameView l)
        else ret None) in
     await sp := lookupSalesPerson updatedBooking in
     ret (successResponse
            {| row := updatedBooking; location := loc; salesPerson := sp |}
            "Booking updated successfully" 200)).
Proof.
  apply readOnly_bind.
  - destruct (truthy (Booking.locationId updatedBooking));
      [|apply readOnly_ret].
    unfold prisma.location_findUnique. read_only.
  - intros loc. apply readOnly_bind; [apply lookupSalesPerson_readOnly|].
    intros sp. apply readOnly_ret.
Qed.

Lemma updateTail_answer (updatedBooking : Booking.t) (w : World) :
  (exists view,
     fst ((await loc :=
             (if truthy (Booking.locationId updatedBooking) then
                await l := prisma.location_findUnique
                             (default "" (Booking.locationId updatedBooking)) in
                ret (option_map locationNameView l)
              else ret None) in
           await sp := lookupSalesPerson updatedBooking in
           ret (successResponse
                  {| row := updatedBooking; location := loc;
                     salesPerson := sp |}
                  "Booking updated successfully" 200)) w)
     = Val (successResponse view "Booking updated successfully" 200)
     /\ row view = updatedBooking).
Proof.
  unfold lookupSalesPerson, prisma.location_findUnique, prisma.user_findUnique.
  destruct (truthy (Booking.locationId updatedBooking));
    destruct (negb (String.eqb (Booking.salesPersonId updatedBooking) ""));
    cbn; eexists; split; reflexivity.
Qed.

(** X6.  Whatever other requests write in between, [updateBooking]
    always answers, and it issues a write only when the request passed
    validation and its own read found a booking that the caller may
    access; the write is then the single update of that booking with the
    data built from the body.  A 400, 403 or 404 answer comes with no
    write at all. *)
Theorem update_needs_permission (id : string) (req : UpdateRequest)
    (w : World) :
  exists r evs,
    fst (updateBooking id req w) = Val r
    /\ trace (snd (updateBooking id req w)) = trace w ++ evs
    /\ (List.filter isWrite evs = []
        \/ List.filter isWrite evs = [BookingUpdate id (updateData req)]
           /\ ur_validationErrors req = []
           /\ exists b, findBooking id (db (interleave w)) = Some b
                        /\ mayAccess (ur_user req) b)
    /\ (statusCodeOf r = 200 ->
        List.filter isWrite evs = [BookingUpdate id (updateData req)])
    /\ (statusCodeOf r = 400 \/ statusCodeOf r = 403 \/ statusCodeOf r = 404 ->
        List.filter isWrite evs = []).
Proof.
  unfold updateBooking, tryCatch.
  destruct (ur_validationErrors req) as [|msg rest] eqn:Hval.
  2:{ eexists _, []. cbn. rewrite app_nil_r.
      repeat split; auto; discriminate. }
  unfold prisma.booking_findUnique. rewrite bind_query.
  destruct (findBooking id (db (interleave w))) as [b|] eqn:Hb.
  2:{ eexists _, [BookingFindUnique id]. cbn. rewrite trace_interleave.
      repeat split; auto; discriminate. }
  destruct (lacksPermission (ur_user req) b) eqn:Hperm.
  { eexists _, [BookingFindUnique id]. cbn. rewrite trace_interleave.
    repeat split; auto; discriminate. }
  destruct (truthy (ur_phoneNumber req)
            && negb (elevenDigits (default "" (ur_phoneNumber req)))).
  { eexists _, [BookingFindUnique id]. cbn. rewrite trace_interleave.
    repeat split; auto; discriminate. }
  destruct (truthy (flatten (ur_emergencyPhoneNumber req))
            && negb (elevenDigits
                       (default "" (flatten (ur_emergencyPhoneNumber req))))).
  { eexists _, [BookingFindUnique id]. cbn. rewrite trace_interleave.
    repeat split; auto; discriminate. }
  unfold prisma.booking_update. rewrite bind_command.
  set (w1 := record (BookingFindUnique id) (interleave w)).
  assert (Hmay : exists b0, Some b = Some b0 /\ mayAccess (ur_user req) b0).
  { exists b. split; [reflexivity|]. now apply lacksPermission_mayAccess. }
  destruct (updateRow id (updateData req) (db (interleave w1)))
    as [e|[ub s']].
  - eexists _, [BookingFindUnique id; BookingUpdate id (updateData req)].
    cbn. rewrite !trace_interleave. cbn. rewrite trace_interleave, <- app_assoc.
    cbn. split; [reflexivity|]. split; [reflexivity|]. split.
    { right. repeat split; auto. }
    split; [discriminate|]. intros [H|[H|H]]; discriminate H.
  - set (w2 := {| db := s'; trace := trace w1 ++ [BookingUpdate id (updateData req)];
                  pending := pending (interleave w1) |}).
    destruct (updateTail_readOnly ub w2) as (evs & Ht & Hw).
    destruct (updateTail_answer ub w2) as (view & Hview & _).
    destruct ((await loc :=
                 (if truthy (Booking.locationId ub) then
                    await l := prisma.location_findUnique
                                 (default "" (Booking.locationId ub)) in
                    ret (option_map locationNameView l)
                  else ret None) in
               await sp := lookupSalesPerson ub in
               ret (successResponse
                      {| row := ub; location := loc; salesPerson := sp |}
                      "Booking updated successfully" 200)) w2)
      as [[r|e] w3] eqn:Hrun; cbn [fst snd] in *; [|discriminate].
    exists r, ([BookingFindUnique id; BookingUpdate id (updateData req)] ++ evs).
    split; [reflexivity|]. split.
    { rewrite Ht. unfold w2, w1. cbn. rewrite trace_interleave.
      now rewrite <- !app_assoc. }
    rewrite List.filter_app, Hw. cbn. split.
    { right. repeat split; auto. }
    split; [reflexivity|]. injection Hview as ->.
    intros [H|[H|H]]; discriminate H.
Qed.

Lemma update_needs_permission_witness :
  exists r evs,
    fst (updateBooking "r4" (setStatusBooked salesAnn) (quiet sevenBooked))
    = Val r
    /\ statusCodeOf r = 403
    /\ List.filter isWrite evs = [].
Proof.
  destruct (update_needs_permission "r4" (setStatusBooked salesAnn)
              (quiet sevenBooked))
    as (r & evs & Hr & _ & _ & _ & Hnone).
  exists r, evs. split; [exact Hr|].
  assert (Hcode : statusCodeOf r = 403).
  { vm_compute in Hr. injection Hr as <-. reflexivity. }
  split; [exact Hcode|]. apply Hnone. right. left. exact Hcode.
Defined.

Lemma updateBooking_success (id : string) (req : UpdateRequest) (s : Store)
    (t : list Event) (view : BookingWithDetails) (msg : string) (code : Z)
    (w' : World) :
  updateBooking id req (mkWorld s t [])
  = (Val (successResponse view msg code), w') ->
  exists b,
    findBooking id s = Some b
    /\ lacksPermission (ur_user req) b = false
    /\ updateRow id (updateData req) s = inr (row view, db w')
    /\ code = 200.
Proof.
  unfold updateBooking, tryCatch.
  destruct (ur_validationErrors req) as [|m rest]; [|discriminate].
  unfold prisma.booking_findUnique. rewrite bind_query.
  cbn [interleave pending db]. rewrite record_mk.
  destruct (findBooking id s) as [b|] eqn:Hb; [|discriminate].
  destruct (lacksPermission (ur_user req) b) eqn:Hperm; [discriminate|].
  destruct (truthy (ur_phoneNumber req)
            && negb (elevenDigits (default "" (ur_phoneNumber req))));
    [discriminate|].
  destruct (truthy (flatten (ur_emergencyPhoneNumber req))
            && negb (elevenDigits
                       (default "" (flatten (ur_emergencyPhoneNumber req)))));
    [discriminate|].
  unfold prisma.booking_update. rewrite bind_command.
  cbn [interleave pending db trace].
  destruct (updateRow id (updateData req) s) as [e|[ub s']]; [discriminate|].
  unfold lookupSalesPerson, prisma.location_findUnique, prisma.user_findUnique.
  destruct (truthy (Booking.locationId ub));
    destruct (negb (String.eqb (Booking.salesPersonId ub) ""));
    cbn; intros [= <- <- <- <-]; exists b; auto.
Qed.

(** X7.  A successful [updateBooking], served without concurrent
    writes, changes the one booking it names and only through the fields
    of the request: the identifier, the owning sales person, the studio
    number, the signature path and the consent flag of that booking stay
    as they were, every other booking, the locations and the users are
    untouched, and the answer carries the row as stored. *)
Theorem update_keeps_owner_and_number (id : string) (req : UpdateRequest)
    (s : Store) (t : list Event) (view : BookingWithDetails) (msg : string)
    (code : Z) (w' : World) :
  uniqueIds s ->
  updateBooking id req (mkWorld s t [])
  = (Val (successResponse view msg code), w') ->
  exists b,
    findBooking id s = Some b
    /\ mayAccess (ur_user req) b
    /\ findBooking id (db w') = Some (row view)
    /\ Booking.id (row view) = id
    /\ Booking.salesPersonId (row view) = Booking.salesPersonId b
    /\ Booking.studioNumber (row view) = Booking.studioNumber b
    /\ Booking.signaturePath (row view) = Booking.signaturePath b
    /\ Booking.consentFormSigned (row view) = Booking.consentFormSigned b
    /\ (forall id', id' <> id -> findBooking id' (db w') = findBooking id' s)
    /\ locations (db w') = locations s
    /\ users (db w') = users s.
Proof.
  intros Hids Hrun.
  destruct (updateBooking_success id req s t view msg code w' Hrun)
    as (b & Hb & Hperm & Hupd & _).
  exists b. split; [exact Hb|].
  split; [now apply lacksPermission_mayAccess|].
  split; [exact (updateRow_stored id _ s (db w') (row view) Hupd)|].
  destruct (findBooking_id id s b Hb) as [Hid _].
  assert (Happ : applyUpdate (updateData req) b = Some (row view)
                 /\ db w' = withBookings (replaceRow (row view) (bookings s)) s).
  { unfold updateRow in Hupd. rewrite Hb in Hupd.
    destruct (applyUpdate (updateData req) b) as [b'|]; [|discriminate].
    destruct (breaksUnique b' (bookings s)); [discriminate|].
    injection Hupd as <- <-. now split. }
  destruct Happ as [Happ Hdb].
  pose proof (applyUpdate_id _ _ _ Happ) as Hid'.
  split; [congruence|].
  assert (Hfields :
    Booking.salesPersonId (row view) = Booking.salesPersonId b
    /\ Booking.studioNumber (row view) = Booking.studioNumber b
    /\ Booking.signaturePath (row view) = Booking.signaturePath b
    /\ Booking.consentFormSigned (row view) = Booking.consentFormSigned b).
  { split; [|split; [now apply (applyUpdate_number (updateData req))|]].
    - unfold applyUpdate in Happ.
      destruct (match u_status (updateData req) with
                | Some n => statusOfName n | None => Some (Booking.status b)
                end); [|discriminate].
      destruct (match u_paymentMethod (updateData req) with
                | Some n => paymentOfName n
                | None => Some (Booking.paymentMethod b)
                end); [|discriminate].
      cbn in Happ. injection Happ as <-. reflexivity.
    - unfold applyUpdate in Happ.
      destruct (match u_status (updateData req) with
                | Some n => statusOfName n | None => Some (Booking.status b)
                end); [|discriminate].
      destruct (match u_paymentMethod (updateData req) with
                | Some n => paymentOfName n
                | None => Some (Booking.paymentMethod b)
                end); [|discriminate].
      cbn in Happ. injection Happ as <-. split; reflexivity. }
  destruct Hfields as (H1 & H2 & H3 & H4).
  repeat (split; [assumption|]).
  rewrite Hdb. split; [|split; reflexivity].
  intros id' Hne. apply findBooking_replaceRow_other. congruence.
Qed.

Lemma update_keeps_owner_and_number_witness :
  exists view w',
    updateBooking "1" (setStatusBooked adminUser)
                  (mkWorld (sampleStore [1; 2; 3]) [] [])
    = (Val (successResponse view "Booking updated successfully" 200), w')
    /\ Booking.status (row view) = BOOKED
    /\ Booking.studioNumber (row view) = Some 2
    /\ Booking.salesPersonId (row view) = "sp1".
Proof.
  eexists _, _. split; [reflexivity|].
  edestruct (update_keeps_owner_and_number "1" (setStatusBooked adminUser)
               (sampleStore [1; 2; 3]) [])
    as (b & Hb & _ & _ & _ & Hsp & Hnum & _).
  - vm_compute. repeat constructor; rewrite ?elem_of_cons, ?elem_of_nil;
      intuition discriminate.
  - reflexivity.
  - injection Hb as <-. split; [reflexivity|]. split; [exact Hnum|exact Hsp].
Defined.

(** ** No empty strings in the table *)

Lemma strip_eleven_not_empty (phone : string) :
  elevenDigits phone = true -> stripNonDigits phone <> "".
Proof.
  unfold elevenDigits. intros H Hempty. rewrite Hempty in H. discriminate H.
Qed.

Lemma whenTruthy_strip_not_empty (v : option string) :
  truthy v && negb (elevenDigits (default "" v)) = false ->
  whenTruthy stripNonDigits v <> Some "".
Proof.
  unfold whenTruthy. destruct (truthy v) eqn:Hv; [|discriminate].
  destruct v as [x|]; [|discriminate]. cbn.
  intros Hd [= He]. apply negb_false_iff in Hd.
  now apply (strip_eleven_not_empty x).
Qed.

Lemma definedOrNull_not_empty (v : BodyField) (old : option string) :
  old <> Some "" -> setField (definedOrNull v) old <> Some "".
Proof.
  intros Hold. destruct v as [o|]; cbn; [apply orNull_not_empty|exact Hold].
Qed.

Lemma applyUpdate_text (req : UpdateRequest) (b b' : Booking.t) :
  truthy (flatten (ur_emergencyPhoneNumber req))
  && negb (elevenDigits (default "" (flatten (ur_emergencyPhoneNumber req))))
  = false ->
  applyUpdate (updateData req) b = Some b' ->
  noEmptyText b -> noEmptyText b'.
Proof.
  intros Hem Happ Hb. unfold applyUpdate in Happ.
  destruct (match u_status (updateData req) with
            | Some n => statusOfName n | None => Some (Booking.status b)
            end); [|discriminate].
  destruct (match u_paymentMethod (updateData req) with
            | Some n => paymentOfName n
            | None => Some (Booking.paymentMethod b)
            end); [|discriminate].
  cbn in Happ. injection Happ as <-.
  unfold noEmptyText, textColumns in *. cbn.
  rewrite !Forall_cons in Hb.
  destruct Hb as (H1 & H2 & H3 & H4 & H5 & H6 & H7 & H8 & H9 & H10 & H11
                  & H12 & _).
  repeat constructor; try (now apply definedOrNull_not_empty); try assumption.
  destruct (ur_emergencyPhoneNumber req) as [o|]; cbn in *; [|exact H1].
  now apply whenTruthy_strip_not_empty.
Qed.

Lemma rowOfCreate_text (newId : string) (req : CreateRequest) (b : Booking.t) :
  truthy (cr_emergencyPhoneNumber req)
  && negb (elevenDigits (default "" (cr_emergencyPhoneNumber req))) = false ->
  rowOfCreate newId (createData req) = Some b -> noEmptyText b.
Proof.
  intros Hem Hrow. unfold rowOfCreate in Hrow.
  destruct (statusOfName (c_status (createData req))); [|discriminate].
  destruct (paymentOfName (c_paymentMethod (createData req))); [|discriminate].
  cbn -[columnOfJs jsOrNull] in Hrow.
  destruct (columnOfJs (jsOrNull (cr_sessionDate req))) as [sd|] eqn:Hsd;
    [|discriminate].
  destruct (columnOfJs (jsOrNull (cr_sessionTime req))) as [st|] eqn:Hst;
    [|discriminate].
  destruct (columnOfJs (jsOrNull (cr_specialRequestDate req))) as [rd|] eqn:Hrd;
    [|discriminate].
  destruct (columnOfJs (jsOrNull (cr_specialRequestTime req))) as [rt|] eqn:Hrt;
    [|discriminate].
  cbn in Hrow. injection Hrow as <-.
  unfold noEmptyText, textColumns. cbn.
  repeat constructor; try discriminate; try apply orNull_not_empty.
  - apply (whenTruthy_strip_not_empty (cr_emergencyPhoneNumber req) Hem).
  - intros ->. now apply (jsOrNull_not_empty (cr_sessionDate req)).
  - intros ->. now apply (jsOrNull_not_empty (cr_sessionTime req)).
  - intros ->. now apply (jsOrNull_not_empty (cr_specialRequestDate req)).
  - intros ->. now apply (jsOrNull_not_empty (cr_specialRequestTime req)).
Qed.

Lemma createBooking_text (newId : string) (req : CreateRequest) (s : Store)
    (t : list Event) :
  Forall noEmptyText (bookings s) ->
  Forall noEmptyText
         (bookings (db (snd (createBooking newId req (mkWorld s t []))))).
Proof.
  intros Hs. unfold createBooking, tryCatch.
  destruct (cr_validationErrors req); [|exact Hs].
  destruct (negb (elevenDigits (cr_phoneNumber req))); [exact Hs|].
  destruct (truthy (cr_emergencyPhoneNumber req)
            && negb (elevenDigits (default "" (cr_emergencyPhoneNumber req))))
    eqn:Hem; [exact Hs|].
  destruct (negb (String.eqb (bookingStatus (cr_status req)) "TBC")
            && negb (hasSlot (cr_sessionDate req) (cr_sessionTime req))
            && negb (hasSlot (cr_specialRequestDate req)
                             (cr_specialRequestTime req))); [exact Hs|].
  unfold prisma.booking_create. rewrite bind_command.
  cbn [interleave pending db]. unfold createRow.
  destruct (rowOfCreate newId (createData req)) as [b|] eqn:Hrow;
    [|exact Hs].
  destruct (isSome (findBooking newId s)); [exact Hs|].
  cbn. apply Forall_app. split; [exact Hs|].
  constructor; [|constructor]. now apply (rowOfCreate_text newId req).
Qed.

Lemma updateBooking_text (id : string) (req : UpdateRequest) (s : Store)
    (t : list Event) :
  Forall noEmptyText (bookings s) ->
  Forall noEmptyText
         (bookings (db (snd (updateBooking id req (mkWorld s t []))))).
Proof.
  intros Hs. unfold updateBooking, tryCatch.
  destruct (ur_validationErrors req); [|exact Hs].
  unfold prisma.booking_findUnique. rewrite bind_query.
  cbn [interleave pending db]. rewrite record_mk.
  destruct (findBooking id s) as [b|] eqn:Hb; [|exact Hs].
  destruct (lacksPermission (ur_user req) b); [exact Hs|].
  destruct (truthy (ur_phoneNumber req)
            && negb (elevenDigits (default "" (ur_phoneNumber req))));
    [exact Hs|].
  destruct (truthy (flatten (ur_emergencyPhoneNumber req))
            && negb (elevenDigits
                       (default "" (flatten (ur_emergencyPhoneNumber req)))))
    eqn:Hem; [exact Hs|].
  unfold prisma.booking_update. rewrite bind_command.
  cbn [interleave pending db trace]. unfold updateRow. rewrite Hb.
  destruct (applyUpdate (updateData req) b) as [b'|] eqn:Happ; [|exact Hs].
  destruct (breaksUnique b' (bookings s)); [exact Hs|].
  assert (Hrows : Forall noEmptyText (replaceRow b' (bookings s))).
  { apply replaceRow_Forall; [exact Hs|].
    apply (applyUpdate_text req b b' Hem Happ).
    destruct (findBooking_id id s b Hb) as [_ Hin].
    rewrite Forall_forall in Hs. now apply Hs. }
  unfold lookupSalesPerson, prisma.location_findUnique, prisma.user_findUnique.
  destruct (truthy (Booking.locationId b'));
    destruct (negb (String.eqb (Booking.salesPersonId b') ""));
    cbn; exact Hrows.
Qed.

Lemma allocate_text (id : string) (s : Store) (t : list Event) :
  wellFormed s -> Forall noEmptyText (bookings s) ->
  Forall noEmptyText
         (bookings (db (snd (allocateStudioNumber id (mkWorld s t []))))).
Proof.
  intros Hwf Hs.
  destruct (allocate_store id s t Hwf) as [->|(b' & n & _ & _ & Hupd)];
    [exact Hs|].
  unfold updateRow in Hupd.
  destruct (findBooking id s) as [b|] eqn:Hb; [|discriminate].
  rewrite applyUpdate_allocation in Hupd.
  destruct (breaksUnique (allocatedRow b n) (bookings s)); [discriminate|].
  injection Hupd as <- <-. cbn. apply replaceRow_Forall; [exact Hs|].
  destruct (findBooking_id id s b Hb) as [_ Hin].
  rewrite Forall_forall in Hs. exact (Hs b Hin).
Qed.

(** X8.  No write stores an empty string in a nullable text column.
    If every row of the table has [null] or a non-empty string in its
    optional text columns, this is still so after [createBooking],
    [updateBooking], [allocateStudioNumber] and [deleteBooking], each
    served without concurrent writes and whatever the request: an empty
    or missing value of the body is stored as [null]. *)
Theorem writes_store_null_for_empty (s : Store) (t : list Event) :
  wellFormed s -> Forall noEmptyText (bookings s) ->
  (forall newId req,
      Forall noEmptyText
        (bookings (db (snd (createBooking newId req (mkWorld s t []))))))
  /\ (forall id req,
        Forall noEmptyText
          (bookings (db (snd (updateBooking id req (mkWorld s t []))))))
  /\ (forall id,
        Forall noEmptyText
          (bookings (db (snd (allocateStudioNumber id (mkWorld s t []))))))
  /\ (forall id u,
        Forall noEmptyText
          (bookings (db (snd (deleteBooking id u (mkWorld s t [])))))).
Proof.
  intros Hwf Hs.
  split; [intros newId req; now apply createBooking_text|].
  split; [intros id req; now apply updateBooking_text|].
  split; [intros id; now apply allocate_text|].
  intros id u. unfold deleteBooking, tryCatch, prisma.booking_findUnique.
  rewrite bind_query. cbn [interleave pending db]. rewrite record_mk.
  destruct (findBooking id s) as [b|] eqn:Hb; [|exact Hs].
  destruct (lacksPermission u b); [exact Hs|].
  unfold prisma.booking_delete. rewrite bind_command.
  cbn [interleave pending db]. unfold deleteRow. rewrite Hb. cbn.
  rewrite Forall_forall in Hs |- *. intros r Hr.
  apply list_elem_of_filter in Hr as [_ Hr]. now apply Hs.
Qed.

Lemma sampleStore_text : Forall noEmptyText (bookings (sampleStore [1; 2; 3])).
Proof. unfold noEmptyText. cbn. repeat constructor; discriminate. Qed.

Lemma writes_store_null_for_empty_witness :
  Forall noEmptyText
    (bookings (db (snd (createBooking "b9"
                          (sampleCreate "0712-345 6789" None
                             (JsString "2024-01-02") (JsString "09:00"))
                          (mkWorld (sampleStore [1; 2; 3]) [] []))))).
Proof.
  apply (proj1 (writes_store_null_for_empty (sampleStore [1; 2; 3]) []
                  sampleStore_wellFormed sampleStore_text)).
Defined.

(** ** Paging through the list *)

Lemma chunks_cover {A} (l : list A) (size : nat) (n : nat) :
  concat (map (fun i => take size (drop (i * size) l)) (seq 0 n))
  = take (n * size) l.
Proof.
  induction n as [|n IH]; [reflexivity|].
  rewrite seq_S, map_app, concat_app, IH. cbn [map concat Nat.add].
  rewrite app_nil_r, take_take_drop. f_equal. lia.
Qed.

(** X9.  Paging loses and repeats nothing.  For a page size of at
    least 1, an authenticated caller and a store that does not change, the
    pages 1, 2, ..., [totalPages] of [getBookings] put one after the other
    are the whole filtered set in sorted order; every page has at most
    [limit] rows and a page after the last one is empty. *)
Theorem pages_partition_the_list (u : AuthUser) (q : ListQuery) (s : Store)
    (limit : Z) :
  uniqueIds s -> truthy (au_role u) = true ->
  whereValid (listWhere u q) = true -> 1 <= limit ->
  concat (map (pageOf u q s limit)
              (seqZ 1 (ceilDiv (Z.of_nat (length (selectWhere (listWhere u q) s)))
                               limit)))
  = sortedRows u q s
  /\ (forall p, 1 <= p ->
        (length (pageOf u q s limit p) <= Z.to_nat limit)%nat)
  /\ (forall p,
        ceilDiv (Z.of_nat (length (selectWhere (listWhere u q) s))) limit < p ->
        pageOf u q s limit p = []).
Proof.
  intros Hids Hrole Hvalid Hlimit.
  set (total := Z.of_nat (length (selectWhere (listWhere u q) s))).
  assert (Hlen : Z.of_nat (length (sortedRows u q s)) = total).
  { unfold total, sortedRows. now rewrite sortBookings_permutation. }
  destruct (ceilDiv_bounds total limit) as [Hlo Hhi]; [lia|].
  assert (Hpages : 0 <= ceilDiv total limit).
  { unfold total in *. nia. }
  split; [|split].
  - unfold seqZ. rewrite map_fmap, <- list_fmap_compose, <- map_fmap.
    rewrite (map_ext_in _ (fun i => take (Z.to_nat limit)
                                     (drop (i * Z.to_nat limit)
                                           (sortedRows u q s)))).
    + rewrite chunks_cover. apply take_ge. nia.
    + intros i _. unfold compose.
      rewrite pageOf_window by (auto; lia). do 2 f_equal. nia.
  - intros p Hp. rewrite pageOf_window by auto.
    rewrite length_take. lia.
  - intros p Hp. rewrite pageOf_window by (auto; lia).
    rewrite drop_ge; [apply take_nil|]. nia.
Qed.

Lemma pages_partition_the_list_witness :
  map Booking.id
      (concat (map (pageOf adminUser (plainQuery None None) fiveBooked 2)
                   [1; 2; 3]))
  = ["r1"; "r2"; "r3"; "r4"; "r5"]
  /\ pageOf adminUser (plainQuery None None) fiveBooked 2 4 = [].
Proof.
  destruct (pages_partition_the_list adminUser (plainQuery None None)
              fiveBooked 2) as (Hall & _ & Hpast).
  - vm_compute. repeat constructor; rewrite ?elem_of_cons, ?elem_of_nil;
      intuition discriminate.
  - reflexivity.
  - reflexivity.
  - lia.
  - split.
    + change (seqZ 1 _) with [1; 2; 3] in Hall. rewrite Hall. reflexivity.
    + apply Hpast. vm_compute. reflexivity.
Defined.

(** ** Reading one booking *)

Lemma getBookingById_allowed (id : string) (u : AuthUser) (s : Store)
    (t : list Event) (b : Booking.t) :
  truthy (au_role u) = true -> findBooking id s = Some b ->
  lacksPermission u b = false ->
  fst (getBookingById id (Some u) (mkWorld s t []))
  = Val (successResponse (detailsIn s b) "Booking retrieved successfully" 200).
Proof.
  intros Hrole Hb Hperm. unfold getBookingById, tryCatch. rewrite Hrole.
  cbn [negb]. unfold prisma.booking_findUnique. rewrite bind_query.
  cbn [interleave pending db]. rewrite Hb, Hperm, record_mk.
  set (w1 := mkWorld s (t ++ [BookingFindUnique id]) []).
  destruct (lookupLocation_sequential b w1 eq_refl) as (w2 & Hloc & Hdb2 & Hseq2).
  unfold bind at 1. rewrite Hloc.
  destruct (lookupSalesPerson_sequential b w2 Hseq2) as (w3 & Hsp & Hdb3 & _).
  unfold bind at 1, orNullOnError, tryCatch. rewrite Hsp. cbn.
  rewrite Hdb2. reflexivity.
Qed.

(** X10.  A booking is shown to its sales person and to the roles
    ADMIN, CUSTOMER_SERVICE, STUDIO and SALES, and to nobody else.
    Whatever other requests write in between, a successful answer of
    [getBookingById] carries the booking of the requested identifier as
    the call read it, and the caller may access that booking.  Without
    concurrent writes a caller who may access an existing booking gets it
    with its location and sales person resolved, any other authenticated
    caller gets 403, and a missing booking gives 404. *)
Theorem read_needs_permission (id : string) (user : option AuthUser) :
  (forall w view msg code,
      fst (getBookingById id user w) = Val (successResponse view msg code) ->
      exists u, user = Some u /\ truthy (au_role u) = true
                /\ findBooking id (db (interleave w)) = Some (row view)
                /\ Booking.id (row view) = id
                /\ mayAccess u (row view) /\ code = 200)
  /\ (forall u s t, user = Some u -> truthy (au_role u) = true ->
        (findBooking id s = None ->
           fst (getBookingById id user (mkWorld s t []))
           = Val (errorResponse "Booking not found" 404))
        /\ (forall b, findBooking id s = Some b ->
              (mayAccess u b ->
                 fst (getBookingById id user (mkWorld s t []))
                 = Val (successResponse (detailsIn s b)
                          "Booking retrieved successfully" 200))
              /\ (~ mayAccess u b ->
                    fst (getBookingById id user (mkWorld s t []))
                    = Val (errorResponse
                             "You do not have permission to view this booking"
                             403)))).
Proof.
  split.
  - intros w view msg code. unfold getBookingById, tryCatch.
    destruct user as [u|]; [|discriminate].
    destruct (truthy (au_role u)) eqn:Hrole; [|discriminate]. cbn [negb].
    unfold prisma.booking_findUnique. rewrite bind_query.
    destruct (findBooking id (db (interleave w))) as [b|] eqn:Hb;
      [|discriminate].
    destruct (lacksPermission u b) eqn:Hperm; [discriminate|].
    unfold bind.
    destruct (lookupLocation b _) as [[loc|e] w2]; [|discriminate].
    unfold orNullOnError, tryCatch.
    destruct (lookupSalesPerson b w2) as [[sp|e] w3];
      cbn; intros [= <- <- <-]; exists u; cbn;
      (split; [reflexivity|]); (split; [exact Hrole|]);
      (split; [reflexivity|]);
      (split; [exact (proj1 (findBooking_id _ _ _ Hb))|]);
      (split; [now apply lacksPermission_mayAccess|reflexivity]).
  - intros u s t -> Hrole. split.
    + intros Hnone. unfold getBookingById, tryCatch. rewrite Hrole.
      cbn [negb]. unfold prisma.booking_findUnique. rewrite bind_query.
      cbn [interleave pending db]. now rewrite Hnone.
    + intros b Hb. split.
      * intros Hmay. apply getBookingById_allowed; auto.
        now apply lacksPermission_mayAccess.
      * intros Hno. apply lacksPermission_refused in Hno.
        unfold getBookingById, tryCatch. rewrite Hrole.
        cbn [negb]. unfold prisma.booking_findUnique. rewrite bind_query.
        cbn [interleave pending db]. now rewrite Hb, Hno.
Qed.

Lemma read_needs_permission_witness :
  fst (getBookingById "r4" (Some salesAnn) (mkWorld sevenBooked [] []))
  = Val (errorResponse "You do not have permission to view this booking" 403)
  /\ exists view,
       fst (getBookingById "r4" (Some adminUser) (mkWorld sevenBooked [] []))
       = Val (successResponse view "Booking retrieved successfully" 200)
       /\ Booking.salesPersonId (row view) = "sp2".
Proof.
  split.
  - destruct (read_needs_permission "r4" (Some salesAnn)) as [_ H].
    destruct (H salesAnn sevenBooked [] eq_refl eq_refl) as [_ Hfound].
    destruct (Hfound (listed "r4" "sp2" BOOKED (Some "2024-01-04") (Some "09:00"))
                eq_refl) as [_ Hrefused].
    apply Hrefused. unfold mayAccess. cbn. intuition discriminate.
  - destruct (read_needs_permission "r4" (Some adminUser)) as [_ H].
    destruct (H adminUser sevenBooked [] eq_refl eq_refl) as [_ Hfound].
    destruct (Hfound (listed "r4" "sp2" BOOKED (Some "2024-01-04") (Some "09:00"))
                eq_refl) as [Hallowed _].
    eexists. split; [apply Hallowed; now left|reflexivity].
Defined.

(** ** What [createBooking] stores *)

Lemma createBooking_inv (newId : string) (req : CreateRequest) (w w' : World)
    (booking : Booking.t) (msg : string) (code : Z) :
  createBooking newId req w = (Val (successResponse booking msg code), w') ->
  createRow newId (createData req) (db (interleave w)) = inr (booking, db w')
  /\ code = 201.
Proof.
  unfold createBooking, tryCatch.
  destruct (cr_validationErrors req); [|discriminate].
  destruct (negb (elevenDigits (cr_phoneNumber req))); [discriminate|].
  destruct (truthy (cr_emergencyPhoneNumber req)
            && negb (elevenDigits (default "" (cr_emergencyPhoneNumber req))));
    [discriminate|].
  destruct (negb (String.eqb (bookingStatus (cr_status req)) "TBC")
            && negb (hasSlot (cr_sessionDate req) (cr_sessionTime req))
            && negb (hasSlot (cr_specialRequestDate req)
                             (cr_specialRequestTime req))); [discriminate|].
  unfold prisma.booking_create. rewrite bind_command.
  destruct (createRow newId (createData req) (db (interleave w)))
    as [e|[b s']]; [discriminate|].
  cbn. intros [= <- <- <- <-]. now split.
Qed.

Lemma bookingStatus_creatable (status : option string) :
  bookingStatus status ∈ creatableStatuses.
Proof.
  unfold bookingStatus.
  destruct (truthy status
            && existsb (String.eqb (toUpperCase (default "" status)))
                       creatableStatuses) eqn:H.
  - apply andb_true_iff in H as [_ H]. apply existsb_exists in H as (x & Hx & He).
    apply String.eqb_eq in He. rewrite He. now apply list_elem_of_In.
  - left.
Qed.

(** X11.  A booking that [createBooking] stores is new, belongs to the
    caller and is neither numbered nor signed: it has the identifier the
    store generated, which no row had, the caller's id as sales person, no
    studio number, no signature and no collection slot; its status is one
    of the six statuses a request may name, BOOKED when the request names
    none.  The row is appended to the table, and the creator reads back
    exactly this row with [getBookingById]. *)
Theorem create_then_read (newId : string) (req : CreateRequest) (w w' : World)
    (booking : Booking.t) (msg : string) (code : Z) :
  createBooking newId req w = (Val (successResponse booking msg code), w') ->
  code = 201
  /\ Booking.id booking = newId
  /\ Booking.salesPersonId booking = au_id (cr_user req)
  /\ Booking.studioNumber booking = None
  /\ Booking.signaturePath booking = None
  /\ Booking.consentFormSigned booking = false
  /\ Booking.collectionDate booking = None
  /\ Booking.collectionTime booking = None
  /\ statusName (Booking.status booking) ∈ creatableStatuses
  /\ (truthy (cr_status req) = false -> Booking.status booking = BOOKED)
  /\ findBooking newId (db (interleave w)) = None
  /\ bookings (db w') = bookings (db (interleave w)) ++ [booking]
  /\ (truthy (au_role (cr_user req)) = true ->
      forall t,
        fst (getBookingById newId (Some (cr_user req)) (mkWorld (db w') t []))
        = Val (successResponse (detailsIn (db w') booking)
                 "Booking retrieved successfully" 200)).
Proof.
  intros Hrun. destruct (createBooking_inv _ _ _ _ _ _ _ Hrun) as [Hrow ->].
  destruct (createRow_stored _ _ _ _ _ Hrow) as (Hb & Hfresh & Hdb & Hfound).
  pose proof Hb as Hfields. unfold rowOfCreate in Hfields.
  destruct (statusOfName (c_status (createData req))) as [st|] eqn:Hst;
    [|discriminate].
  destruct (paymentOfName (c_paymentMethod (createData req))); [|discriminate].
  cbn -[columnOfJs jsOrNull] in Hfields.
  destruct (columnOfJs (jsOrNull (cr_sessionDate req))); [|discriminate].
  destruct (columnOfJs (jsOrNull (cr_sessionTime req))); [|discriminate].
  destruct (columnOfJs (jsOrNull (cr_specialRequestDate req))); [|discriminate].
  destruct (columnOfJs (jsOrNull (cr_specialRequestTime req))); [|discriminate].
  cbn in Hfields. injection Hfields as <-. cbn.
  assert (Hname : statusName st = bookingStatus (cr_status req)).
  { change (c_status (createData req)) with (bookingStatus (cr_status req))
      in Hst.
    unfold statusOfName in Hst. apply find_some in Hst as [_ Hst].
    now apply String.eqb_eq in Hst. }
  repeat (split; [reflexivity|]).
  split; [rewrite Hname; apply bookingStatus_creatable|].
  split.
  { intros Hnone. apply statusName_inj. rewrite Hname.
    unfold bookingStatus. now rewrite Hnone. }
  split; [exact Hfresh|]. split; [now rewrite Hdb|].
  intros Hrole t. apply getBookingById_allowed; auto.
  unfold lacksPermission. cbn. rewrite String.eqb_refl.
  now rewrite !andb_false_r.
Qed.

Lemma create_then_read_witness :
  exists booking w',
    createBooking "b2"
      (sampleCreate "0712-345 6789" None (JsString "2024-01-02")
                    (JsString "09:00"))
      (quiet emptyStore)
    = (Val (successResponse booking "Booking created successfully" 201), w')
    /\ Booking.status booking = BOOKED
    /\ Booking.salesPersonId booking = "sp1"
    /\ fst (getBookingById "b2" (Some salesAnn) (mkWorld (db w') [] []))
       = Val (successResponse (detailsIn (db w') booking)
                "Booking retrieved successfully" 200).
Proof.
  eexists _, _. split; [reflexivity|].
  edestruct (create_then_read "b2"
               (sampleCreate "0712-345 6789" None (JsString "2024-01-02")
                             (JsString "09:00"))
               (quiet emptyStore))
    as (_ & _ & Hsp & _ & _ & _ & _ & _ & _ & Hst & _ & _ & Hread);
    [reflexivity|].
  split; [apply Hst; reflexivity|]. split; [exact Hsp|].
  apply Hread. reflexivity.
Defined.

(** ** Dates and times as strings *)

Lemma readDigits_weight (pattern : list CharClass) :
  separatorsOnly pattern ->
  forall s x, matchesPattern pattern s = true ->
    readDigits s x = x * 10 ^ digitCount pattern + readDigits s 0
    /\ 0 <= readDigits s 0 < 10 ^ digitCount pattern.
Proof.
  intros Hsep. induction Hsep as [|cl pattern Hcl _ IH]; intros s x Hm.
  - destruct s; [|discriminate]. cbn. lia.
  - assert (Hcount : 0 <= digitCount pattern).
    { clear. induction pattern as [|[|l] p IHp]; cbn; lia. }
    destruct cl as [|l]; destruct s as [|c rest]; try discriminate;
      cbn [matchesPattern] in Hm; apply andb_true_iff in Hm as [Hc Hm];
      cbn [readDigits digitCount].
    + rewrite Hc.
      destruct (IH rest (x * 10 + (Z.of_N (N_of_ascii c) - 48)) Hm) as [-> _].
      destruct (IH rest (0 * 10 + (Z.of_N (N_of_ascii c) - 48)) Hm)
        as [-> Hb].
      rewrite Z.pow_add_r by lia. change (10 ^ 1) with 10.
      unfold is_digit in Hc. apply andb_true_iff in Hc as [H1 H2].
      apply N.leb_le in H1, H2.
      assert (0 < 10 ^ digitCount pattern) by (apply Z.pow_pos_nonneg; lia).
      split; nia.
    + apply Ascii.eqb_eq in Hc. subst c. rewrite Hcl. now apply IH.
Qed.

Lemma pattern_order (pattern : list CharClass) :
  separatorsOnly pattern ->
  forall a b, matchesPattern pattern a = true ->
    matchesPattern pattern b = true ->
    String.compare a b = Z.compare (numberOf a) (numberOf b).
Proof.
  intros Hsep. unfold numberOf.
  induction Hsep as [|cl pattern Hcl Hsep IH]; intros a b Ha Hb.
  - destruct a, b; try discriminate. reflexivity.
  - destruct cl as [|l]; destruct a as [|c a'], b as [|c' b'];
      try discriminate; cbn [matchesPattern] in Ha, Hb;
      apply andb_true_iff in Ha as [Hc Ha];
      apply andb_true_iff in Hb as [Hc' Hb];
      cbn [String.compare readDigits].
    + rewrite Hc, Hc'.
      destruct (readDigits_weight pattern Hsep a'
                  (0 * 10 + (Z.of_N (N_of_ascii c) - 48)) Ha) as [-> Hba].
      destruct (readDigits_weight pattern Hsep b'
                  (0 * 10 + (Z.of_N (N_of_ascii c') - 48)) Hb) as [-> Hbb].
      specialize (IH a' b' Ha Hb).
      unfold Ascii.compare.
      destruct (N.compare_spec (N_of_ascii c) (N_of_ascii c')) as [He|Hlt|Hgt].
      * rewrite IH, He. symmetry.
        destruct (Z.compare_spec (readDigits a' 0) (readDigits b' 0));
          [apply Z.compare_eq_iff|apply Z.compare_lt_iff
          |apply Z.compare_gt_iff]; lia.
      * symmetry. apply Z.compare_lt_iff. nia.
      * symmetry. apply Z.compare_gt_iff. nia.
    + apply Ascii.eqb_eq in Hc, Hc'. subst c c'. rewrite Hcl.
      unfold Ascii.compare. rewrite N.compare_refl. now apply IH.
Qed.

Lemma datePattern_separators : separatorsOnly datePattern.
Proof. repeat constructor. Qed.

Lemma timePattern_separators : separatorsOnly timePattern.
Proof. repeat constructor. Qed.

Lemma localeCompare_numbers (pattern : list CharClass) (a b : string) :
  separatorsOnly pattern ->
  matchesPattern pattern a = true -> matchesPattern pattern b = true ->
  (localeCompare a b < 0 <-> numberOf a < numberOf b)
  /\ (localeCompare a b = 0 <-> numberOf a = numberOf b)
  /\ (0 < localeCompare a b <-> numberOf b < numberOf a).
Proof.
  intros Hsep Ha Hb. unfold localeCompare.
  rewrite (collate_pattern pattern a b Ha Hb).
  rewrite (pattern_order pattern Hsep a b Ha Hb).
  destruct (Z.compare_spec (numberOf a) (numberOf b)); lia.
Qed.

(** X12.  On slots in the formats the routes accept, dates
    [YYYY-MM-DD] and times [HH:MM], the comparator of the list orders by
    the moment of the slot: comparing the strings gives the order of the
    numbers yyyymmddhhmm they write. *)
Theorem slots_sort_chronologically (dA tA dB tB : string) :
  isDateFormat dA = true -> isDateFormat dB = true ->
  isTimeFormat tA = true -> isTimeFormat tB = true ->
  (compareSlots (Some dA) (Some tA) (Some dB) (Some tB) < 0
   <-> moment dA tA < moment dB tB)
  /\ (compareSlots (Some dA) (Some tA) (Some dB) (Some tB) = 0
      <-> moment dA tA = moment dB tB)
  /\ (0 < compareSlots (Some dA) (Some tA) (Some dB) (Some tB)
      <-> moment dB tB < moment dA tA).
Proof.
  intros HdA HdB HtA HtB. unfold moment.
  destruct (localeCompare_numbers datePattern dA dB datePattern_separators
              HdA HdB) as (Hd1 & Hd2 & Hd3).
  destruct (localeCompare_numbers timePattern tA tB timePattern_separators
              HtA HtB) as (Ht1 & Ht2 & Ht3).
  destruct (readDigits_weight timePattern timePattern_separators tA 0 HtA)
    as [_ HbA].
  destruct (readDigits_weight timePattern timePattern_separators tB 0 HtB)
    as [_ HbB].
  change (10 ^ digitCount timePattern) with 10000 in HbA, HbB.
  fold (numberOf tA) in HbA. fold (numberOf tB) in HbB.
  assert (HneA : dA <> "") by (intros ->; discriminate HdA).
  assert (HneB : dB <> "") by (intros ->; discriminate HdB).
  assert (HntA : tA <> "") by (intros ->; discriminate HtA).
  assert (HntB : tB <> "") by (intros ->; discriminate HtB).
  destruct (String.eqb_spec dA dB) as [->|Hne].
  - rewrite (compareSlots_times dB (Some tA) (Some tB) HneB).
    unfold absentLast, truthy.
    apply String.eqb_neq in HntA, HntB. rewrite HntA, HntB. cbn.
    lia.
  - rewrite (compareSlots_dates dA dB (Some tA) (Some tB) HneA HneB Hne).
    assert (numberOf dA <> numberOf dB).
    { intros He. apply Hd2 in He. now apply localeCompare_zero in He. }
    lia.
Qed.

Lemma slots_sort_chronologically_witness :
  compareSlots (Some "2024-01-02") (Some "08:00")
               (Some "2024-01-02") (Some "09:00") < 0
  /\ moment "2024-01-02" "08:00" = 202401020800.
Proof.
  destruct (slots_sort_chronologically "2024-01-02" "08:00"
              "2024-01-02" "09:00") as (Hlt & _); try reflexivity.
  split; [apply Hlt|]; reflexivity.
Defined.

(** ** The consent signature *)

Lemma stored_row_keeps_unique (s : Store) (b b' : Booking.t) :
  wellFormed s -> b ∈ bookings s ->
  Booking.id b' = Booking.id b ->
  Booking.locationId b' = Booking.locationId b ->
  Booking.studioNumber b' = Booking.studioNumber b ->
  breaksUnique b' (bookings s) = false.
Proof.
  intros (Hids & Hnum & _) Hb Hid Hloc Hn. unfold breaksUnique.
  rewrite Hloc, Hn, Hid.
  destruct (Booking.locationId b) as [loc|] eqn:Hl; [|reflexivity].
  destruct (Booking.studioNumber b) as [n|] eqn:Hk; [|reflexivity].
  destruct (existsb (holdsNumber loc n (Booking.id b)) (bookings s)) eqn:Hex;
    [|reflexivity].
  exfalso. apply existsb_exists in Hex as (r & Hr & Hholds).
  apply list_elem_of_In in Hr.
  destruct (split_by_id (bookings s) b Hids Hb) as (l1 & l2 & Heq & Hother).
  specialize (Hnum loc). rewrite Heq, numbersAt_app, numbersAt_cons in Hnum.
  assert (Hc : contribution loc b = [n]).
  { unfold contribution, optStringEqb. now rewrite Hl, String.eqb_refl, Hk. }
  rewrite Hc in Hnum. apply NoDup_app in Hnum as (_ & Hn2 & Hn3).
  apply NoDup_cons in Hn3 as [Hn3 _].
  assert (Hne : Booking.id r <> Booking.id b).
  { unfold holdsNumber in Hholds. apply andb_true_iff in Hholds as [_ Hx].
    apply negb_true_iff in Hx. now apply String.eqb_neq in Hx. }
  rewrite Heq in Hr. apply elem_of_app in Hr as [Hr|Hr].
  - apply (Hn2 n); [|left].
    now apply (holder_in_numbers loc n (Booking.id b) l1 r).
  - apply elem_of_cons in Hr as [->|Hr]; [congruence|].
    apply Hn3. now apply (holder_in_numbers loc n (Booking.id b) l2 r).
Qed.

Lemma applyUpdate_signature (b : Booking.t) (p : string) :
  applyUpdate (signatureData p) b = Some (signedRow b p).
Proof. reflexivity. Qed.

Lemma ensureStorageDir_healthy (d : Disk) :
  signaturesDir d = true \/ mkdirError d = None ->
  exists d1, ensureStorageDir (signaturesPath d) d = inr d1
             /\ files d1 = files d /\ writeError d1 = writeError d
             /\ unlinkError d1 = unlinkError d
             /\ signaturesDir d1 = true.
Proof.
  unfold ensureStorageDir. intros [H|H].
  - rewrite H. now exists d.
  - destruct (signaturesDir d) eqn:Hdir; cbn; [now exists d|].
    rewrite H. now exists (withSignaturesDir d).
Qed.

Lemma bindF_query {A B} (f : Store -> A) (ev : A -> Event) (dflt : Event)
    (k : A -> MF B) (m : Machine) :
  bindF (onStore (query (fun s => inr (f s)) ev dflt)) k m
  = k (f (db (interleave (world m))))
      {| world := record (ev (f (db (interleave (world m)))))
                         (interleave (world m));
         disk := disk m |}.
Proof. reflexivity. Qed.

Lemma bindF_command {A B} (c : Store -> PrismaError + A * Store) (ev : Event)
    (k : A -> MF B) (m : Machine) :
  bindF (onStore (command c ev)) k m
  = match c (db (interleave (world m))) with
    | inr (a, s') =>
        k a {| world := {| db := s'; trace := trace (world m) ++ [ev];
                           pending := pending (interleave (world m)) |};
               disk := disk m |}
    | inl e => (Thrown e, {| world := record ev (interleave (world m));
                             disk := disk m |})
    end.
Proof.
  unfold bindF, onStore, command. cbn.
  destruct (c (db (interleave (world m)))) as [e|[a s']]; cbn;
    now rewrite ?trace_interleave.
Qed.

Lemma bindF_onDisk {A B} (f : Disk -> A * Disk) (k : A -> MF B) (m : Machine) :
  bindF (onDisk f) k m
  = k (fst (f (disk m))) {| world := world m; disk := snd (f (disk m)) |}.
Proof. unfold bindF, onDisk. now destruct (f (disk m)). Qed.

Lemma bindF_removed {B} (c : bool) (g : Disk -> Disk) (k : unit -> MF B)
    (m : Machine) :
  bindF (if c then onDisk (fun d => (tt, g d)) else retF tt) k m
  = k tt {| world := world m; disk := if c then g (disk m) else disk m |}.
Proof. destruct c; [reflexivity|]. now destruct m. Qed.

Lemma consent_run (id sig : string) (stamp : Stamp)
    (s : Store) (t : list Event) (d : Disk) (b : Booking.t) :
  sig <> "" -> wellFormed s -> findBooking id s = Some b -> healthy d ->
  exists s' d',
    saveConsentFormSignature id (JsString sig) stamp
      (mkMachine (mkWorld s t []) d)
    = (Val (successResponse (signedView (signedRow b (signatureFile id stamp)))
              "Consent form signature saved successfully" 200),
       mkMachine
         (mkWorld s'
            (t ++ [BookingFindUnique id;
                   BookingUpdate id (signatureData (signatureFile id stamp))])
            [])
         d')
    /\ findBooking id s' = Some (signedRow b (signatureFile id stamp))
    /\ (forall id', id' <> id -> findBooking id' s' = findBooking id' s)
    /\ files d' !! signatureFile id stamp = Some (base64String sig)
    /\ (forall old, Booking.signaturePath b = Some old -> old <> "" ->
          old <> signatureFile id stamp -> files d' !! old = None)
    /\ (forall f, f <> signatureFile id stamp ->
          Booking.signaturePath b <> Some f ->
          files d' !! f = files d !! f)
    /\ wellFormed s' /\ healthy d'.
Proof.
  intros Hsig Hwf Hb (Hdir & Hwrite & Hunlink).
  destruct (findBooking_id id s b Hb) as [Hid Hin].
  set (p := signatureFile id stamp).
  set (d0 := if truthy (Booking.signaturePath b)
             then deleteFile (default "" (Booking.signaturePath b)) d else d).
  assert (Hd0 : signaturesPath d0 = signaturesPath d
                /\ (signaturesDir d0 = true \/ mkdirError d0 = None)
                /\ writeError d0 = None /\ unlinkError d0 = None
                /\ (forall old, Booking.signaturePath b = Some old ->
                      files d0 !! old = None \/ old = "")
                /\ (forall f, Booking.signaturePath b <> Some f ->
                      files d0 !! f = files d !! f)).
  { unfold d0, deleteFile. rewrite Hunlink.
    destruct (Booking.signaturePath b) as [old|] eqn:Hold; cbn.
    - destruct (String.eqb_spec old "") as [->|Hne]; cbn.
      + repeat split; auto. intros old [= <-]. now right.
      + destruct (files d !! old) as [c|] eqn:Hc; cbn.
        * repeat split; auto.
          -- intros old' [= <-]. left. apply lookup_delete_eq.
          -- intros f Hf. apply lookup_delete_ne. congruence.
        * repeat split; auto. intros old' [= <-]. now left.
    - repeat split; auto. discriminate. }
  destruct Hd0 as (Hpath0 & Hdir0 & Hwrite0 & Hunlink0 & Hold0 & Hkeep0).
  destruct (ensureStorageDir_healthy d0 Hdir0)
    as (d1 & Hens & Hfiles1 & Hw1 & Hu1 & Hdir1).
  assert (Hsave : saveBase64Image sig ("booking_" +:+ id) stamp d0
                  = (inr p, withFiles (<[p := base64String sig]> (files d1)) d1)).
  { unfold saveBase64Image. rewrite Hens, Hw1, Hwrite0. reflexivity. }
  assert (Hupd : updateRow id (signatureData p) s
                 = inr (signedRow b p,
                        withBookings (replaceRow (signedRow b p) (bookings s)) s)).
  { unfold updateRow. rewrite Hb, applyUpdate_signature.
    now rewrite (stored_row_keeps_unique s b (signedRow b p) Hwf Hin). }
  exists (withBookings (replaceRow (signedRow b p) (bookings s)) s),
    (withFiles (<[p := base64String sig]> (files d1)) d1).
  split.
  { unfold saveConsentFormSignature, tryCatchF.
    cbn [jsTruthy isJsString negb orb].
    apply String.eqb_neq in Hsig. rewrite Hsig. cbn [negb orb].
    unfold prisma.booking_findUnique. rewrite bindF_query.
    cbn [world disk interleave pending db]. rewrite Hb, record_mk.
    rewrite bindF_removed. cbn [world disk]. fold d0.
    rewrite bindF_onDisk. cbn [world disk jsStringOf]. rewrite Hsave.
    cbn [fst snd]. unfold prisma.booking_update. rewrite bindF_command.
    cbn [world disk interleave pending db trace]. rewrite Hupd.
    unfold retF. now rewrite <- app_assoc. }
  split.
  { unfold findBooking. cbn [bookings withBookings]. rewrite <- Hid.
    apply (find_replaceRow (signedRow b p) _ b). cbn. rewrite Hid. exact Hb. }
  split.
  { intros id' Hne. apply findBooking_replaceRow_other. cbn. congruence. }
  cbn [files withFiles]. split; [apply lookup_insert_eq|].
  split.
  { intros old Hold Hne0 Hne. rewrite lookup_insert_ne by congruence.
    rewrite Hfiles1. destruct (Hold0 old Hold) as [H|H]; [exact H|].
    contradiction. }
  split.
  { intros f Hne Hf. rewrite lookup_insert_ne by congruence.
    rewrite Hfiles1. now apply Hkeep0. }
  split.
  - apply (updateRow_wellFormed id (signatureData p) s _ (signedRow b p) Hwf Hupd).
    intros n Hn. destruct Hwf as (_ & _ & Hpos). exact (Hpos b n Hin Hn).
  - unfold healthy. cbn. rewrite Hdir1, Hw1, Hwrite0, Hu1, Hunlink0. auto.
Qed.

(** X13.  Signing the consent form.  For a non-empty signature string,
    an existing booking, a working file system and no concurrent writes,
    [saveConsentFormSignature] answers 200; the image is stored under
    [signatures/booking_<id>_<timestamp>_<suffix>.png] with the text after
    the data-URL comma as its content; the booking gets this path and the
    consent flag and keeps every other field, its status and studio
    number among them; a former signature file of the booking is removed;
    no other file and no other booking is touched. *)
Theorem consent_signs_the_booking (id sig : string) (stamp : Stamp)
    (s : Store) (t : list Event) (d : Disk) (b : Booking.t) :
  sig <> "" -> wellFormed s -> findBooking id s = Some b -> healthy d ->
  exists s' d',
    saveConsentFormSignature id (JsString sig) stamp
      (mkMachine (mkWorld s t []) d)
    = (Val (successResponse (signedView (signedRow b (signatureFile id stamp)))
              "Consent form signature saved successfully" 200),
       mkMachine
         (mkWorld s'
            (t ++ [BookingFindUnique id;
                   BookingUpdate id (signatureData (signatureFile id stamp))])
            [])
         d')
    /\ findBooking id s' = Some (signedRow b (signatureFile id stamp))
    /\ (forall id', id' <> id -> findBooking id' s' = findBooking id' s)
    /\ files d' !! signatureFile id stamp = Some (base64String sig)
    /\ (forall old, Booking.signaturePath b = Some old -> old <> "" ->
          old <> signatureFile id stamp -> files d' !! old = None)
    /\ (forall f, f <> signatureFile id stamp ->
          Booking.signaturePath b <> Some f ->
          files d' !! f = files d !! f).
Proof.
  intros Hsig Hwf Hb Hd.
  destruct (consent_run id sig stamp s t d b Hsig Hwf Hb Hd)
    as (s' & d' & Hrun & Hfound & Hothers & Hnew & Hold & Hkeep & _).
  exists s', d'. repeat (split; [assumption|]). exact Hkeep.
Qed.

Lemma consent_signs_the_booking_witness :
  exists s' d',
    snd (saveConsentFormSignature "A" (JsString "data:image/png;base64,iVBOR")
           sampleStamp
           (mkMachine (mkWorld signedStore [] [])
                      (sampleDisk [("signatures/old.png", "AAAA")] None)))
    = mkMachine s' d'
    /\ files d' !! "signatures/booking_A_1700000000000_k3x9ab.png"
       = Some "iVBOR"
    /\ files d' !! "signatures/old.png" = None.
Proof.
  destruct (consent_signs_the_booking "A" "data:image/png;base64,iVBOR"
              sampleStamp signedStore []
              (sampleDisk [("signatures/old.png", "AAAA")] None)
              (signedRow bookingA "signatures/old.png"))
    as (s' & d' & Hrun & _ & _ & Hnew & Hold & _).
  - discriminate.
  - split; [|split].
    + vm_compute. repeat constructor. rewrite elem_of_nil. tauto.
    + intros loc. cbn. constructor.
    + intros b n Hb. cbn in Hb. apply list_elem_of_singleton in Hb as ->.
      discriminate.
  - reflexivity.
  - unfold healthy. cbn. auto.
  - eexists _, d'. rewrite Hrun. cbn [snd]. split; [reflexivity|].
    split; [exact Hnew|]. apply Hold; [reflexivity|discriminate|discriminate].
Defined.

(** X14.  How [saveConsentFormSignature] fails, without concurrent
    writes.  A signature that is missing, empty or not a string gives 400
    before the store or the disk is touched.  An unknown booking gives 404
    and leaves the disk alone.  When the image cannot be written the
    answer is 500 with the message of the file system, and the booking is
    left as it was; but the former signature file of the booking has
    already been removed by then, so the booking keeps the path of a file
    that is gone. *)
Theorem consent_failures (id : string) (signature : JsValue) (stamp : Stamp)
    (s : Store) (t : list Event) (d : Disk) :
  (jsTruthy signature = false \/ isJsString signature = false ->
     saveConsentFormSignature id signature stamp (mkMachine (mkWorld s t []) d)
     = (Val (errorResponse "Signature data is required" 400),
        mkMachine (mkWorld s t []) d))
  /\ (forall sig, signature = JsString sig -> sig <> "" ->
        (findBooking id s = None ->
           saveConsentFormSignature id signature stamp
             (mkMachine (mkWorld s t []) d)
           = (Val (errorResponse "Booking not found" 404),
              mkMachine (mkWorld s (t ++ [BookingFindUnique id]) []) d))
        /\ (forall b message,
              findBooking id s = Some b ->
              signaturesDir d = true \/ mkdirError d = None ->
              writeError d = Some message ->
              exists d',
                saveConsentFormSignature id signature stamp
                  (mkMachine (mkWorld s t []) d)
                = (Val (errorResponse
                          ("Failed to save signature: Cannot write file: "
                           +:+ message) 500),
                   mkMachine (mkWorld s (t ++ [BookingFindUnique id]) []) d')
                /\ (forall old, Booking.signaturePath b = Some old ->
                      old <> "" -> unlinkError d = None ->
                      files d' !! old = None))).
Proof.
  split.
  - intros Hbad. unfold saveConsentFormSignature, tryCatchF.
    assert (Hc : negb (jsTruthy signature) || negb (isJsString signature)
                 = true).
    { destruct Hbad as [-> | ->]; [reflexivity|apply orb_true_r]. }
    now rewrite Hc.
  - intros sig -> Hsig. apply String.eqb_neq in Hsig. split.
    + intros Hnone. unfold saveConsentFormSignature, tryCatchF.
      cbn [jsTruthy isJsString negb orb]. rewrite Hsig. cbn [negb orb].
      unfold prisma.booking_findUnique. rewrite bindF_query.
      cbn [world disk interleave pending db]. now rewrite Hnone, record_mk.
    + intros b message Hb Hdir Hwrite.
      set (d0 := if truthy (Booking.signaturePath b)
                 then deleteFile (default "" (Booking.signaturePath b)) d
                 else d).
      assert (Hd0 : (signaturesDir d0 = true \/ mkdirError d0 = None)
                    /\ writeError d0 = Some message
                    /\ (forall old, Booking.signaturePath b = Some old ->
                          old <> "" -> unlinkError d = None ->
                          files d0 !! old = None)).
      { unfold d0, deleteFile.
        destruct (Booking.signaturePath b) as [old|] eqn:Hold; cbn.
        - destruct (String.eqb_spec old "") as [->|Hne]; cbn.
          + repeat split; auto. now intros old [= <-].
          + destruct (files d !! old) as [c|] eqn:Hc; cbn.
            * destruct (unlinkError d) eqn:Hu; cbn.
              -- repeat split; auto. discriminate.
              -- repeat split; auto. intros old' [= <-] _ _.
                 apply lookup_delete_eq.
            * repeat split; auto. now intros old' [= <-].
        - repeat split; auto. discriminate. }
      destruct Hd0 as (Hdir0 & Hwrite0 & Hold0).
      destruct (ensureStorageDir_healthy d0 Hdir0)
        as (d1 & Hens & Hfiles1 & Hw1 & _).
      exists d1. split.
      * unfold saveConsentFormSignature, tryCatchF.
        cbn [jsTruthy isJsString negb orb]. rewrite Hsig. cbn [negb orb].
        unfold prisma.booking_findUnique. rewrite bindF_query.
        cbn [world disk interleave pending db]. rewrite Hb, record_mk.
        rewrite bindF_removed. cbn [world disk]. fold d0.
        rewrite bindF_onDisk. cbn [world disk jsStringOf].
        unfold saveBase64Image. rewrite Hens, Hw1, Hwrite0. reflexivity.
      * intros old Hold Hne Hu. rewrite Hfiles1. now apply Hold0.
Qed.

Lemma consent_failures_witness :
  exists d',
    saveConsentFormSignature "A" (JsString "data:image/png;base64,iVBOR")
      sampleStamp
      (mkMachine (mkWorld signedStore [] [])
         (sampleDisk [("signatures/old.png", "AAAA")]
                     (Some "EACCES: permission denied")))
    = (Val (errorResponse
              "Failed to save signature: Cannot write file: EACCES: permission denied"
              500),
       mkMachine (mkWorld signedStore [BookingFindUnique "A"] []) d')
    /\ files d' !! "signatures/old.png" = None
    /\ option_map Booking.signaturePath (findBooking "A" signedStore)
       = Some (Some "signatures/old.png").
Proof.
  destruct (consent_failures "A" (JsString "data:image/png;base64,iVBOR")
              sampleStamp signedStore []
              (sampleDisk [("signatures/old.png", "AAAA")]
                          (Some "EACCES: permission denied")))
    as [_ H].
  destruct (H "data:image/png;base64,iVBOR" eq_refl) as [_ Hfail];
    [discriminate|].
  destruct (Hfail (signedRow bookingA "signatures/old.png")
              "EACCES: permission denied" eq_refl)
    as (d' & Hrun & Hgone); [now left|reflexivity|].
  exists d'. split; [exact Hrun|]. split; [|reflexivity].
  apply Hgone; [reflexivity|discriminate|reflexivity].
Defined.

(** ** The statistics per sales person *)

Lemma getKey_setKey (k k' : string) (v : Z) (o : Counts) :
  getKey (setKey k v o) k' = if String.eqb k k' then Some v else getKey o k'.
Proof.
  induction o as [|[k0 v0] o IH]; cbn.
  - reflexivity.
  - destruct (String.eqb_spec k0 k) as [->|Hne]; cbn.
    + destruct (String.eqb k k'); reflexivity.
    + rewrite IH. destruct (String.eqb_spec k0 k') as [->|Hne'];
        [|reflexivity].
      apply not_eq_sym, String.eqb_neq in Hne. now rewrite Hne.
Qed.

Lemma getKey_keys (o : Counts) (k : string) :
  getKey o k = None <-> k ∉ map fst o.
Proof.
  induction o as [|[k0 v0] o IH]; cbn.
  - split; [intros _; apply not_elem_of_nil|reflexivity].
  - rewrite not_elem_of_cons.
    destruct (String.eqb_spec k0 k) as [->|Hne].
    + split; [discriminate|intros [H _]; congruence].
    + rewrite IH. split; [intros H; split; [congruence|exact H]|tauto].
Qed.

Lemma keys_setKey (k : string) (v : Z) (o : Counts) :
  map fst (setKey k v o)
  = if isSome (getKey o k) then map fst o else map fst o ++ [k].
Proof.
  induction o as [|[k0 v0] o IH]; cbn; [reflexivity|].
  destruct (String.eqb_spec k0 k) as [->|Hne]; cbn; [reflexivity|].
  rewrite IH. now destruct (getKey o k).
Qed.

Lemma keys_setKey_NoDup (k : string) (v : Z) (o : Counts) :
  NoDup (map fst o) -> NoDup (map fst (setKey k v o)).
Proof.
  intros Hnd. rewrite keys_setKey.
  destruct (getKey o k) eqn:Hk; cbn; [exact Hnd|].
  apply getKey_keys in Hk. apply NoDup_app. split; [exact Hnd|].
  split; [|apply NoDup_singleton].
  intros x Hx Hx'. apply list_elem_of_singleton in Hx'. now subst.
Qed.

Lemma tally_getKey (o : Counts) (k k' : string) :
  k <> "" ->
  getKey (tally o k) k'
  = if String.eqb k k' then Some (default 0 (getKey o k) + 1)
    else getKey o k'.
Proof.
  intros Hk. unfold tally. apply String.eqb_neq in Hk. rewrite Hk. cbn [negb].
  rewrite getKey_setKey.
  destruct (String.eqb_spec k k') as [<-|Hne].
  - f_equal. f_equal. destruct (getKey o k) as [v|] eqn:Hv; cbn.
    + destruct (Z.eqb_spec v 0) as [->|_].
      * now rewrite getKey_setKey, String.eqb_refl.
      * now rewrite Hv.
    + now rewrite getKey_setKey, String.eqb_refl.
  - destruct (falsyNumber (getKey o k)); [|reflexivity].
    rewrite getKey_setKey. apply String.eqb_neq in Hne. now rewrite Hne.
Qed.

Lemma tally_NoDup (o : Counts) (k : string) :
  NoDup (map fst o) -> NoDup (map fst (tally o k)).
Proof.
  intros Hnd. unfold tally. destruct (negb (String.eqb k "")); [|exact Hnd].
  apply keys_setKey_NoDup.
  destruct (falsyNumber (getKey o k)); [now apply keys_setKey_NoDup|exact Hnd].
Qed.

Lemma occurrences_cons (k x : string) (l : list string) :
  occurrences k (x :: l)
  = (if String.eqb x k then 1 else 0) + occurrences k l.
Proof.
  unfold occurrences. rewrite filter_cons.
  destruct (String.eqb_spec x k) as [->|Hne].
  - rewrite decide_True by reflexivity. cbn [length]. lia.
  - rewrite decide_False by exact Hne. lia.
Qed.

Lemma occurrences_nonneg (k : string) (l : list string) : 0 <= occurrences k l.
Proof. unfold occurrences. lia. Qed.

Lemma occurrences_pos (k : string) (l : list string) :
  0 < occurrences k l <-> k ∈ l.
Proof.
  induction l as [|x l IH].
  - cbn. rewrite elem_of_nil. unfold occurrences. cbn. lia.
  - rewrite occurrences_cons, elem_of_cons.
    pose proof (occurrences_nonneg k l).
    destruct (String.eqb_spec x k) as [->|Hne].
    + split; [now left|lia].
    + rewrite Z.add_0_l, IH. split; [now right|].
      intros [->|Hin]; [congruence|exact Hin].
Qed.

Lemma tally_fold (ids : list string) :
  forall (acc : Counts) (k : string), k <> "" ->
    getKey (fold_left tally ids acc) k
    = if occurrences k ids =? 0 then getKey acc k
      else Some (default 0 (getKey acc k) + occurrences k ids).
Proof.
  induction ids as [|x ids IH]; intros acc k Hk; [reflexivity|].
  cbn [fold_left]. rewrite (IH _ k Hk), occurrences_cons.
  pose proof (occurrences_nonneg k ids) as Hpos.
  destruct (String.eqb_spec x "") as [->|Hx].
  - assert (Hne : String.eqb "" k = false)
      by (apply String.eqb_neq; congruence).
    rewrite Hne, Z.add_0_l. reflexivity.
  - rewrite (tally_getKey acc x k Hx).
    destruct (String.eqb_spec x k) as [->|Hne].
    + destruct (Z.eqb_spec (occurrences k ids) 0) as [->|H0].
      * reflexivity.
      * destruct (Z.eqb_spec (1 + occurrences k ids) 0); [lia|].
        cbn. f_equal. lia.
    + now rewrite Z.add_0_l.
Qed.

Lemma tally_fold_empty_key (ids : list string) :
  forall acc : Counts, getKey acc "" = None ->
    getKey (fold_left tally ids acc) "" = None.
Proof.
  induction ids as [|x ids IH]; intros acc Hacc; [exact Hacc|].
  cbn [fold_left]. apply IH.
  destruct (String.eqb_spec x "") as [->|Hx].
  - exact Hacc.
  - rewrite (tally_getKey acc x "" Hx).
    apply String.eqb_neq in Hx. now rewrite Hx.
Qed.

Lemma tally_fold_NoDup (ids : list string) :
  forall acc : Counts, NoDup (map fst acc) ->
    NoDup (map fst (fold_left tally ids acc)).
Proof.
  induction ids as [|x ids IH]; intros acc Hacc; [exact Hacc|].
  cbn [fold_left]. apply IH. now apply tally_NoDup.
Qed.

Lemma tally_keys (ids : list string) (k : string) :
  k ∈ map fst (fold_left tally ids []) <-> k <> "" /\ k ∈ ids.
Proof.
  destruct (String.eqb_spec k "") as [->|Hk].
  - split; [|intros [H _]; congruence].
    intros Hin. exfalso. revert Hin. apply getKey_keys.
    now apply tally_fold_empty_key.
  - rewrite <- (occurrences_pos k ids).
    pose proof (tally_fold ids [] k Hk) as Hget. cbn [getKey] in Hget.
    pose proof (getKey_keys (fold_left tally ids []) k) as Hkeys.
    pose proof (occurrences_nonneg k ids).
    destruct (Z.eqb_spec (occurrences k ids) 0) as [H0|H0].
    + split; [|intros [_ ?]; lia]. intros Hin. exfalso.
      now apply (proj1 Hkeys Hget).
    + split; [intros _; split; [exact Hk|lia]|]. intros _.
      destruct (decide (k ∈ map fst (fold_left tally ids []))) as [Hin|Hnot];
        [exact Hin|].
      apply Hkeys in Hnot. congruence.
Qed.

Lemma tally_count (ids : list string) (k : string) :
  k ∈ map fst (fold_left tally ids []) ->
  default 0 (getKey (fold_left tally ids []) k) = occurrences k ids
  /\ 1 <= occurrences k ids.
Proof.
  intros Hin. apply tally_keys in Hin as [Hk Hin].
  apply occurrences_pos in Hin.
  rewrite (tally_fold ids [] k Hk).
  destruct (Z.eqb_spec (occurrences k ids) 0); [lia|]. cbn. lia.
Qed.

Lemma occurrences_selected (P : Booking.t -> Prop) `{forall b, Decision (P b)}
    (k : string) (rows : list Booking.t) :
  occurrences k (map Booking.salesPersonId (filter P rows))
  = Z.of_nat (length (filter (fun b => P b /\ Booking.salesPersonId b = k)
                             rows)).
Proof.
  unfold occurrences. f_equal.
  induction rows as [|b rows IH]; [reflexivity|].
  rewrite !filter_cons. destruct (decide (P b)) as [Hp|Hp].
  - cbn [map]. rewrite filter_cons.
    destruct (decide (Booking.salesPersonId b = k)) as [Hk|Hk].
    + rewrite decide_True by tauto. cbn [length]. now rewrite IH.
    + rewrite decide_False by tauto. exact IH.
  - rewrite decide_False by tauto. exact IH.
Qed.

Lemma newMap_acc_inv {V} (l : list (string * V)) :
  forall (m : gmap string V) (k : string) (v : V),
    fold_left (fun m kv => <[fst kv := snd kv]> m) l m !! k = Some v ->
    (k, v) ∈ l \/ m !! k = Some v.
Proof.
  induction l as [|[k0 v0] l IH]; intros m k v Hget; [now right|].
  cbn in Hget. apply IH in Hget as [Hin|Hget].
  - left. now right.
  - destruct (decide (k0 = k)) as [->|Hne].
    + rewrite lookup_insert_eq in Hget. injection Hget as ->. left. left.
    + rewrite lookup_insert_ne in Hget by exact Hne. now right.
Qed.

Lemma newMap_lookup_inv {V} (l : list (string * V)) (k : string) (v : V) :
  newMap l !! k = Some v -> (k, v) ∈ l.
Proof.
  intros Hget. apply newMap_acc_inv in Hget as [Hin|Hget]; [exact Hin|].
  now rewrite lookup_empty in Hget.
Qed.

Lemma selectUsers_spec (ids : list string) (role : string) (s : Store)
    (sp : User.t) :
  sp ∈ selectUsers ids role s
  <-> sp ∈ users s /\ User.id sp ∈ ids /\ User.role sp = role.
Proof.
  unfold selectUsers. rewrite list_elem_of_filter.
  assert (Hex : existsb (String.eqb (User.id sp)) ids = true
                <-> User.id sp ∈ ids).
  { rewrite existsb_exists. split.
    - intros (x & Hx & He). apply String.eqb_eq in He. subst x.
      now apply list_elem_of_In.
    - intros Hin. exists (User.id sp). split;
        [now apply list_elem_of_In|apply String.eqb_refl]. }
  rewrite Hex. tauto.
Qed.

Lemma salesPersonMap_lookup (ids : list string) (role : string) (s : Store)
    (k : string) (sp : User.t) :
  uniqueUserIds s ->
  newMap (map (fun sp => (User.id sp, sp)) (selectUsers ids role s)) !! k
  = Some sp
  <-> sp ∈ users s /\ User.id sp = k /\ k ∈ ids /\ User.role sp = role.
Proof.
  intros Hnd. split.
  - intros Hget. apply newMap_lookup_inv in Hget.
    rewrite map_fmap in Hget. apply list_elem_of_fmap in Hget
      as (sp' & [= -> ->] & Hin).
    apply selectUsers_spec in Hin. tauto.
  - intros (Hin & <- & Hk & Hrole). apply newMap_lookup.
    + rewrite map_map. cbn. unfold uniqueUserIds in Hnd.
      rewrite map_fmap in Hnd |- *.
      apply (sublist_NoDup _ (User.id <$> users s)); [exact Hnd|].
      apply fmap_sublist. unfold selectUsers. apply sublist_filter.
    + rewrite map_fmap. apply list_elem_of_fmap. exists sp.
      split; [reflexivity|]. apply selectUsers_spec. tauto.
Qed.

#[global] Instance countsBefore_total : Total countsBefore.
Proof. intros a b. unfold countsBefore. lia. Qed.

#[global] Instance countsBefore_trans : Transitive countsBefore.
Proof. intros a b c. unfold countsBefore. lia. Qed.

Lemma sortByCount_sorted (rows : list SalesPersonCount) :
  StronglySorted countsBefore (sortByCount rows).
Proof.
  apply Sorted_StronglySorted; [apply _|].
  induction rows as [|a rows IH]; [constructor|].
  cbn [sortByCount foldr]. apply Sorted_list_merge; [apply _| |exact IH].
  repeat constructor.
Qed.

Lemma sortByCount_permutation (rows : list SalesPersonCount) :
  sortByCount rows ≡ₚ rows.
Proof.
  induction rows as [|a rows IH]; [reflexivity|].
  cbn [sortByCount foldr]. rewrite merge_Permutation. cbn.
  fold (sortByCount rows). now rewrite IH.
Qed.

Lemma stats_sequential (user : AuthUser) (q : StatsQuery)
    (today : Booking.t -> bool) (s : Store) (t : list Event) :
  exists w',
    getBookingsBySalesPerson user q today (mkWorld s t [])
    = (Val (successResponse (statsIn user q today s)
              ((if onlyToday q then "Today" else "Total")
               +:+ " bookings retrieved successfully") 200), w')
    /\ db w' = s
    /\ exists evs, trace w' = t ++ evs /\ List.filter isWrite evs = [].
Proof.
  unfold getBookingsBySalesPerson, tryCatch, prisma.booking_salesPersonIds,
    prisma.user_findMany.
  rewrite bind_query. cbn [interleave pending db]. rewrite record_mk.
  rewrite bind_query. cbn [interleave pending db]. rewrite record_mk.
  eexists. split; [reflexivity|]. split; [reflexivity|].
  eexists. cbn [trace]. rewrite <- app_assoc. split; reflexivity.
Qed.

Lemma statsEntry_ids (m : gmap string User.t) (counts : Counts)
    (keys : list string) :
  (forall k sp, m !! k = Some sp -> User.id sp = k) ->
  map spc_id (omap (statsEntry m counts) keys) `sublist_of` keys.
Proof.
  intros Hid. induction keys as [|k keys IH]; [reflexivity|].
  change (omap (statsEntry m counts) (k :: keys))
    with (match statsEntry m counts k with
          | Some e => e :: omap (statsEntry m counts) keys
          | None => omap (statsEntry m counts) keys
          end).
  destruct (statsEntry m counts k) as [e|] eqn:He.
  - unfold statsEntry in He. destruct (m !! k) as [sp|] eqn:Hk; [|discriminate].
    injection He as <-. cbn. rewrite (Hid k sp Hk). now apply sublist_skip.
  - now apply sublist_cons.
Qed.

Lemma statsIn_entries (user : AuthUser) (q : StatsQuery)
    (today : Booking.t -> bool) (s : Store) (e : SalesPersonCount) :
  uniqueUserIds s ->
  e ∈ statsIn user q today s
  <-> exists sp,
        sp ∈ users s /\ User.role sp = "SALES_PERSON" /\ User.id sp <> ""
        /\ countedFor user q today (User.id sp) s <> []
        /\ e = entryOf sp (Z.of_nat (length (countedFor user q today
                                               (User.id sp) s))).
Proof.
  intros Hnd. unfold statsIn. rewrite sortByCount_permutation.
  set (ids := map Booking.salesPersonId
                (filter (fun b => matchesStats (statsWhere user q today) b = true)
                        (bookings s))).
  set (counts := fold_left tally ids []).
  rewrite list_elem_of_omap.
  assert (Hocc : forall k,
            occurrences k ids
            = Z.of_nat (length (countedFor user q today k s))).
  { intros k. unfold ids, countedFor. apply occurrences_selected. }
  split.
  - intros (k & Hk & Hentry). unfold statsEntry in Hentry.
    destruct (newMap _ !! k) as [sp|] eqn:Hget; [|discriminate].
    apply (salesPersonMap_lookup _ _ s k sp Hnd) in Hget
      as (Hin & Hid & _ & Hrole).
    injection Hentry as <-. exists sp. subst k.
    destruct (tally_count ids (User.id sp) Hk) as [Hcount Hone].
    pose proof (proj1 (tally_keys ids (User.id sp)) Hk) as [Hne _].
    fold counts in Hcount. rewrite Hocc in Hcount, Hone.
    repeat split; auto.
    + intros Hempty. rewrite Hempty in Hone. cbn in Hone. lia.
    + unfold entryOf. now rewrite Hcount.
  - intros (sp & Hin & Hrole & Hne & Hsome & ->).
    assert (Hk : User.id sp ∈ map fst counts).
    { apply tally_keys. split; [exact Hne|]. apply occurrences_pos.
      rewrite Hocc. destruct (countedFor user q today (User.id sp) s);
        [congruence|cbn; lia]. }
    exists (User.id sp). split; [exact Hk|].
    unfold statsEntry.
    rewrite (proj2 (salesPersonMap_lookup (map fst counts) "SALES_PERSON" s
                      (User.id sp) sp Hnd)) by tauto.
    destruct (tally_count ids (User.id sp) Hk) as [Hcount _].
    fold counts in Hcount. unfold entryOf. now rewrite Hcount, Hocc.
Qed.

Lemma statsIn_ids (user : AuthUser) (q : StatsQuery)
    (today : Booking.t -> bool) (s : Store) :
  uniqueUserIds s -> NoDup (map spc_id (statsIn user q today s)).
Proof.
  intros Hnd.
  unfold statsIn. rewrite map_fmap, sortByCount_permutation, <- map_fmap.
  set (counts := fold_left tally _ []).
  apply (sublist_NoDup _ (map fst counts)).
  - apply tally_fold_NoDup. constructor.
  - apply statsEntry_ids. intros k sp Hget.
    now apply (salesPersonMap_lookup _ _ s k sp Hnd) in Hget.
Qed.

Lemma countedFor_spec (user : AuthUser) (q : StatsQuery)
    (today : Booking.t -> bool) (s : Store) (k : string) (b : Booking.t) :
  b ∈ countedFor user q today k s
  <-> b ∈ bookings s
      /\ Booking.salesPersonId b = k
      /\ Booking.paymentMethod b <> NOT_PAID
      /\ (forall l, sq_locationId q = Some l -> l <> "" ->
            Booking.locationId b = Some l)
      /\ (onlyToday q = true -> today b = true)
      /\ (au_role user = Some "SALES_PERSON" ->
            Booking.salesPersonId b = au_id user).
Proof.
  unfold countedFor. rewrite list_elem_of_filter.
  unfold matchesStats, statsWhere. cbn [sw_locationId sw_createdAt
    sw_salesPersonId]. rewrite !andb_true_iff, negb_true_iff.
  unfold hasRole, optStringEqb, truthy.
  split.
  - intros [[[[[Hpaid Hloc] Hday] Hsp] Hk] Hin].
    repeat split; auto.
    + intros He. now rewrite He in Hpaid.
    + intros l Hl Hne. rewrite Hl in Hloc.
      apply String.eqb_neq in Hne. rewrite Hne in Hloc. cbn in Hloc.
      destruct (Booking.locationId b) as [x|]; [|discriminate].
      apply String.eqb_eq in Hloc. now subst.
    + intros Hon. now rewrite Hon in Hday.
    + intros Hrole. rewrite Hrole in Hsp. cbn in Hsp.
      now apply String.eqb_eq in Hsp.
  - intros (Hin & Hk & Hpaid & Hloc & Hday & Hsp).
    split; [|exact Hin]. split; [|exact Hk].
    repeat split.
    + destruct (Booking.paymentMethod b); try reflexivity. congruence.
    + destruct (sq_locationId q) as [l|]; [|reflexivity].
      destruct (String.eqb_spec l "") as [->|Hne]; [reflexivity|]. cbn.
      rewrite (Hloc l eq_refl Hne). apply String.eqb_refl.
    + destruct (onlyToday q); [now apply Hday|reflexivity].
    + destruct (au_role user) as [r|]; [|reflexivity].
      destruct (String.eqb_spec r "SALES_PERSON") as [->|]; [|reflexivity].
      rewrite (Hsp eq_refl). apply String.eqb_refl.
Qed.

(** X15.  The statistics count the paid bookings of each sales
    person.  Without concurrent writes [getBookingsBySalesPerson] answers
    200 and reads only.  Its list has one entry for each user of role
    SALES_PERSON who owns at least one counted booking, and no other
    entry; the [bookingCount] of the entry is the number of that person's
    counted bookings.  A booking is counted when its payment method is not
    NOT_PAID and it passes the location filter, the creation window of
    [type=today] and, for a caller of role SALES_PERSON, belongs to the
    caller. *)
Theorem stats_count_paid_bookings (user : AuthUser) (q : StatsQuery)
    (today : Booking.t -> bool) (s : Store) (t : list Event) :
  uniqueUserIds s ->
  (exists w' msg,
     getBookingsBySalesPerson user q today (mkWorld s t [])
     = (Val (successResponse (statsIn user q today s) msg 200), w')
     /\ db w' = s
     /\ exists evs, trace w' = t ++ evs /\ List.filter isWrite evs = [])
  /\ (forall e,
        e ∈ statsIn user q today s
        <-> exists sp,
              sp ∈ users s /\ User.role sp = "SALES_PERSON"
              /\ User.id sp <> ""
              /\ countedFor user q today (User.id sp) s <> []
              /\ e = entryOf sp (Z.of_nat (length (countedFor user q today
                                                     (User.id sp) s))))
  /\ NoDup (map spc_id (statsIn user q today s))
  /\ (forall k b,
        b ∈ countedFor user q today k s
        <-> b ∈ bookings s
            /\ Booking.salesPersonId b = k
            /\ Booking.paymentMethod b <> NOT_PAID
            /\ (forall l, sq_locationId q = Some l -> l <> "" ->
                  Booking.locationId b = Some l)
            /\ (onlyToday q = true -> today b = true)
            /\ (au_role user = Some "SALES_PERSON" ->
                  Booking.salesPersonId b = au_id user)).
Proof.
  intros Hnd. split; [|split; [|split]].
  - destruct (stats_sequential user q today s t) as (w' & Hrun & Hdb & Hev).
    now exists w', ((if onlyToday q then "Today" else "Total")
                    +:+ " bookings retrieved successfully").
  - intros e. now apply statsIn_entries.
  - now apply statsIn_ids.
  - intros k b. apply countedFor_spec.
Qed.

Lemma statsStore_users : uniqueUserIds statsStore.
Proof.
  vm_compute. repeat constructor; rewrite ?elem_of_cons, ?elem_of_nil;
    intuition discriminate.
Qed.

Lemma stats_count_paid_bookings_witness :
  statsIn adminUser totalQuery (fun _ => false) statsStore
  = [ {| spc_id := "sp1"; spc_salesPersonName := "Ann";
         spc_salesPersonEmail := Some "ann@studio.example";
         spc_bookingCount := 2 |};
      {| spc_id := "sp2"; spc_salesPersonName := "bob@studio.example";
         spc_salesPersonEmail := Some "bob@studio.example";
         spc_bookingCount := 1 |} ]
  /\ NoDup (map spc_id (statsIn adminUser totalQuery (fun _ => false)
                          statsStore)).
Proof.
  destruct (stats_count_paid_bookings adminUser totalQuery (fun _ => false)
              statsStore [] statsStore_users) as (_ & _ & Hnd & _).
  split; [vm_compute; reflexivity|exact Hnd].
Defined.

Lemma sorted_weaken {A} (R S : A -> A -> Prop) (l : list A) :
  (forall a b, R a b -> S a b) -> StronglySorted R l -> StronglySorted S l.
Proof.
  intros HRS Hs. induction Hs as [|x l Hs IH Hall]; constructor; [exact IH|].
  eapply Forall_impl; [exact Hall|]. intros y. apply HRS.
Qed.

Lemma sorted_lookup {A} (R : A -> A -> Prop) (l : list A) :
  StronglySorted R l ->
  forall (i j : nat) a b, (i < j)%nat ->
    l !! i = Some a -> l !! j = Some b -> R a b.
Proof.
  intros Hs. induction Hs as [|x l Hs IH Hall]; intros i j a b Hij Ha Hb.
  - now rewrite lookup_nil in Ha.
  - destruct j as [|j]; [lia|]. destruct i as [|i].
    + cbn in Ha, Hb. injection Ha as <-. rewrite Forall_forall in Hall.
      apply Hall. eapply list_elem_of_lookup_2. exact Hb.
    + cbn in Ha, Hb. apply (IH i j); [lia|assumption|assumption].
Qed.

(** X16.  The statistics are listed by falling booking count: in an
    answer of [getBookingsBySalesPerson], served without concurrent
    writes, no entry has a larger count than an entry before it. *)
Theorem stats_sorted_by_count (user : AuthUser) (q : StatsQuery)
    (today : Booking.t -> bool) (s : Store) (t : list Event)
    (result : list SalesPersonCount) (msg : string) (code : Z) (w' : World) :
  getBookingsBySalesPerson user q today (mkWorld s t [])
  = (Val (successResponse result msg code), w') ->
  StronglySorted (fun a b => spc_bookingCount b <= spc_bookingCount a) result
  /\ forall (i j : nat) a b, (i < j)%nat ->
       result !! i = Some a -> result !! j = Some b ->
       spc_bookingCount b <= spc_bookingCount a.
Proof.
  intros Hrun.
  destruct (stats_sequential user q today s t) as (w2 & Hseq & _).
  rewrite Hseq in Hrun. injection Hrun as <- _ _ _.
  assert (Hsorted : StronglySorted
                      (fun a b => spc_bookingCount b <= spc_bookingCount a)
                      (statsIn user q today s)).
  { unfold statsIn. eapply sorted_weaken; [|apply sortByCount_sorted].
    intros a b. unfold countsBefore. lia. }
  split; [exact Hsorted|].
  intros i j a b Hij Ha Hb.
  exact (sorted_lookup _ _ Hsorted i j a b Hij Ha Hb).
Qed.

Lemma stats_sorted_by_count_witness :
  exists result w',
    getBookingsBySalesPerson adminUser totalQuery (fun _ => false)
      (mkWorld statsStore [] [])
    = (Val (successResponse result "Total bookings retrieved successfully" 200),
       w')
    /\ map spc_bookingCount result = [2; 1]
    /\ StronglySorted (fun a b => spc_bookingCount b <= spc_bookingCount a)
                      result.
Proof.
  eexists _, _. split; [reflexivity|]. split; [reflexivity|].
  eapply (proj1 (stats_sorted_by_count adminUser totalQuery (fun _ => false)
                   statsStore [] _ _ _ _ eq_refl)).
Defined.

Lemma all_equal_short {A} (l : list A) (c : A) :
  NoDup l -> (forall x, x ∈ l -> x = c) -> (length l <= 1)%nat.
Proof.
  intros Hnd Hall. destruct l as [|x [|y l]]; cbn; [lia|lia|].
  exfalso. apply NoDup_cons in Hnd as [Hx _]. apply Hx.
  rewrite (Hall x) by left. rewrite (Hall y) by (right; left). left.
Qed.

Lemma salesPerson_counted (user : AuthUser) (q : StatsQuery)
    (today : Booking.t -> bool) (s : Store) :
  au_role user = Some "SALES_PERSON" ->
  filter (fun b => matchesStats (statsWhere user q today) b = true) (bookings s)
  = filter (fun b => matchesStats (statsWhere user q today) b = true)
           (ownedBy (au_id user) s).
Proof.
  intros Hrole. unfold ownedBy. rewrite list_filter_filter.
  apply list_filter_iff. intros b. split; [|tauto].
  intros Hm. split; [exact Hm|].
  unfold matchesStats, statsWhere, hasRole, optStringEqb in Hm.
  cbn [sw_salesPersonId] in Hm. rewrite Hrole in Hm. cbn in Hm.
  rewrite !andb_true_iff in Hm. destruct Hm as [_ Hm].
  now apply String.eqb_eq in Hm.
Qed.

(** X17.  A caller of role SALES_PERSON gets only the own count.  The
    statistics then have at most one entry, the caller's, and the answer
    is the same on any two stores that agree on the caller's bookings and
    on the users, whatever bookings other sales persons hold. *)
Theorem stats_sales_person_sees_self (user : AuthUser) (q : StatsQuery)
    (today : Booking.t -> bool) (s : Store) (t : list Event) :
  uniqueUserIds s -> au_role user = Some "SALES_PERSON" ->
  exists result msg,
    fst (getBookingsBySalesPerson user q today (mkWorld s t []))
    = Val (successResponse result msg 200)
    /\ (forall e, e ∈ result -> spc_id e = au_id user)
    /\ (length result <= 1)%nat
    /\ forall s2 t2,
         ownedBy (au_id user) s2 = ownedBy (au_id user) s ->
         users s2 = users s ->
         fst (getBookingsBySalesPerson user q today (mkWorld s2 t2 []))
         = Val (successResponse result msg 200).
Proof.
  intros Hnd Hrole.
  pose proof (fun e => statsIn_entries user q today s e Hnd) as Hentries.
  pose proof (statsIn_ids user q today s Hnd) as Hids.
  pose proof (countedFor_spec user q today s) as Hcounted.
  destruct (stats_sequential user q today s t) as (w' & Hrun & _).
  exists (statsIn user q today s),
    ((if onlyToday q then "Today" else "Total")
     +:+ " bookings retrieved successfully").
  split; [now rewrite Hrun|].
  assert (Hown : forall e, e ∈ statsIn user q today s -> spc_id e = au_id user).
  { intros e He. apply Hentries in He as (sp & _ & _ & _ & Hsome & ->).
    destruct (countedFor user q today (User.id sp) s) as [|b rest] eqn:Hc;
      [congruence|].
    assert (Hb : b ∈ countedFor user q today (User.id sp) s)
      by (rewrite Hc; left).
    apply Hcounted in Hb as (_ & Hk & _ & _ & _ & Hself).
    cbn. rewrite <- Hk. now apply Hself. }
  split; [exact Hown|]. split.
  { rewrite <- (length_map spc_id).
    apply (all_equal_short _ (au_id user) Hids).
    intros x Hx. rewrite map_fmap in Hx.
    apply list_elem_of_fmap in Hx as (e & -> & He). now apply Hown. }
  intros s2 t2 Hsame Husers.
  destruct (stats_sequential user q today s2 t2) as (w2 & Hrun2 & _).
  rewrite Hrun2. cbn [fst]. do 2 f_equal.
  unfold statsIn, selectUsers.
  rewrite !(salesPerson_counted user q today _ Hrole), Hsame, Husers.
  reflexivity.
Qed.

Lemma stats_sales_person_sees_self_witness :
  exists result msg,
    fst (getBookingsBySalesPerson salesAnn totalQuery (fun _ => false)
           (mkWorld statsStore [] []))
    = Val (successResponse result msg 200)
    /\ map spc_id result = ["sp1"]
    /\ map spc_bookingCount result = [2].
Proof.
  destruct (stats_sales_person_sees_self salesAnn totalQuery (fun _ => false)
              statsStore [] statsStore_users eq_refl)
    as (result & msg & Hrun & _).
  exists result, msg. split; [exact Hrun|].
  vm_compute in Hrun. injection Hrun as <- _. split; reflexivity.
Defined.

(** ** The filters of the list *)

(** X18.  Every row of an answer of [getBookings] is a row of the
    table that passes the filters of the query: the location, the status
    (compared in upper case), both collection fields present under
    [hasCollectionDate=true], and for an ADMIN caller the requested sales
    person.  The row comes with its location and sales person as the
    store holds them.  Stated for requests served without concurrent
    writes. *)
Theorem list_rows_pass_the_filters (u : AuthUser) (q : ListQuery) (s : Store)
    (t : list Event) (body : ListBody) (msg : string) (code : Z) (w' : World) :
  uniqueIds s ->
  getBookings (Some u) q (mkWorld s t [])
  = (Val (successResponse body msg code), w') ->
  forall r, r ∈ lb_bookings body ->
    row r ∈ bookings s
    /\ r = detailsIn s (row r)
    /\ (forall l, q_locationId q = Some l -> l <> "" ->
          Booking.locationId (row r) = Some l)
    /\ (forall st, q_status q = Some st -> st <> "" ->
          statusName (Booking.status (row r)) = toUpperCase st)
    /\ (q_hasCollectionDate q = Some "true" ->
          isSome (Booking.collectionDate (row r)) = true
          /\ isSome (Booking.collectionTime (row r)) = true)
    /\ (au_role u = Some "ADMIN" ->
          forall sp, q_salesPersonId q = Some sp -> sp <> "" ->
            Booking.salesPersonId (row r) = sp).
Proof.
  intros Hids Hrun r Hr.
  apply getBookings_success in Hrun as (u0 & [= <-] & _ & _ & -> & _).
  rewrite (listBodyIn_rows u q s Hids), map_fmap in Hr.
  apply list_elem_of_fmap in Hr as (b & -> & Hb).
  apply pageRows_in_sorted, sortedRows_in_store in Hb as [Hin Hm].
  cbn [row detailsIn]. split; [exact Hin|]. split; [reflexivity|].
  unfold matchesWhere, listWhere in Hm.
  cbn [w_salesPersonId w_locationId w_status w_hasCollection] in Hm.
  rewrite !andb_true_iff in Hm. destruct Hm as [[[Hsp Hloc] Hst] Hcol].
  split; [|split; [|split]].
  - intros l Hl Hne. rewrite Hl in Hloc. unfold truthy in Hloc.
    apply String.eqb_neq in Hne. rewrite Hne in Hloc. cbn in Hloc.
    unfold optStringEqb in Hloc.
    destruct (Booking.locationId b) as [x|]; [|discriminate].
    apply String.eqb_eq in Hloc. now subst.
  - intros st Hq Hne. rewrite Hq in Hst. unfold truthy in Hst.
    apply String.eqb_neq in Hne. rewrite Hne in Hst. cbn in Hst.
    now apply String.eqb_eq in Hst.
  - intros Hq. unfold byCollection, optStringEqb in Hcol. rewrite Hq in Hcol.
    cbn in Hcol. now apply andb_true_iff in Hcol.
  - intros Hrole sp Hq Hne. unfold hasRole, optStringEqb in Hsp.
    rewrite Hrole in Hsp. cbn in Hsp. rewrite Hq in Hsp. unfold truthy in Hsp.
    apply String.eqb_neq in Hne. rewrite Hne in Hsp. cbn in Hsp.
    now apply String.eqb_eq in Hsp.
Qed.

Lemma list_rows_pass_the_filters_witness :
  exists body w',
    getBookings (Some adminUser) bookedOfSp2 (mkWorld sevenBooked [] [])
    = (Val (successResponse body "Bookings retrieved successfully" 200), w')
    /\ Forall (fun r => Booking.salesPersonId (row r) = "sp2"
                        /\ Booking.status (row r) = BOOKED)
              (lb_bookings body)
    /\ length (lb_bookings body) = 1%nat.
Proof.
  destruct (getBookings_sequential adminUser bookedOfSp2 sevenBooked []
              eq_refl eq_refl) as (w' & Hrun & _).
  exists (listBodyIn adminUser bookedOfSp2 sevenBooked), w'.
  split; [exact Hrun|]. split; [|reflexivity].
  apply Forall_forall. intros r Hr.
  assert (Hids : uniqueIds sevenBooked).
  { vm_compute. repeat constructor; rewrite ?elem_of_cons, ?elem_of_nil;
      intuition discriminate. }
  destruct (list_rows_pass_the_filters adminUser bookedOfSp2 sevenBooked []
              _ _ _ _ Hids Hrun r Hr) as (_ & _ & _ & Hst & _ & Hsp).
  split; [apply Hsp; [reflexivity|reflexivity|discriminate]|].
  apply statusName_inj. apply (Hst "booked"); [reflexivity|discriminate].
Defined.

Lemma sortedRows_spec (u : AuthUser) (q : ListQuery) (s : Store)
    (b : Booking.t) :
  b ∈ sortedRows u q s
  <-> b ∈ bookings s /\ matchesWhere (listWhere u q) b = true.
Proof.
  unfold sortedRows. rewrite sortBookings_permutation. unfold selectWhere.
  rewrite list_elem_of_filter. tauto.
Qed.

(** X19.  With [includeAllSalesPersons=true] and a location, a caller
    of role SALES_PERSON is shown the bookings of that location whoever
    owns them: asked without a status or collection filter and with a
    page size that holds them all, the first page of [getBookings]
    consists exactly of the bookings of the location.  Stated for
    requests served without concurrent writes. *)
Theorem colleagues_at_location_are_listed (u : AuthUser) (q : ListQuery)
    (s : Store) (t : list Event) (l : string) (limit : Z) :
  uniqueIds s ->
  au_role u = Some "SALES_PERSON" ->
  q_includeAllSalesPersons q = Some "true" ->
  q_locationId q = Some l -> l <> "" ->
  q_status q = None -> q_hasCollectionDate q = None ->
  1 <= limit -> Z.of_nat (length (bookings s)) <= limit ->
  exists body w',
    getBookings (Some u) (withPaging q (Some 1) (Some limit)) (mkWorld s t [])
    = (Val (successResponse body "Bookings retrieved successfully" 200), w')
    /\ forall b, b ∈ map row (lb_bookings body)
                 <-> b ∈ bookings s /\ Booking.locationId b = Some l.
Proof.
  intros Hids Hrole Hall Hloc Hne Hst Hcol Hlimit Hbig.
  assert (Htruthy : truthy (au_role u) = true) by now rewrite Hrole.
  assert (Hvalid : whereValid (listWhere u (withPaging q (Some 1) (Some limit)))
                   = true).
  { unfold whereValid, listWhere. cbn. now rewrite Hst. }
  destruct (getBookings_sequential u (withPaging q (Some 1) (Some limit)) s t
              Htruthy Hvalid) as (w' & Hrun & _).
  exists (listBodyIn u (withPaging q (Some 1) (Some limit)) s), w'.
  split; [exact Hrun|]. intros b.
  rewrite (listBodyIn_rows _ _ _ Hids), row_detailsIn.
  assert (Hpage : pageRows u (withPaging q (Some 1) (Some limit)) s
                  = sortedRows u q s).
  { unfold pageRows, skip, pageNumber, pageSize, numOr.
    cbn [q_page q_limit withPaging].
    destruct (Z.eqb_spec limit 0) as [?|_]; [lia|]. cbn [Z.eqb].
    change (sortedRows u (withPaging q (Some 1) (Some limit)) s)
      with (sortedRows u q s).
    rewrite (slice_window _ 1 limit) by lia. cbn [Z.sub Z.mul Z.to_nat drop].
    change ((1 - 1) * limit) with 0. cbn [Z.to_nat drop].
    apply take_ge.
    assert (Hlen : (length (sortedRows u q s) <= length (bookings s))%nat).
    { unfold sortedRows. rewrite sortBookings_permutation.
      unfold selectWhere. apply length_filter. }
    lia. }
  rewrite Hpage, sortedRows_spec.
  unfold matchesWhere, listWhere, shouldIncludeAllSalesPersons, byCollection,
    hasRole, optStringEqb, truthy.
  cbn [w_salesPersonId w_locationId w_status w_hasCollection].
  rewrite Hrole, Hall, Hloc, Hst, Hcol. cbn.
  apply String.eqb_neq in Hne. rewrite Hne. cbn.
  rewrite !andb_true_r.
  destruct (Booking.locationId b) as [x|].
  - rewrite String.eqb_eq. split; intros [H1 H2]; (split; [exact H1|]);
      congruence.
  - split; intros [_ H]; discriminate H.
Qed.

Lemma colleagues_at_location_are_listed_witness :
  exists body w',
    getBookings (Some salesAnn) (withPaging everyoneAtL1 (Some 1) (Some 20))
                (mkWorld twoLocations [] [])
    = (Val (successResponse body "Bookings retrieved successfully" 200), w')
    /\ placed "a2" "sp2" "L1" ∈ map row (lb_bookings body)
    /\ placed "a3" "sp2" "L2" ∉ map row (lb_bookings body).
Proof.
  destruct (colleagues_at_location_are_listed salesAnn everyoneAtL1
              twoLocations [] "L1" 20)
    as (body & w' & Hrun & Hrows); try reflexivity.
  - vm_compute. repeat constructor; rewrite ?elem_of_cons, ?elem_of_nil;
      intuition discriminate.
  - discriminate.
  - lia.
  - cbn. lia.
  - exists body, w'. split; [exact Hrun|]. split.
    + apply Hrows. split; [|reflexivity]. cbn. right. left.
    + intros Hin. apply Hrows in Hin as [_ Hloc]. discriminate Hloc.
Defined.

(** ** Errors of the store during an update *)

Lemma interleave_record (e : Event) (w : World) :
  interleave (record e w) = record e (interleave w).
Proof.
  destruct w as [s t p]. unfold interleave, record. cbn.
  destruct p; reflexivity.
Qed.

Lemma updateBooking_store_error (id : string) (req : UpdateRequest)
    (w : World) (b : Booking.t) (e : PrismaError) :
  ur_validationErrors req = [] ->
  findBooking id (db (interleave w)) = Some b ->
  lacksPermission (ur_user req) b = false ->
  truthy (ur_phoneNumber req)
  && negb (elevenDigits (default "" (ur_phoneNumber req))) = false ->
  truthy (flatten (ur_emergencyPhoneNumber req))
  && negb (elevenDigits (default "" (flatten (ur_emergencyPhoneNumber req))))
  = false ->
  updateRow id (updateData req) (db (interleave (interleave w))) = inl e ->
  updateBooking id req w
  = (Val (errorResponse "Internal server error" 500),
     {| db := db (interleave (interleave w));
        trace := trace w ++ [BookingFindUnique id;
                             BookingUpdate id (updateData req)];
        pending := pending (interleave (interleave w)) |}).
Proof.
  intros Hval Hb Hperm Hphone Hem Herr. unfold updateBooking, tryCatch.
  rewrite Hval. unfold prisma.booking_findUnique. rewrite bind_query.
  rewrite Hb, Hperm, Hphone, Hem.
  unfold prisma.booking_update. rewrite bind_command.
  rewrite interleave_record. cbn [db record]. rewrite Herr.
  unfold internalError, ret, record. cbn [db trace pending].
  rewrite !trace_interleave, <- app_assoc. reflexivity.
Qed.

(** X20.  An update that the store refuses is answered with 500, and
    the request writes nothing: the table is left as the other requests
    made it.  This is so, for a caller who may access the booking and a
    body that passes the checks of the route and of the controller, when
    another request has deleted the booking between the read and the write
    of the controller, and when the update moves a numbered booking to a
    location where another booking holds the same studio number (the
    answer is 500 here, not the 409 of the allocator).  The table the
    first call reads is [db (interleave w)], the one the second call
    writes to is [db (interleave (interleave w))]; without concurrent
    writes both are the table of [w]. *)
Theorem refused_update_changes_nothing (id : string) (req : UpdateRequest)
    (w : World) (b : Booking.t) :
  ur_validationErrors req = [] ->
  findBooking id (db (interleave w)) = Some b ->
  mayAccess (ur_user req) b ->
  truthy (ur_phoneNumber req)
  && negb (elevenDigits (default "" (ur_phoneNumber req))) = false ->
  truthy (flatten (ur_emergencyPhoneNumber req))
  && negb (elevenDigits (default "" (flatten (ur_emergencyPhoneNumber req))))
  = false ->
  findBooking id (db (interleave (interleave w))) = None
  \/ (exists current loc n other,
        findBooking id (db (interleave (interleave w))) = Some current
        /\ ur_locationId req = Some (Some loc) /\ loc <> ""
        /\ Booking.studioNumber current = Some n
        /\ other ∈ bookings (db (interleave (interleave w)))
        /\ Booking.id other <> id
        /\ Booking.locationId other = Some loc
        /\ Booking.studioNumber other = Some n) ->
  updateBooking id req w
  = (Val (errorResponse "Internal server error" 500),
     {| db := db (interleave (interleave w));
        trace := trace w ++ [BookingFindUnique id;
                             BookingUpdate id (updateData req)];
        pending := pending (interleave (interleave w)) |}).
Proof.
  intros Hval Hb Hmay Hphone Hem Hcause.
  apply lacksPermission_mayAccess in Hmay.
  set (s2 := db (interleave (interleave w))) in *.
  assert (Herr : exists e, updateRow id (updateData req) s2 = inl e).
  { unfold updateRow.
    destruct Hcause as [Hgone
                       |(b2 & loc & n & other & Hb2 & Hloc & Hne & Hn & Hin
                         & Hid & Hl & Hk)].
    { rewrite Hgone. now exists P2025. }
    rewrite Hb2.
    destruct (applyUpdate (updateData req) b2) as [b'|] eqn:Happ;
      [|now exists ValidationError].
    assert (Hfields : Booking.id b' = id
                      /\ Booking.locationId b' = Some loc
                      /\ Booking.studioNumber b' = Some n).
    { split; [|split].
      - rewrite (applyUpdate_id _ _ _ Happ).
        exact (proj1 (findBooking_id id s2 b2 Hb2)).
      - unfold applyUpdate in Happ.
        destruct (match u_status (updateData req) with
                  | Some n0 => statusOfName n0
                  | None => Some (Booking.status b2)
                  end); [|discriminate].
        destruct (match u_paymentMethod (updateData req) with
                  | Some n0 => paymentOfName n0
                  | None => Some (Booking.paymentMethod b2)
                  end); [|discriminate].
        cbn in Happ. injection Happ as <-. cbn. rewrite Hloc. cbn.
        unfold orNull, jsOr, truthy. apply String.eqb_neq in Hne.
        now rewrite Hne.
      - rewrite (applyUpdate_number (updateData req) b2 b' eq_refl Happ).
        exact Hn. }
    destruct Hfields as (Hid' & Hloc' & Hn').
    assert (Hbreaks : breaksUnique b' (bookings s2) = true).
    { unfold breaksUnique. rewrite Hloc', Hn', Hid'.
      apply existsb_exists. exists other. split;
        [now apply list_elem_of_In|].
      unfold holdsNumber, optStringEqb. rewrite Hl, Hk, String.eqb_refl,
        Z.eqb_refl. cbn. apply negb_true_iff. now apply String.eqb_neq. }
    rewrite Hbreaks. now exists P2002. }
  destruct Herr as [e Herr].
  now apply (updateBooking_store_error id req w b e).
Qed.

Lemma refused_update_changes_nothing_witness :
  updateBooking "m1" (moveTo adminUser york) (mkWorld numberedTwice [] [])
  = (Val (errorResponse "Internal server error" 500),
     mkWorld numberedTwice
       [BookingFindUnique "m1";
        BookingUpdate "m1" (updateData (moveTo adminUser york))] [])
  /\ updateBooking "m2" (moveTo adminUser leeds)
       {| db := numberedTwice; trace := [];
          pending := [fun s => s; without "m2"] |}
     = (Val (errorResponse "Internal server error" 500),
        mkWorld (without "m2" numberedTwice)
          [BookingFindUnique "m2";
           BookingUpdate "m2" (updateData (moveTo adminUser leeds))] []).
Proof.
  split.
  - apply (refused_update_changes_nothing "m1" (moveTo adminUser york)
             (mkWorld numberedTwice [] [])
             (sampleBooking "m1" leeds (Some 1) CONFIRMED));
      try reflexivity.
    + now left.
    + right.
      exists (sampleBooking "m1" leeds (Some 1) CONFIRMED), york, 1,
        (sampleBooking "m2" york (Some 1) CONFIRMED).
      repeat split; try reflexivity; try discriminate.
      cbn. right. left.
  - apply (refused_update_changes_nothing "m2" (moveTo adminUser leeds)
             {| db := numberedTwice; trace := [];
                pending := [fun s => s; without "m2"] |}
             (sampleBooking "m2" york (Some 1) CONFIRMED));
      try reflexivity.
    + now left.
    + left. reflexivity.
Defined.

(** ** The code of a location *)

Lemma allChars_app (p : ascii -> bool) (a b : string) :
  allChars p (a +:+ b) = allChars p a && allChars p b.
Proof.
  induction a as [|c a IH]; [reflexivity|].
  change (String c a +:+ b) with (String c (a +:+ b)).
  cbn. now rewrite IH, andb_assoc.
Qed.

Lemma length_app_string (a b : string) :
  String.length (a +:+ b) = (String.length a + String.length b)%nat.
Proof.
  induction a as [|c a IH]; [reflexivity|].
  change (String c a +:+ b) with (String c (a +:+ b)).
  cbn. now rewrite IH.
Qed.

Lemma allChars_rev_app (p : ascii -> bool) (s1 : string) :
  forall s2, allChars p (String.rev_app s1 s2) = allChars p s1 && allChars p s2.
Proof.
  induction s1 as [|c s1 IH]; intros s2; [reflexivity|].
  cbn. rewrite IH. cbn. rewrite !andb_assoc. f_equal. apply andb_comm.
Qed.

Lemma allChars_rev (p : ascii -> bool) (s : string) :
  allChars p (String.rev s) = allChars p s.
Proof.
  unfold String.rev. rewrite allChars_rev_app. cbn. apply andb_true_r.
Qed.

Lemma allChars_trimStart (s : string) :
  allChars is_js_space (trimStart s) = allChars is_js_space s.
Proof.
  induction s as [|c s IH]; [reflexivity|].
  cbn [trimStart]. destruct (is_js_space c) eqn:Hc; [|reflexivity].
  cbn. now rewrite Hc, IH.
Qed.

Lemma allChars_trim (s : string) :
  allChars is_js_space (trim s) = allChars is_js_space s.
Proof.
  unfold trim, trimEnd.
  now rewrite allChars_rev, allChars_trimStart, allChars_rev,
    allChars_trimStart.
Qed.

Lemma upper_ascii_stable (c : ascii) :
  upper_ascii (upper_ascii c) = upper_ascii c
  /\ is_js_space (upper_ascii c) = is_js_space c.
Proof.
  destruct c as [[] [] [] [] [] [] [] []]; split; reflexivity.
Qed.

Lemma toUpperCase_spaces (s : string) :
  allChars is_js_space (toUpperCase s) = allChars is_js_space s.
Proof.
  induction s as [|c s IH]; [reflexivity|].
  cbn. now rewrite IH, (proj2 (upper_ascii_stable c)).
Qed.

Lemma toUpperCase_stable (s : string) :
  allChars (fun c => Ascii.eqb (upper_ascii c) c) (toUpperCase s) = true.
Proof.
  induction s as [|c s IH]; [reflexivity|].
  cbn. rewrite IH, (proj1 (upper_ascii_stable c)), Ascii.eqb_refl.
  reflexivity.
Qed.

Lemma splitWords_none (s : string) :
  forall word, splitWords s word = []
               <-> word = "" /\ allChars is_js_space s = true.
Proof.
  induction s as [|c s IH]; intros word; cbn [splitWords allChars].
  - destruct (String.eqb_spec word "") as [He|Hne].
    + split; [intros _; now split|reflexivity].
    + split; [discriminate|intros [H _]; contradiction].
  - destruct (is_js_space c) eqn:Hc; cbn [andb].
    + destruct (String.eqb_spec word "") as [He|Hne].
      * rewrite IH. split; [intros [_ H]; now split|intros [_ H]; now split].
      * split; [discriminate|intros [H _]; contradiction].
    + rewrite IH. split; [|intros [_ H]; discriminate H].
      intros [H _]. destruct word; discriminate H.
Qed.

Lemma splitWords_words (s : string) :
  forall word,
    allChars (fun c => Ascii.eqb (upper_ascii c) c) s = true ->
    allChars codeChar word = true ->
    Forall (fun w => w <> "" /\ allChars codeChar w = true)
           (splitWords s word).
Proof.
  induction s as [|c s IH]; intros word Hs Hw; cbn.
  - destruct (String.eqb_spec word "") as [|Hne]; constructor; auto.
  - cbn in Hs. apply andb_true_iff in Hs as [Hc Hs].
    destruct (is_js_space c) eqn:Hsp.
    + destruct (String.eqb_spec word "") as [|Hne].
      * now apply IH.
      * constructor; [now split|]. now apply IH.
    + apply IH; [exact Hs|]. rewrite allChars_app, Hw. cbn.
      unfold codeChar. now rewrite Hc, Hsp.
Qed.

Lemma substring_prefix (p : ascii -> bool) (n : nat) (s : string) :
  allChars p s = true ->
  allChars p (String.substring 0 n s) = true
  /\ String.length (String.substring 0 n s) = Nat.min n (String.length s).
Proof.
  revert s. induction n as [|n IH]; intros s Hs.
  - destruct s; split; reflexivity.
  - destruct s as [|c s]; [split; reflexivity|].
    cbn in Hs. apply andb_true_iff in Hs as [Hc Hs].
    destruct (IH s Hs) as [H1 H2]. cbn. rewrite Hc, H1, H2. now split.
Qed.

Lemma initials_shape (words : list string) :
  Forall (fun w => w <> "" /\ allChars codeChar w = true) words ->
  allChars codeChar (initials words) = true
  /\ String.length (initials words) = Nat.min 3 (length words).
Proof.
  intros Hw. unfold initials.
  assert (Hcat : allChars codeChar
                   (String.concat "" (map (String.substring 0 1) words)) = true
                 /\ String.length
                      (String.concat "" (map (String.substring 0 1) words))
                    = length words).
  { induction Hw as [|w ws [Hne Hc] _ IH]; [split; reflexivity|].
    destruct IH as [IH1 IH2].
    destruct (substring_prefix codeChar 1 w Hc) as [H1 H2].
    assert (Hlen : String.length (String.substring 0 1 w) = 1%nat).
    { rewrite H2. destruct w; [contradiction|cbn; lia]. }
    cbn [map String.concat].
    destruct (map (String.substring 0 1) ws) as [|x xs] eqn:Hxs.
    - destruct ws; [|discriminate]. cbn. now split.
    - change (String.substring 0 1 w ++ "" ++ String.concat "" (x :: xs))%string
        with (String.substring 0 1 w +:+ String.concat "" (x :: xs)).
      rewrite allChars_app, length_app_string, H1, IH1, IH2, Hlen.
      split; [reflexivity|]. cbn. lia. }
  destruct Hcat as [Hc Hl].
  destruct (substring_prefix codeChar 3 _ Hc) as [H1 H2].
  split; [exact H1|]. now rewrite H2, Hl.
Qed.

(** X21.  The code generated for a location whose name is written in
    ASCII is one to three characters taken from the name in upper case,
    none of them white space.  A name of white space only, or none, gets
    no code; any other name gets one.  So for a location with a generated
    code the message of [allocateStudioNumber] always shows the number as
    [CODE-n]. *)
Theorem location_code_shape (name : string) :
  allChars is_ascii name = true ->
  (generateLocationCode (JsString name) = None
   <-> allChars is_js_space name = true)
  /\ forall code,
       generateLocationCode (JsString name) = Some code ->
       (1 <= String.length code <= 3)%nat
       /\ allChars codeChar code = true
       /\ forall l n, Location.code l = Some code ->
            studioNumberDisplay l (Some n) = code +:+ "-" +:+ pretty n.
Proof.
  intros _.
  unfold generateLocationCode. cbn [jsTruthy isJsString jsStringOf negb orb].
  rewrite orb_false_r.
  set (words := splitWords (toUpperCase (trim name)) "").
  assert (Hnone : words = [] <-> allChars is_js_space name = true).
  { unfold words. rewrite splitWords_none, toUpperCase_spaces, allChars_trim.
    tauto. }
  assert (Hwords : Forall (fun w => w <> "" /\ allChars codeChar w = true)
                          words).
  { apply splitWords_words; [apply toUpperCase_stable|reflexivity]. }
  assert (Hshape : forall code,
            match words with
            | [] => None
            | [word] => Some (String.substring 0 3 word)
            | _ =>
                if Nat.eqb (String.length
                              (initials (filter
                                 (fun word => existsb (String.eqb word) skipWords
                                              = false) words))) 0
                then Some (initials words)
                else Some (initials (filter
                             (fun word => existsb (String.eqb word) skipWords
                                          = false) words))
            end = Some code ->
            (1 <= String.length code <= 3)%nat
            /\ allChars codeChar code = true).
  { intros code Hcode. destruct words as [|w [|w2 ws]] eqn:Hw;
      [discriminate| |].
    - injection Hcode as <-. apply Forall_cons in Hwords as [[Hne Hc] _].
      destruct (substring_prefix codeChar 3 w Hc) as [H1 H2].
      split; [|exact H1]. rewrite H2.
      destruct w; [contradiction|cbn [String.length]; lia].
    - set (kept := filter _ (w :: w2 :: ws)) in *.
      assert (Hkept : Forall (fun w => w <> "" /\ allChars codeChar w = true)
                             kept).
      { apply Forall_forall. intros x Hx. unfold kept in Hx.
        apply list_elem_of_filter in Hx as [_ Hx].
        rewrite Forall_forall in Hwords. now apply Hwords. }
      destruct (initials_shape kept Hkept) as [K1 K2].
      destruct (initials_shape (w :: w2 :: ws) Hwords) as [A1 A2].
      destruct (Nat.eqb_spec (String.length (initials kept)) 0) as [H0|H0];
        injection Hcode as <-.
      + split; [|exact A1]. rewrite A2. cbn [length]. lia.
      + split; [|exact K1]. rewrite K2 in H0 |- *. lia. }
  split.
  - destruct (String.eqb_spec name "") as [->|Hne]; cbn [negb].
    + split; reflexivity.
    + rewrite <- Hnone. destruct words as [|w [|w2 ws]].
      * tauto.
      * split; discriminate.
      * split; [|discriminate].
        destruct (Nat.eqb _ 0); discriminate.
  - intros code Hcode.
    assert (Hc : (1 <= String.length code <= 3)%nat
                 /\ allChars codeChar code = true).
    { destruct (String.eqb name ""); [discriminate|]. now apply Hshape. }
    destruct Hc as [Hlen Hchars]. split; [exact Hlen|]. split; [exact Hchars|].
    intros l n Hl. unfold studioNumberDisplay, truthy. rewrite Hl. cbn.
    destruct code; [cbn in Hlen; lia|]. reflexivity.
Qed.

Lemma location_code_shape_witness :
  generateLocationCode (JsString "Garden Town Cantt Multan") = Some "GTC"
  /\ studioNumberDisplay
       {| Location.id := "L9"; Location.name := "Garden Town Cantt Multan";
          Location.code := Some "GTC" |} (Some 4)
     = "GTC-4".
Proof.
  split; [reflexivity|].
  destruct (location_code_shape "Garden Town Cantt Multan" eq_refl)
    as [_ Hshape].
  destruct (Hshape "GTC" eq_refl) as (_ & _ & Hshow).
  rewrite (Hshow {| Location.id := "L9";
                    Location.name := "Garden Town Cantt Multan";
                    Location.code := Some "GTC" |} 4 eq_refl).
  reflexivity.
Defined.

(** The header comment of the function gives ["MOM"] for this name; the
    word OF is skipped, so the code has the two initials left. *)
Example location_code_skips_of :
  generateLocationCode (JsString "Mall of Multan") = Some "MM".
Proof. reflexivity. Qed.

(** ** The fallback of the allocator *)

Lemma last_of_sorted (l : list Z) (m : Z) :
  Sorted Z.le l -> last l = Some m -> m ∈ l /\ forall x, x ∈ l -> x <= m.
Proof.
  intros Hs. apply Sorted_StronglySorted in Hs; [|intros x y z; lia].
  induction Hs as [|x l Hs IH Hall]; [discriminate|].
  destruct l as [|y l'].
  - intros [= <-]. split; [now left|].
    intros z Hz. apply list_elem_of_singleton in Hz as ->. lia.
  - change (last (x :: y :: l')) with (last (y :: l')). intros Hlast.
    destruct (IH Hlast) as [Hm Hmax]. split; [now right|].
    intros z Hz. apply elem_of_cons in Hz as [->|Hz]; [|now apply Hmax].
    rewrite Forall_forall in Hall. now apply Hall.
Qed.

(** Where the numbers of a location are 1..n, the scan proposes n+1, and
    so does the fallback. *)
Lemma dense_candidates (loc : string) (s : Store) :
  wellFormed s -> dense loc s -> numbersAt loc (bookings s) <> [] ->
  gapScan (studioNumbersAsc loc s)
  = Z.of_nat (length (numbersAt loc (bookings s))) + 1
  /\ lastPlusOne (studioNumbersAsc loc s)
     = Some (Z.of_nat (length (numbersAt loc (bookings s))) + 1).
Proof.
  intros (_ & Hnum & Hpos) Hdense Hne. unfold dense in Hdense.
  specialize (Hnum loc). pose proof (positive_numbers_at loc s Hpos) as Hall.
  unfold studioNumbersAsc.
  revert Hdense Hne Hnum Hall.
  generalize (numbersAt loc (bookings s)). intros used Hdense Hne Hnum Hall.
  split.
  - apply (smallestUnused_unique used).
    + apply gapScan_smallestUnused; [exact Hnum|].
      intros x Hx. rewrite Forall_forall in Hall. now apply Hall.
    + repeat split.
      * lia.
      * intros Hin. apply Hdense in Hin. lia.
      * intros k Hk. apply Hdense. lia.
  - unfold lastPlusOne.
    set (sorted := merge_sort Z.le (merge_sort Z.le used)).
    assert (Hperm : sorted ≡ₚ used).
    { unfold sorted. now rewrite !merge_sort_Permutation. }
    destruct (last sorted) as [m|] eqn:Hlast.
    + destruct (last_of_sorted sorted m) as [Hm Hmax];
        [apply (Sorted_merge_sort Z.le)|exact Hlast|].
      rewrite Hperm in Hm. apply Hdense in Hm.
      assert (Hn : Z.of_nat (length used) ∈ sorted).
      { rewrite Hperm. apply Hdense.
        destruct used; [contradiction|]. cbn [length]. lia. }
      apply Hmax in Hn. f_equal. lia.
    + apply last_None in Hlast. rewrite Hlast in Hperm.
      apply Permutation_nil_l in Hperm. now symmetry in Hperm.
Qed.

(** X22.  Where the studio numbers of a location are 1..n without a
    gap, the fallback of [allocateStudioNumber] does not find a free
    number.  When another request takes the candidate n+1 between the scan
    and the re-query, the re-query finds it taken; the number computed
    instead, one more than the greatest number read before, is n+1 again;
    the update is refused, and the answer is 409.  The request has written
    nothing: the table is as the other request left it. *)
Theorem fallback_repeats_taken_number (s : Store) (t : list Event)
    (id loc : string) (b : Booking.t) (l : Location.t)
    (rival : Store -> Store) (holder : Booking.t) :
  wellFormed s ->
  findBooking id s = Some b ->
  Booking.locationId b = Some loc -> loc <> "" ->
  Booking.studioNumber b = None ->
  findLocation loc s = Some l ->
  dense loc s -> numbersAt loc (bookings s) <> [] ->
  findBooking id (rival s) = Some b ->
  findHolder loc (Z.of_nat (length (numbersAt loc (bookings s))) + 1) id
             (rival s) = Some holder ->
  let n := Z.of_nat (length (numbersAt loc (bookings s))) in
  gapScan (studioNumbersAsc loc s) = n + 1
  /\ lastPlusOne (studioNumbersAsc loc s) = Some (n + 1)
  /\ allocateStudioNumber id
       {| db := s; trace := t;
          pending := [fun x => x; fun x => x; fun x => x; rival] |}
     = (Val (errorResponse
               "Studio number conflict occurred. Please try again." 409),
        {| db := rival s;
           trace := t ++ [ BookingFindUnique id; LocationFindUnique loc;
                           BookingFindMany;
                           BookingFindFirst loc (n + 1) id true;
                           BookingUpdate id (allocationData (Some (n + 1))) ];
           pending := [] |}).
Proof.
  intros Hwf Hb Hloc Hne Hnone Hl Hdense Hsome Hb' Hholder n.
  destruct (dense_candidates loc s Hwf Hdense Hsome) as [Hscan Hlast].
  fold n in Hscan, Hlast, Hholder.
  split; [exact Hscan|]. split; [exact Hlast|].
  assert (Htruthy : truthy (Booking.locationId b) = true).
  { rewrite Hloc. cbn. now apply negb_true_iff, String.eqb_neq. }
  assert (Hrefused : updateRow id (allocationData (Some (n + 1))) (rival s)
                     = inl P2002).
  { unfold updateRow. rewrite Hb', applyUpdate_allocation.
    unfold breaksUnique.
    cbn [Booking.locationId Booking.studioNumber Booking.id allocatedRow].
    rewrite Hloc. destruct (findBooking_id id (rival s) b Hb') as [-> _].
    unfold findHolder in Hholder. apply find_some in Hholder as [Hin Hholds].
    assert (Hex : existsb (holdsNumber loc (n + 1) id) (bookings (rival s))
                  = true).
    { apply existsb_exists. now exists holder. }
    now rewrite Hex. }
  unfold allocateStudioNumber, tryCatch, prisma.booking_findUnique,
    prisma.location_findUnique, prisma.booking_studioNumbers,
    prisma.booking_findFirst, prisma.booking_update.
  rewrite bind_query. cbn [interleave pending db trace record].
  rewrite Hb, Htruthy, Hnone. cbn [negb isSome].
  rewrite Hloc. change (default "" (Some loc)) with loc.
  rewrite bind_query. cbn [interleave pending db trace record].
  rewrite Hl.
  rewrite bind_query. cbn [interleave pending db trace record].
  rewrite bind_query. cbn [interleave pending db trace record].
  rewrite Hscan, Hholder. unfold resolveNumber. cbn [isSome].
  rewrite Hlast.
  rewrite bind_command. cbn [interleave pending db trace record].
  rewrite Hrefused. unfold allocateCatch, ret, record.
  cbn [db trace pending]. rewrite <- !app_assoc. reflexivity.
Qed.

Lemma fallback_repeats_taken_number_witness :
  allocateStudioNumber "new"
    {| db := sampleStore [1; 2; 3]; trace := [];
       pending := [fun x => x; fun x => x; fun x => x; rivalTakes 4] |}
  = (Val (errorResponse
            "Studio number conflict occurred. Please try again." 409),
     {| db := rivalTakes 4 (sampleStore [1; 2; 3]);
        trace := [ BookingFindUnique "new"; LocationFindUnique "L1";
                   BookingFindMany; BookingFindFirst "L1" 4 "new" true;
                   BookingUpdate "new" (allocationData (Some 4)) ];
        pending := [] |}).
Proof.
  apply (fallback_repeats_taken_number (sampleStore [1; 2; 3]) [] "new" "L1"
           (sampleBooking "new" "L1" None BOOKED)
           {| Location.id := "L1"; Location.name := "Leeds";
              Location.code := Some "LE" |}
           (rivalTakes 4)
           (sampleBooking "rival" "L1" (Some 4) CONFIRMED));
    try reflexivity; try discriminate.
  - apply sampleStore_wellFormed.
  - intros k. change (numbersAt "L1" (bookings (sampleStore [1; 2; 3])))
      with [1; 2; 3]. rewrite !elem_of_cons, elem_of_nil. cbn. lia.
Defined.

(** ** The outcomes of [createBooking] *)

(** X23.  Whatever other requests write in between, [createBooking]
    always answers, with 201, 400 or 500.  A 400 answer leaves store and
    trace exactly as they were: the request is refused before any call of
    the store.  A 201 answer comes with exactly one call, the create, and
    appends the returned row to the table.  A 500 answer means the store
    refused the create, and no row was added. *)
Theorem create_outcomes (newId : string) (req : CreateRequest) (w : World) :
  exists r,
    fst (createBooking newId req w) = Val r
    /\ (statusCodeOf r = 201 \/ statusCodeOf r = 400 \/ statusCodeOf r = 500)
    /\ (statusCodeOf r = 400 -> snd (createBooking newId req w) = w)
    /\ (statusCodeOf r = 201 ->
        exists b,
          r = successResponse b "Booking created successfully" 201
          /\ trace (snd (createBooking newId req w))
             = trace w ++ [BookingCreate newId]
          /\ bookings (db (snd (createBooking newId req w)))
             = bookings (db (interleave w)) ++ [b])
    /\ (statusCodeOf r = 500 ->
        trace (snd (createBooking newId req w))
        = trace w ++ [BookingCreate newId]
        /\ db (snd (createBooking newId req w)) = db (interleave w)).
Proof.
  unfold createBooking, tryCatch.
  destruct (cr_validationErrors req) as [|m rest].
  2:{ eexists. cbn. repeat split; auto; discriminate. }
  destruct (negb (elevenDigits (cr_phoneNumber req))).
  { eexists. cbn. repeat split; auto; discriminate. }
  destruct (truthy (cr_emergencyPhoneNumber req)
            && negb (elevenDigits (default "" (cr_emergencyPhoneNumber req)))).
  { eexists. cbn. repeat split; auto; discriminate. }
  destruct (negb (String.eqb (bookingStatus (cr_status req)) "TBC")
            && negb (hasSlot (cr_sessionDate req) (cr_sessionTime req))
            && negb (hasSlot (cr_specialRequestDate req)
                             (cr_specialRequestTime req))).
  { eexists. cbn. repeat split; auto; discriminate. }
  unfold prisma.booking_create. rewrite bind_command.
  destruct (createRow newId (createData req) (db (interleave w)))
    as [e|[b s']] eqn:Hrow.
  - eexists. cbn. rewrite trace_interleave.
    repeat split; auto; discriminate.
  - apply createRow_stored in Hrow as (_ & _ & -> & _).
    eexists. cbn. split; [reflexivity|]. split; [now left|].
    split; [discriminate|]. split; [|discriminate].
    intros _. exists b. repeat split.
Qed.

Lemma create_outcomes_witness :
  exists r,
    fst (createBooking "b2" (sampleCreate "0712" None JsNull JsNull)
           (quiet emptyStore)) = Val r
    /\ statusCodeOf r = 400
    /\ snd (createBooking "b2" (sampleCreate "0712" None JsNull JsNull)
              (quiet emptyStore)) = quiet emptyStore.
Proof.
  destruct (create_outcomes "b2" (sampleCreate "0712" None JsNull JsNull)
              (quiet emptyStore)) as (r & Hr & _ & H400 & _).
  exists r. split; [exact Hr|].
  assert (Hcode : statusCodeOf r = 400).
  { vm_compute in Hr. injection Hr as <-. reflexivity. }
  split; [exact Hcode|]. now apply H400.
Defined.

Lemma signatureFile_not_empty (id : string) (stamp : Stamp) :
  signatureFile id stamp <> "".
Proof.
  unfold signatureFile. intros H. apply (f_equal String.length) in H.
  rewrite length_app_string in H. cbn in H. lia.
Qed.

(** X24.  Signing again replaces the signature.  When the consent form
    of a booking is signed twice, on a working file system and without
    concurrent writes, the second call answers 200, the booking points to
    the second image, that image is on the disk, and the first image has
    been removed: the booking never keeps more than one signature file. *)
Theorem signing_again_replaces_the_file (id sig1 sig2 : string)
    (st1 st2 : Stamp) (s : Store) (t : list Event) (d : Disk) (b : Booking.t) :
  sig1 <> "" -> sig2 <> "" -> wellFormed s -> findBooking id s = Some b ->
  healthy d -> signatureFile id st1 <> signatureFile id st2 ->
  exists view m2,
    saveConsentFormSignature id (JsString sig2) st2
      (snd (saveConsentFormSignature id (JsString sig1) st1
              (mkMachine (mkWorld s t []) d)))
    = (Val (successResponse view "Consent form signature saved successfully"
              200), m2)
    /\ sb_signaturePath view = Some (signatureFile id st2)
    /\ sb_consentFormSigned view = true
    /\ option_map Booking.signaturePath (findBooking id (db (world m2)))
       = Some (Some (signatureFile id st2))
    /\ files (disk m2) !! signatureFile id st2 = Some (base64String sig2)
    /\ files (disk m2) !! signatureFile id st1 = None.
Proof.
  intros Hsig1 Hsig2 Hwf Hb Hd Hdiff.
  destruct (consent_run id sig1 st1 s t d b Hsig1 Hwf Hb Hd)
    as (s1 & d1 & Hrun1 & Hfound1 & _ & _ & _ & _ & Hwf1 & Hd1).
  rewrite Hrun1. cbn [snd].
  destruct (consent_run id sig2 st2 s1
              (t ++ [BookingFindUnique id;
                     BookingUpdate id (signatureData (signatureFile id st1))])
              d1 (signedRow b (signatureFile id st1)) Hsig2 Hwf1 Hfound1 Hd1)
    as (s2 & d2 & Hrun2 & Hfound2 & _ & Hnew & Hold & _).
  eexists _, _. split; [exact Hrun2|]. cbn [world disk db].
  split; [reflexivity|]. split; [reflexivity|].
  split; [now rewrite Hfound2|]. split; [exact Hnew|].
  apply Hold; [reflexivity|apply signatureFile_not_empty|exact Hdiff].
Qed.

Lemma signing_again_replaces_the_file_witness :
  exists view m2,
    saveConsentFormSignature "A" (JsString "data:image/png;base64,BBBB")
      {| timestamp := 1700000000001; randomSuffix := "zz91qa" |}
      (snd (saveConsentFormSignature "A"
              (JsString "data:image/png;base64,iVBOR") sampleStamp
              (mkMachine (mkWorld (storeOf [bookingA]) [] [])
                         (sampleDisk [] None))))
    = (Val (successResponse view "Consent form signature saved successfully"
              200), m2)
    /\ files (disk m2) !! "signatures/booking_A_1700000000001_zz91qa.png"
       = Some "BBBB"
    /\ files (disk m2) !! "signatures/booking_A_1700000000000_k3x9ab.png"
       = None.
Proof.
  destruct (signing_again_replaces_the_file "A"
              "data:image/png;base64,iVBOR" "data:image/png;base64,BBBB"
              sampleStamp
              {| timestamp := 1700000000001; randomSuffix := "zz91qa" |}
              (storeOf [bookingA]) [] (sampleDisk [] None) bookingA)
    as (view & m2 & Hrun & _ & _ & _ & Hnew & Hold).
  - discriminate.
  - discriminate.
  - split; [|split].
    + vm_compute. repeat constructor. rewrite elem_of_nil. tauto.
    + intros loc. cbn. constructor.
    + intros b n Hb. cbn in Hb. apply list_elem_of_singleton in Hb as ->.
      discriminate.
  - reflexivity.
  - unfold healthy. cbn. auto.
  - vm_compute. discriminate.
  - exists view, m2. split; [exact Hrun|]. split; [exact Hnew|exact Hold].
Defined.

(** ** The summary adds up *)

Lemma status_partition (rows : list Booking.t) :
  countWithStatus CONFIRMED rows + countWithStatus BOOKED rows
  + countWithStatus TBC rows + countWithStatus CANCELLED rows
  + countWithStatus NO_ANSWER rows + countWithStatus WLMK rows
  + countWithStatus VIDEO_CALL rows
  = Z.of_nat (length rows).
Proof.
  unfold countWithStatus. induction rows as [|b rows IH]; [reflexivity|].
  rewrite !filter_cons. cbn [length].
  destruct (Booking.status b) eqn:Hst;
    repeat match goal with
           | |- context [decide (?a = ?b)] =>
               destruct (decide (a = b)); try discriminate; try congruence
           end;
    cbn [length]; lia.
Qed.

(** X25.  The summary of a list answer adds up: the counts of the seven
    statuses sum to [summary.total], which is also [pagination.total],
    the size of the filtered set.  Stated for requests served without
    concurrent writes. *)
Theorem summary_adds_up (u : AuthUser) (q : ListQuery) (s : Store)
    (t : list Event) (body : ListBody) (msg : string) (code : Z) (w' : World) :
  getBookings (Some u) q (mkWorld s t [])
  = (Val (successResponse body msg code), w') ->
  sm_confirmed (lb_summary body) + sm_booked (lb_summary body)
  + sm_tbc (lb_summary body) + sm_cancelled (lb_summary body)
  + sm_noAnswer (lb_summary body) + sm_wlmk (lb_summary body)
  + sm_videoCall (lb_summary body)
  = sm_total (lb_summary body)
  /\ sm_total (lb_summary body) = pg_total (lb_pagination body)
  /\ pg_total (lb_pagination body)
     = Z.of_nat (length (selectWhere (listWhere u q) s)).
Proof.
  intros Hrun.
  apply getBookings_success in Hrun as (u0 & [= <-] & _ & _ & -> & _).
  unfold listBodyIn, summaryOf.
  cbn [lb_summary lb_pagination sm_total sm_confirmed sm_booked sm_tbc
       sm_cancelled sm_noAnswer sm_wlmk sm_videoCall pg_total].
  split; [|split; reflexivity].
  change "CONFIRMED" with (statusName CONFIRMED).
  change "BOOKED" with (statusName BOOKED).
  change "TBC" with (statusName TBC).
  change "CANCELLED" with (statusName CANCELLED).
  change "NO_ANSWER" with (statusName NO_ANSWER).
  change "WLMK" with (statusName WLMK).
  change "VIDEO_CALL" with (statusName VIDEO_CALL).
  rewrite !statusCounts_count. apply status_partition.
Qed.

Lemma summary_adds_up_witness :
  exists body,
    fst (getBookings (Some adminUser) (plainQuery (Some 3) (Some 2))
           (mkWorld sevenBooked [] []))
    = Val (successResponse body "Bookings retrieved successfully" 200)
    /\ sm_total (lb_summary body) = 7
    /\ sm_confirmed (lb_summary body) + sm_booked (lb_summary body)
       + sm_tbc (lb_summary body) + sm_cancelled (lb_summary body)
       + sm_noAnswer (lb_summary body) + sm_wlmk (lb_summary body)
       + sm_videoCall (lb_summary body) = 7.
Proof.
  destruct (getBookings_sequential adminUser (plainQuery (Some 3) (Some 2))
              sevenBooked [] eq_refl eq_refl) as (w' & Hrun & _).
  exists (listBodyIn adminUser (plainQuery (Some 3) (Some 2)) sevenBooked).
  split; [now rewrite Hrun|].
  destruct (summary_adds_up adminUser (plainQuery (Some 3) (Some 2))
              sevenBooked [] _ _ _ _ Hrun) as (Hsum & _ & _).
  split; [reflexivity|]. rewrite Hsum. reflexivity.
Defined.
